(** * The cross-network relay bridge (plugins/relay.py)

    A shallow embedding of the two relay cogs of the bot:
    - [DiscordRelay]: the producers and the publisher loop over the
      outbound [send_buffer], and [serialize];
    - [IRCReceiver]: the consumer loop, [deserialize] with its staleness
      check, the event router [handle_event], the moderation path and the
      message formatters.

    Python values that cross the wire are modelled by [json]; a Python
    exception is a [Raise] result; calls to the chat adapters, to the broker
    and to the logger are recorded in a trace of [action]s.  The Python
    libraries the plugin calls (json through Munch, datetime's strptime and
    strftime, the matcher of re and the table of decimal digits behind its
    [\d]) are the fields of the [Runtime] class; [PyLib] gives an executable
    instance of it and [Sample] a small deployment, on which the model is
    run. *)

From Stdlib Require Import ZArith String Ascii List Bool Lia DecimalString.
From Stdlib Require DecimalPos.
Import ListNotations.
Set Warnings "-register-all".
Local Open Scope string_scope.
Local Open Scope Z_scope.

(** ** Python values *)

(** The values Munch.fromJSON can return: None, bool, int, str, list and
    Munch (a dict with string keys, in insertion order). *)
Inductive json : Type :=
| JNull
| JBool (b : bool)
| JInt (z : Z)
| JStr (s : string)
| JList (items : list json)
| JObj (fields : list (string * json)).

Inductive exn : Type :=
| AttributeError (name : string)
| TypeError (msg : string)
| ValueError (msg : string)
| IndexError (msg : string)
| KeyError (msg : string)
| JSONDecodeError (msg : string)
| ReError (msg : string).

Inductive result (A : Type) : Type :=
| Ok (a : A)
| Raise (e : exn).
Arguments Ok {A} a.
Arguments Raise {A} e.

(** [str(e)] of an exception. *)
Definition exn_str (e : exn) : string :=
  match e with
  | AttributeError n => n
  | TypeError m | ValueError m | IndexError m | KeyError m
  | JSONDecodeError m | ReError m => m
  end.

(** ** Effects: a trace of calls, and exceptions *)

Inductive level : Type := DEBUG | WARNING.

(** A call that leaves the plugin: to the logger, to a channel or a guild of
    the chat adapter, or to the broker. *)
Inductive action : Type :=
| Log (lv : level) (msg : string)
| ChannelSend (channel_id : Z) (msg : string)
| GuildKick (guild member : Z)
| GuildBan (guild member days : Z)
| GuildUnban (guild member : Z)
| CreateDm (user : Z)
| DmSendEmbed (user : Z) (title : string) (fields : list (string * string))
| MqPublish (bodies : list string).

Definition trace : Type := list action.

(** A computation: the calls it made, then its value or the exception that
    ended it. *)
Definition M (A : Type) : Type := (trace * result A)%type.

Definition ret {A : Type} (a : A) : M A := ([], Ok a).
Definition raise {A : Type} (e : exn) : M A := ([], Raise e).
Definition lift {A : Type} (r : result A) : M A := ([], r).
Definition emit (a : action) : M unit := ([a], Ok tt).

Definition bind {A B : Type} (m : M A) (k : A -> M B) : M B :=
  match m with
  | (t, Ok a) => let (t', r) := k a in ((t ++ t')%list, r)
  | (t, Raise e) => (t, Raise e)
  end.

(** [try: m  except Exception as e: handler e] *)
Definition try_except {A : Type} (m : M A) (handler : exn -> M A) : M A :=
  match m with
  | (t, Ok a) => (t, Ok a)
  | (t, Raise e) => let (t', r) := handler e in ((t ++ t')%list, r)
  end.

Declare Scope py_scope.
Delimit Scope py_scope with py.
Notation "x <- c ;; k" := (bind c (fun x => k))
  (at level 100, c at next level, right associativity) : py_scope.
Notation "c ;;; k" := (bind c (fun _ => k))
  (at level 100, right associativity) : py_scope.
Local Open Scope py_scope.

Definition log_debug (msg : string) : M unit := emit (Log DEBUG msg).
Definition log_warning (msg : string) : M unit := emit (Log WARNING msg).

Definition is_warning (a : action) : bool :=
  match a with Log WARNING _ => true | _ => false end.

(** The calls of a trace that reach a chat adapter (a send, a moderation
    action, a direct message). *)
Definition is_adapter_call (a : action) : bool :=
  match a with
  | ChannelSend _ _ | GuildKick _ _ | GuildBan _ _ _ | GuildUnban _ _
  | CreateDm _ | DmSendEmbed _ _ _ => true
  | Log _ _ | MqPublish _ => false
  end.

Definition adapter_calls (t : trace) : trace := filter is_adapter_call t.
Definition warnings (t : trace) : trace := filter is_warning t.

(** ** Python operations on values *)

Fixpoint lookup {V : Type} (k : string) (kv : list (string * V)) : option V :=
  match kv with
  | [] => None
  | (k', v) :: rest => if String.eqb k k' then Some v else lookup k rest
  end.

(** Attribute access [v.name] on a Munch; any other value has none of the
    attribute names the plugin reads. *)
Definition getattr (v : json) (name : string) : M json :=
  match v with
  | JObj kv =>
      match lookup name kv with
      | Some x => ret x
      | None => raise (AttributeError name)
      end
  | _ => raise (AttributeError name)
  end.

(** The keys of a dict differ from one another. *)
Fixpoint distinct (keys : list string) : bool :=
  match keys with
  | [] => true
  | k :: rest => negb (existsb (String.eqb k) rest) && distinct rest
  end.

(** A value that Python can hold: in each Munch, each key once. *)
Fixpoint well_formed (v : json) : bool :=
  match v with
  | JList items => forallb well_formed items
  | JObj fields =>
      distinct (map fst fields)
      && forallb (fun field => well_formed (snd field)) fields
  | JNull | JBool _ | JInt _ | JStr _ => true
  end.

(** Python truthiness. *)
Definition truthy (v : json) : bool :=
  match v with
  | JNull => false
  | JBool b => b
  | JInt z => negb (z =? 0)
  | JStr s => negb (String.eqb s "")
  | JList l => match l with [] => false | _ => true end
  | JObj kv => match kv with [] => false | _ => true end
  end.

(** [v == s] for a string literal [s]. *)
Definition eq_str (v : json) (s : string) : bool :=
  match v with
  | JStr s' => String.eqb s' s
  | _ => false
  end.

(** [v in [s1, s2, ...]] for a list of string literals. *)
Definition in_strs (v : json) (l : list string) : bool :=
  existsb (eq_str v) l.

Fixpoint str_contains (needle s : string) : bool :=
  String.prefix needle s
  || match s with
     | EmptyString => false
     | String _ s' => str_contains needle s'
     end.

(** [needle in v] for a string literal [needle]: key membership on a Munch,
    element membership on a list, substring on a str, TypeError otherwise. *)
Definition py_in (needle : string) (v : json) : M bool :=
  match v with
  | JObj kv => ret (existsb (fun p => String.eqb (fst p) needle) kv)
  | JList l => ret (existsb (fun x => eq_str x needle) l)
  | JStr s => ret (str_contains needle s)
  | JNull | JBool _ | JInt _ =>
      raise (TypeError "argument is not iterable")
  end.

Definition str_of_Z (z : Z) : string := NilZero.string_of_int (Z.to_int z).

Definition lower_ascii (c : ascii) : ascii :=
  let n := nat_of_ascii c in
  if ((65 <=? n) && (n <=? 90))%nat then ascii_of_nat (n + 32) else c.

(** [s.lower()], on the ASCII letters. *)
Fixpoint str_lower (s : string) : string :=
  match s with
  | EmptyString => EmptyString
  | String c s' => String (lower_ascii c) (str_lower s')
  end.

(** [v.lower()] *)
Definition py_lower (v : json) : M string :=
  match v with
  | JStr s => ret (str_lower s)
  | JObj kv =>
      match lookup "lower" kv with
      | Some _ => raise (TypeError "object is not callable")
      | None => raise (AttributeError "lower")
      end
  | _ => raise (AttributeError "lower")
  end.

(** [v[i]] for an index literal [i]. *)
Definition py_index (v : json) (i : nat) : M json :=
  match v with
  | JList l =>
      match nth_error l i with
      | Some x => ret x
      | None => raise (IndexError "list index out of range")
      end
  | JStr s =>
      match String.get i s with
      | Some c => ret (JStr (String c EmptyString))
      | None => raise (IndexError "string index out of range")
      end
  | JObj _ => raise (KeyError (str_of_Z (Z.of_nat i)))
  | JNull | JBool _ | JInt _ => raise (TypeError "object is not subscriptable")
  end.

(** [a or b] *)
Definition py_or (a b : json) : json := if truthy a then a else b.

(** The scan of [s.replace(old, "")] for a non-empty [old]; [skip] counts
    the characters of an occurrence of [old] that are still to be left
    out. *)
Fixpoint str_remove_scan (old : string) (skip : nat) (s : string) : string :=
  match s with
  | EmptyString => EmptyString
  | String a s' =>
      match skip with
      | S skip' => str_remove_scan old skip' s'
      | O =>
          if String.prefix old s
          then str_remove_scan old (String.length old - 1) s'
          else String a (str_remove_scan old 0 s')
      end
  end.

(** [s.replace(old, "")]: the occurrences of [old] are left out, from the
    left and without overlap; the empty [old] changes nothing. *)
Definition str_remove (old s : string) : string :=
  if String.eqb old "" then s else str_remove_scan old 0 s.

(** ["".join(parts)] *)
Definition join (parts : list string) : string :=
  fold_right String.append "" parts.

Definition backslash : ascii := ascii_of_nat 92.

(** [r"\B\{0}\w+".format(prefix)] *)
Definition tag_pattern (prefix : string) : string :=
  String backslash ("B" ++ String backslash (prefix ++ String backslash "w+")).

(** ** datetime *)

(** A naive datetime, as Python stores it. *)
Record datetime : Type := mkdatetime {
  year : Z; month : Z; day : Z;
  hour : Z; minute : Z; second : Z; microsecond : Z
}.

Definition is_leap (y : Z) : bool :=
  ((y mod 4 =? 0) && (negb (y mod 100 =? 0) || (y mod 400 =? 0)))%bool.

Definition days_before_year (y : Z) : Z :=
  let y' := y - 1 in y' * 365 + y' / 4 - y' / 100 + y' / 400.

Definition days_before_month (y m : Z) : Z :=
  nth (Z.to_nat m) [0; 0; 31; 59; 90; 120; 151; 181; 212; 243; 273; 304; 334] 0
  + (if (2 <? m) && is_leap y then 1 else 0).

Definition days_in_month (y m : Z) : Z :=
  if (m =? 2) && is_leap y then 29
  else nth (Z.to_nat m) [0; 31; 28; 31; 30; 31; 30; 31; 31; 30; 31; 30; 31] 0.

(** The proleptic Gregorian ordinal of a date (1 for 0001-01-01). *)
Definition ymd2ord (y m d : Z) : Z :=
  days_before_year y + days_before_month y m + d.

(** Microseconds since 0001-01-01 00:00:00. *)
Definition to_microseconds (t : datetime) : Z :=
  (((ymd2ord (year t) (month t) (day t) - 1) * 24 + hour t) * 60 + minute t)
    * 60 * 1000000
  + second t * 1000000 + microsecond t.

(** [(a - b)] of two naive datetimes: the timedelta, by its count of
    microseconds. *)
Definition sub_microseconds (a b : datetime) : Z :=
  to_microseconds a - to_microseconds b.

(** ** float

    A float is the number [m * 2^e], given by its significand [m] and its
    exponent [e].  The ends of the exponent range of binary64 are not
    modelled: the floats of the plugin are counts of seconds, which are
    zero or between 10**-6 and 10**12 in size. *)
Definition float : Type := (Z * Z)%type.

(** The fraction [a / (d * 2^e)], by a numerator and a denominator. *)
Definition scaled (a d e : Z) : Z * Z :=
  if 0 <=? e then (a, d * 2 ^ e) else (a * 2 ^ (- e), d).

(** The integer nearest to [num / den], a tie going to the even one. *)
Definition round_half_even (num den : Z) : Z :=
  let q := num / den in
  let r := num mod den in
  if 2 * r <? den then q
  else if den <? 2 * r then q + 1
  else if Z.even q then q else q + 1.

(** The exponent of the float nearest to [a / d], for positive [a] and [d]:
    the [e] with [2^52 <= a / (d * 2^e) < 2^53]. *)
Definition exponent (a d : Z) : Z :=
  (* 2^51 < a / (d * 2^e0) < 2^53 *)
  let e0 := Z.log2 a - Z.log2 d - 52 in
  if fst (scaled a d e0) / snd (scaled a d e0) <? 2 ^ 52 then e0 - 1 else e0.

(** [n / d] of two ints, for a positive [d]: the float nearest to the
    quotient, with a significand of 53 bits, a tie going to the even
    significand.  This is how CPython divides two ints, of any size. *)
Definition true_divide (n d : Z) : float :=
  if n =? 0 then (0, 0)
  else
    let a := Z.abs n in
    let e := exponent a d in
    (Z.sgn n * round_half_even (fst (scaled a d e)) (snd (scaled a d e)), e).

(** How Python orders a float and an int: the two numbers are compared as
    they are, without rounding the int. *)
Definition float_compare (f : float) (s : Z) : comparison :=
  let (m, e) := f in
  if 0 <=? e then m * 2 ^ e ?= s else m ?= s * 2 ^ (- e).

(** [f > s] *)
Definition float_gt (f : float) (s : Z) : bool :=
  match float_compare f s with
  | Gt => true
  | Eq | Lt => false
  end.

(** [delta.total_seconds()] of a timedelta of [us] microseconds:
    [us / 10**6]. *)
Definition total_seconds (us : Z) : float := true_divide us 1000000.

Definition valid_datetime (t : datetime) : bool :=
  (1 <=? year t) && (year t <=? 9999)
  && (1 <=? month t) && (month t <=? 12)
  && (1 <=? day t) && (day t <=? days_in_month (year t) (month t))
  && (0 <=? hour t) && (hour t <=? 23)
  && (0 <=? minute t) && (minute t <=? 59)
  && (0 <=? second t) && (second t <=? 59)
  && (0 <=? microsecond t) && (microsecond t <=? 999999).

(** ** The libraries and the configuration the plugin runs against *)

(** A text as the matcher of re cuts it for a pattern: the stretches that
    no match covers and the matches, each by its [group(0)]. *)
Inductive piece : Type :=
| Kept (s : string)
| Matched (s : string).

(** The library calls of the plugin.  [fromJSON] is Munch.fromJSON (json.loads
    into Munch objects, raising on a payload that is no JSON text), [toJSON]
    is Munch.toJSON; [strptime] and [strftime] are datetime's, at the format
    "%Y-%m-%d %H:%M:%S.%f"; [py_repr] is [str()] of a list or a Munch.
    [re_scan pattern text] is the scan that re.sub makes of [text]: re.error
    when [pattern] does not compile, else the text cut from the left into
    its matches, which do not overlap, and the stretches between them, as
    re.split gives them for the pattern in parentheses.  [decimal_value] is
    the table behind [\d] and [int()]: for a character outside ASCII, given
    by its UTF-8 bytes, its value when it is a decimal digit.  The one law:
    the empty string is no timestamp. *)
Class Runtime : Type := {
  fromJSON : string -> result json;
  toJSON : json -> string;
  strptime : string -> result datetime;
  strftime : datetime -> string;
  py_repr : json -> string;
  re_scan : string -> string -> result (list piece);
  decimal_value : string -> option Z;
  strptime_empty : forall t : datetime, strptime "" <> Ok t
}.

(** The plugin's configuration; [channel_map] is a dict from peer-network
    channel names to local channel ids, in insertion order.
    [config_channel] is the option [channel], which only
    [_get_mention_from_irc_tag] reads: a channel id, or None when the
    configuration has no such option. *)
Record config : Type := {
  channel_map : list (string * Z);
  send_limit : Z;
  commands_allowed : bool;
  notice_errors : bool;
  stale_seconds : Z;
  discord_ban_days : Z;
  irc_tag_prefix : string;
  config_channel : option Z
}.

(** What the chat adapter answers.  A channel, a guild, a member and a user
    are each known by their id.  [mention] is [member.mention], the text
    that mentions a member; [moderation_error] is the exception, if any,
    that a kick, ban or unban call raises. *)
Record bot : Type := {
  has_channel : Z -> bool;
  get_guild_from_channel_id : Z -> option Z;
  get_member_named : Z -> json -> option Z;
  mention : Z -> string;
  get_user : json -> option Z;
  moderation_error : action -> option exn
}.

(** [bot.get_channel(id)] *)
Definition get_channel (b : bot) (id : option Z) : option Z :=
  match id with
  | Some i => if has_channel b i then Some i else None
  | None => None
  end.

(** [self.channels], set by both [preconfig]s to
    [list(self.config.channel_map.values())]. *)
Definition channels (cfg : config) : list Z := map snd (channel_map cfg).

(** [list(self.config.channel_map.keys())[0]] *)
Definition first_key (cfg : config) : M string :=
  match channel_map cfg with
  | [] => raise (IndexError "list index out of range")
  | (k, _) :: _ => ret k
  end.

Definition error_notice : string :=
  "**ERROR**: Unable to connect to relay event queue".

(** [str(v)], as an f-string formats a value. *)
Definition fmt {rt : Runtime} (v : json) : string :=
  match v with
  | JStr s => s
  | JNull => "None"
  | JBool true => "True"
  | JBool false => "False"
  | JInt z => str_of_Z z
  | JList _ | JObj _ => py_repr v
  end.

(** ** DiscordRelay: serialize and the publisher loop *)

Module DiscordRelay.

(** The permissions of the author in the channel, as the adapter reports
    them. *)
Record permissions : Type := {
  kick_members : bool;
  ban_members : bool;
  administrator : bool
}.

(** What [serialize] reads of the invocation context [ctx]. *)
Record context : Type := {
  content : option string;
  irc_command : option string;
  attachments : list string;
  author_name : string;
  author_id : Z;
  author_display_name : string;
  author_discriminator : string;
  author_bot : bool;
  author_top_role : string;
  permissions_in : permissions;
  guild_name : string;
  guild_id : Z;
  channel_name : string;
  channel_id : Z
}.

(** The state of the publisher: the shared [send_buffer] of the relay's
    memory and the plugin's [mq_error_state]. *)
Record state : Type := {
  send_buffer : list string;
  mq_error_state : bool
}.

(** What happens around one tick: whether the broker fails the publish, and
    the bodies that the producers ([response] and [irc_command], which append
    what [serialize] returns) add to the buffer while the tick runs: before
    the buffer is read again for the removal, and while the error notice is
    being sent. *)
Record tick : Type := {
  publish_fails : bool;
  appended_before_removal : list string;
  appended_during_notice : list string
}.

Definition opt_str (o : option string) : json :=
  match o with
  | Some s => JStr s
  | None => JNull
  end.

Section WithRuntime.
Context {rt : Runtime}.

(** The Munch that [serialize] builds; [id] is the fresh uuid4 and [now] the
    clock reading. *)
Definition serialize_data (type_ : string) (ctx : context)
    (id : string) (now : datetime) : json :=
  let discord_permissions := permissions_in ctx in
  JObj [
    ("event", JObj [
       ("id", JStr id);
       ("type", JStr type_);
       ("time", JStr (strftime now));
       ("content", opt_str (content ctx));
       ("command", opt_str (irc_command ctx));
       ("attachments", JList (map JStr (attachments ctx)))]);
    ("author", JObj [
       ("username", JStr (author_name ctx));
       ("id", JInt (author_id ctx));
       ("nickname", JStr (author_display_name ctx));
       ("discriminator", JStr (author_discriminator ctx));
       ("is_bot", JBool (author_bot ctx));
       ("top_role", JStr (author_top_role ctx));
       ("permissions", JObj [
          ("kick", JBool (kick_members discord_permissions));
          ("ban", JBool (ban_members discord_permissions));
          ("unban", JBool (ban_members discord_permissions));
          ("admin", JBool (administrator discord_permissions))])]);
    ("server", JObj [
       ("name", JStr (guild_name ctx));
       ("id", JInt (guild_id ctx))]);
    ("channel", JObj [
       ("name", JStr (channel_name ctx));
       ("id", JInt (channel_id ctx))])].

Definition serialize (type_ : string) (ctx : context)
    (id : string) (now : datetime) : M string :=
  let as_json := toJSON (serialize_data type_ ctx id now) in
  log_debug ("Serialized data: " ++ as_json) ;;;
  ret as_json.

End WithRuntime.

(** [enumerate(l)] *)
Definition enumerate {A : Type} (l : list A) : list (nat * A) :=
  combine (seq 0 (length l)) l.

(** The comprehension that opens [execute]: the bodies at the indexes [idx]
    with [idx + 1 <= send_limit]. *)
Definition bodies_of (cfg : config) (buffer : list string) : list string :=
  map snd
    (filter (fun p => Z.of_nat (fst p) + 1 <=? send_limit cfg)
            (enumerate buffer)).

(** The number of bodies a tick takes, as the spec counts it: the smaller of
    [send_limit] and the length of the buffer. *)
Definition taken (cfg : config) (buffer : list string) : nat :=
  Z.to_nat (Z.min (send_limit cfg) (Z.of_nat (length buffer))).

(** Modelled from the spec: MqPlugin.publish, of the cogs module, which is
    not among the sources.  It hands the batch to the broker; a connectivity
    failure is caught and turned into the plugin's error flag, a success
    clears the flag. *)
Definition publish (fails : bool) (bodies : list string) (st : state)
    : state * trace :=
  ({| send_buffer := send_buffer st; mq_error_state := fails |},
   [MqPublish bodies]).

Definition append (bodies : list string) (st : state) : state :=
  {| send_buffer := (send_buffer st ++ bodies)%list;
     mq_error_state := mq_error_state st |}.

(** One tick of the publisher loop: the state it leaves, and what it did. *)
Definition execute (cfg : config) (b : bot) (env : tick) (st : state)
    : state * M unit :=
  let bodies := bodies_of cfg (send_buffer st) in
  match bodies with
  | [] => (st, ret tt)
  | _ :: _ =>
      let (st1, published) := publish (publish_fails env) bodies st in
      let st1 := append (appended_before_removal env) st1 in
      if mq_error_state st1 && notice_errors cfg then
        (* just send to first channel on the map *)
        match first_key cfg with
        | (_, Raise e) => (st1, (published, Raise e))
        | (_, Ok key) =>
            match get_channel b (lookup key (channel_map cfg)) with
            | Some channel =>
                (append (appended_during_notice env) st1,
                 ((published ++ [ChannelSend channel error_notice])%list, Ok tt))
            | None => (st1, (published, Ok tt))
            end
        end
      else
        (* remove from buffer *)
        ({| send_buffer := skipn (length bodies) (send_buffer st1);
            mq_error_state := mq_error_state st1 |},
         (published, Ok tt))
  end.

(** Modelled from the spec: the loop of LoopPlugin, of the cogs module, which
    is not among the sources.  The ticks run one after the other, each on the
    state the one before left, and an error in a tick does not end the
    loop.  The result is the last state and the calls of all the ticks. *)
Fixpoint run (cfg : config) (b : bot) (envs : list tick) (st : state)
    : state * trace :=
  match envs with
  | [] => (st, [])
  | env :: rest =>
      let '(st', (t, _)) := execute cfg b env st in
      let (st'', t') := run cfg b rest st' in
      (st'', (t ++ t')%list)
  end.

(** *** The producers

    [response] and [irc_command] append what [serialize] returns to the
    buffer; [match] decides which messages [response] is called for. *)

(** What the producers read of the bot object: [bot.command_prefix],
    [bot.config.plugins.factoids.prefix], whether the factoids plugin is
    loaded, and the name of [bot.get_user(id)], if there is such a user. *)
Record client : Type := {
  command_prefix : string;
  factoids_prefix : string;
  factoids_loaded : bool;
  user_name : Z -> option string
}.

(** [self.channels] is set by [preconfig], which also empties the buffer;
    [flag] is the error flag the plugin starts with. *)
Definition preconfig (flag : bool) : state :=
  {| send_buffer := []; mq_error_state := flag |}.

(** [match]: whether the message is relayed, and whether it was marked as a
    factoid ([ctx.factoid = True]). *)
Definition match_ (cfg : config) (c : client) (channel : Z)
    (content : string) : bool * bool :=
  if existsb (Z.eqb channel) (channels cfg) then
    if negb (String.prefix (command_prefix c) content) then
      (true,
       String.prefix (factoids_prefix c) content && negb (factoids_loaded c))
    else (false, false)
  else (false, false).

Definition is_digit (c : ascii) : bool :=
  let n := nat_of_ascii c in ((48 <=? n) && (n <=? 57))%nat.

Definition digit_value (c : ascii) : Z := Z.of_nat (nat_of_ascii c - 48).

(** The number of bytes of the UTF-8 character that the byte [c] opens: one
    for an ASCII character. *)
Definition utf8_width (c : ascii) : nat :=
  let n := nat_of_ascii c in
  if (n <? 192)%nat then 1%nat
  else if (n <? 224)%nat then 2%nat
  else if (n <? 240)%nat then 3%nat
  else 4%nat.

Section Substitution.
Context {rt : Runtime}.

(** The end of the pattern, [(\d+)>]: the digits read so far make [acc],
    as [int()] reads them, and [seen] tells whether there was one.  The
    result is the number and the text after the closing bracket.  A digit
    is an ASCII digit or, outside ASCII, a character that the table of the
    runtime gives a value. *)
Fixpoint digits_then_close (acc : Z) (seen : bool) (s : string)
    : option (Z * string) :=
  match s with
  | EmptyString => None
  | String c s' =>
      if is_digit c then
        digits_then_close (acc * 10 + digit_value c) true s'
      else if seen && Ascii.eqb c ">" then Some (acc, s')
      else
        match utf8_width c, s' with
        | 2%nat, String c2 rest =>
            match decimal_value (String c (String c2 "")) with
            | Some d => digits_then_close (acc * 10 + d) true rest
            | None => None
            end
        | 3%nat, String c2 (String c3 rest) =>
            match decimal_value (String c (String c2 (String c3 ""))) with
            | Some d => digits_then_close (acc * 10 + d) true rest
            | None => None
            end
        | 4%nat, String c2 (String c3 (String c4 rest)) =>
            match decimal_value
                    (String c (String c2 (String c3 (String c4 "")))) with
            | Some d => digits_then_close (acc * 10 + d) true rest
            | None => None
            end
        | _, _ => None
        end
  end.

(** [c?] at the head of [s]. *)
Definition skip_optional (c : ascii) (s : string) : string :=
  match s with
  | String c' s' => if Ascii.eqb c' c then s' else s
  | EmptyString => s
  end.

(** A match of the pattern [<@?!?(\d+)>] at the head of [s]: [int] of its
    group and the text after the match. *)
Definition mention_at (s : string) : option (Z * string) :=
  match s with
  | String c s' =>
      if Ascii.eqb c "<" then
        digits_then_close 0 false (skip_optional "!" (skip_optional "@" s'))
      else None
  | EmptyString => None
  end.

Definition _get_nick_from_id_match (c : client) (id : Z) : string :=
  match user_name c id with
  | Some name => "@" ++ name
  | None => "@user"
  end.

(** [re.sub] of the pattern with [_get_nick_from_id_match], from the left:
    a match is replaced and the scan goes on after it, any other character
    is kept.  [fuel] bounds the length of the text. *)
Fixpoint sub_mentions_from (fuel : nat) (c : client) (s : string) : string :=
  match fuel with
  | O => s
  | S fuel' =>
      match s with
      | EmptyString => EmptyString
      | String a s' =>
          match mention_at s with
          | Some (id, rest) =>
              _get_nick_from_id_match c id ++ sub_mentions_from fuel' c rest
          | None => String a (sub_mentions_from fuel' c s')
          end
      end
  end.

(** [re.sub(r"<@?!?(\d+)>", self._get_nick_from_id_match, content)] *)
Definition sub_mentions (c : client) (content : string) : string :=
  sub_mentions_from (String.length content) c content.

End Substitution.

(** [ctx] after [ctx.content = text]. *)
Definition with_content (ctx : context) (text : string) : context := {|
  content := Some text;
  irc_command := irc_command ctx;
  attachments := attachments ctx;
  author_name := author_name ctx;
  author_id := author_id ctx;
  author_display_name := author_display_name ctx;
  author_discriminator := author_discriminator ctx;
  author_bot := author_bot ctx;
  author_top_role := author_top_role ctx;
  permissions_in := permissions_in ctx;
  guild_name := guild_name ctx;
  guild_id := guild_id ctx;
  channel_name := channel_name ctx;
  channel_id := channel_id ctx
|}.



Section Producers.
Context {rt : Runtime}.

(** [response]; [factoid] is the mark [match] may have left on [ctx], [id]
    and [now] are the uuid and the clock that [serialize] draws. *)
Definition response (c : client) (ctx : context) (factoid : bool)
    (content : string) (id : string) (now : datetime) (st : state)
    : state * M unit :=
  let type_ := if factoid then "factoid" else "message" in
  (* subs in actual mentions if possible *)
  let ctx := with_content ctx (sub_mentions c content) in
  match serialize type_ ctx id now with
  | (t, Ok body) => (append [body] st, (t, Ok tt))
  | (t, Raise e) => (st, (t, Raise e))
  end.


End Producers.

(** *** Texts with mentions

    A text as a sequence of plain stretches and mentions of users, in the
    three spellings the pattern accepts: [<id>], [<@id>] and [<@!id>]. *)
Inductive style : Type := Bare | At | AtBang.

Inductive segment : Type :=
| Text (s : string)
| Mention (spelling : style) (id : Z).

Definition written (seg : segment) : string :=
  match seg with
  | Text s => s
  | Mention spelling id =>
      "<" ++ match spelling with Bare => "" | At => "@" | AtBang => "@!" end
      ++ str_of_Z id ++ ">"
  end.

(** What a segment is relayed as. *)
Definition shown (c : client) (seg : segment) : string :=
  match seg with
  | Text s => s
  | Mention _ id => _get_nick_from_id_match c id
  end.

(** A plain stretch has no opening bracket; the ids of the chat network are
    64-bit numbers. *)
Definition plain (seg : segment) : Prop :=
  match seg with
  | Text s => str_contains "<" s = false
  | Mention _ id => 0 <= id < 2 ^ 64
  end.

(** The number a decimal numeral reads as, from the left, onto [acc]. *)
Fixpoint uint_value (acc : Z) (d : Decimal.uint) : Z :=
  match d with
  | Decimal.Nil => acc
  | Decimal.D0 l => uint_value (acc * 10) l
  | Decimal.D1 l => uint_value (acc * 10 + 1) l
  | Decimal.D2 l => uint_value (acc * 10 + 2) l
  | Decimal.D3 l => uint_value (acc * 10 + 3) l
  | Decimal.D4 l => uint_value (acc * 10 + 4) l
  | Decimal.D5 l => uint_value (acc * 10 + 5) l
  | Decimal.D6 l => uint_value (acc * 10 + 6) l
  | Decimal.D7 l => uint_value (acc * 10 + 7) l
  | Decimal.D8 l => uint_value (acc * 10 + 8) l
  | Decimal.D9 l => uint_value (acc * 10 + 9) l
  end.


(** *** The buffer over time

    Producers and ticks as a sequence of events.  A producer appends one
    body; a tick is [execute].  Besides the last state, the result lists the
    bodies that the broker accepted, in order: those of the batches whose
    publish did not fail. *)
Inductive event : Type :=
| Produced (body : string)
| Ticked (env : tick).

Definition published_bodies (t : trace) : list string :=
  flat_map (fun a => match a with MqPublish bodies => bodies | _ => [] end) t.

Fixpoint run_events (cfg : config) (b : bot) (events : list event)
    (st : state) : state * list string :=
  match events with
  | [] => (st, [])
  | Produced body :: rest => run_events cfg b rest (append [body] st)
  | Ticked env :: rest =>
      let '(st', (t, _)) := execute cfg b env st in
      let (st'', accepted) := run_events cfg b rest st' in
      (st'',
       ((if publish_fails env then [] else published_bodies t)
        ++ accepted)%list)
  end.

(** The bodies the producers appended between the ticks. *)
Definition produced (events : list event) : list string :=
  flat_map (fun e => match e with Produced body => [body] | Ticked _ => [] end)
           events.

(** A tick during which no producer runs. *)
Definition quiet (e : event) : Prop :=
  match e with
  | Produced _ => True
  | Ticked env =>
      appended_before_removal env = [] /\ appended_during_notice env = []
  end.

(** A tick whose publish fails only happens with the error notices on. *)
Definition noticed (cfg : config) (e : event) : Prop :=
  match e with
  | Produced _ => True
  | Ticked env => publish_fails env = true -> notice_errors cfg = true
  end.

End DiscordRelay.

(** ** IRCReceiver: consumer loop, deserialize, router, moderation, formatters *)

Module IRCReceiver.

(** The envelope emoji, U+1F4E8, in UTF-8. *)
Definition IRC_LOGO : string :=
  String (ascii_of_nat 240) (String (ascii_of_nat 159)
    (String (ascii_of_nat 147) (String (ascii_of_nat 168) EmptyString))).

(** The state of the consumer: its alert counter and the plugin's
    [mq_error_state]. *)
Record state : Type := {
  error_count : Z;
  mq_error_state : bool
}.

(** What the broker hands to one tick: whether the poll fails, and the
    payloads it returns, each with the clock reading at which it is handled. *)
Record tick : Type := {
  consume_fails : bool;
  responses : list (datetime * string)
}.

(** [preconfig]: the alert counter starts at zero; [flag] is the error flag
    the plugin starts with. *)
Definition preconfig (flag : bool) : state :=
  {| error_count := 0; mq_error_state := flag |}.

(** The event types that are displayed as a line of text. *)
Definition display_types : list string :=
  ["message"; "join"; "part"; "quit"; "kick"; "action"; "other"; "factoid"].

(** [data.a.b] *)
Definition attr2 (data : json) (a b : string) : M json :=
  x <- getattr data a ;; getattr x b.

Section WithRuntime.
Context {rt : Runtime}.
Variable cfg : config.
Variable b : bot.

Definition _time_stale (now : datetime) (time : json) : M bool :=
  time <- match time with
          | JStr s => lift (strptime s)
          | _ => raise (TypeError "strptime() argument 1 must be str")
          end ;;
  if float_gt (total_seconds (sub_microseconds now time)) (stale_seconds cfg)
  then ret true
  else ret false.

(** The result is the Munch, or None ([JNull]) when the payload is refused. *)
Definition deserialize (now : datetime) (body : string) : M json :=
  match fromJSON body with
  | Raise e =>
      log_warning ("Unable to Munch-deserialize incoming data: " ++ exn_str e) ;;;
      log_warning ("Full body: " ++ body) ;;;
      ret JNull
  | Ok deserialized =>
      time <- attr2 deserialized "event" "time" ;;
      if negb (truthy time) then
        log_warning "Unable to retrieve time object from incoming data" ;;;
        ret JNull
      else
        stale <- _time_stale now time ;;
        if stale then
          log_warning ("Incoming data failed stale check ("
                       ++ str_of_Z (stale_seconds cfg) ++ " seconds)") ;;;
          ret JNull
        else
          log_debug ("Deserialized data: " ++ body ++ ")") ;;;
          ret deserialized
  end.

Definition _get_permissions_label (permissions : json) : M string :=
  if truthy permissions then
    v <- py_in "v" permissions ;;
    o <- py_in "o" permissions ;;
    ret ((if v then "+" else "") ++ (if o then "@" else ""))
  else ret "".

Definition _format_chat_message (data : json) : M string :=
  permissions <- attr2 data "author" "permissions" ;;
  label <- _get_permissions_label permissions ;;
  nickname <- attr2 data "author" "nickname" ;;
  content <- attr2 data "event" "content" ;;
  ret (IRC_LOGO ++ " `" ++ label ++ fmt nickname ++ "` " ++ fmt content).

(** The result is None when no branch of the chain matches the type. *)
Definition _format_event_message (data : json) : M (option string) :=
  permissions <- attr2 data "author" "permissions" ;;
  permissions_label <- _get_permissions_label permissions ;;
  type <- attr2 data "event" "type" ;;
  if eq_str type "join" then
    mask <- attr2 data "author" "mask" ;;
    name <- attr2 data "channel" "name" ;;
    ret (Some (IRC_LOGO ++ " `" ++ permissions_label ++ fmt mask
               ++ "` has joined " ++ fmt name ++ "!"))
  else if eq_str type "part" then
    mask <- attr2 data "author" "mask" ;;
    name <- attr2 data "channel" "name" ;;
    ret (Some (IRC_LOGO ++ " `" ++ permissions_label ++ fmt mask
               ++ "` left " ++ fmt name ++ "!"))
  else if eq_str type "quit" then
    mask <- attr2 data "author" "mask" ;;
    content <- attr2 data "event" "content" ;;
    ret (Some (IRC_LOGO ++ " `" ++ permissions_label ++ fmt mask
               ++ "` quit (" ++ fmt content ++ ")"))
  else if eq_str type "kick" then
    mask <- attr2 data "author" "mask" ;;
    target <- attr2 data "event" "target" ;;
    name <- attr2 data "channel" "name" ;;
    content <- attr2 data "event" "content" ;;
    ret (Some (IRC_LOGO ++ " `" ++ permissions_label ++ fmt mask
               ++ "` kicked `" ++ fmt target ++ "` from " ++ fmt name
               ++ "! (reason: *" ++ fmt content ++ "*)."))
  else if eq_str type "action" then
    (* this isnt working well right now *)
    nickname <- attr2 data "author" "nickname" ;;
    content <- attr2 data "event" "content" ;;
    ret (Some (IRC_LOGO ++ " `" ++ permissions_label ++ fmt nickname
               ++ "` " ++ fmt content))
  else if eq_str type "other" then
    irc_command <- attr2 data "event" "irc_command" ;;
    lowered <- py_lower irc_command ;;
    if String.eqb lowered "mode" then
      nickname <- attr2 data "author" "nickname" ;;
      paramlist <- attr2 data "event" "irc_paramlist" ;;
      param1 <- py_index paramlist 1 ;;
      param2 <- py_index paramlist 2 ;;
      ret (Some (IRC_LOGO ++ " `" ++ permissions_label ++ fmt nickname
                 ++ "` sets mode **" ++ fmt param1 ++ "** on `"
                 ++ fmt param2 ++ "`"))
    else
      mask <- attr2 data "author" "mask" ;;
      name <- attr2 data "channel" "name" ;;
      ret (Some (IRC_LOGO ++ " `" ++ fmt mask
                 ++ "` did some configuration on " ++ fmt name ++ "..."))
  else if eq_str type "factoid" then
    content <- attr2 data "event" "content" ;;
    ret (Some (IRC_LOGO ++ " " ++ fmt content))
  else ret None.

Definition process_message (data : json) : M (option string) :=
  type <- attr2 data "event" "type" ;;
  if eq_str type "message" then
    line <- _format_chat_message data ;; ret (Some line)
  else _format_event_message data.

(** [self.config.channel_map.get(name)]: a Munch or a list is unhashable; the
    keys of the map are strings. *)
Definition channel_map_get (name : json) : M (option Z) :=
  match name with
  | JStr s => ret (lookup s (channel_map cfg))
  | JList _ | JObj _ => raise (TypeError "unhashable type")
  | JNull | JBool _ | JInt _ => ret None
  end.

Fixpoint _get_channel_from (ids : list Z) (data : json) : M (option Z) :=
  match ids with
  | [] => ret None
  | channel_id :: rest =>
      name <- attr2 data "channel" "name" ;;
      mapped <- channel_map_get name ;;
      if match mapped with Some i => channel_id =? i | None => false end
      then ret (get_channel b (Some channel_id))
      else _get_channel_from rest data
  end.

(** The loop of [_get_channel] over [self.channels]. *)
Definition _get_channel (data : json) : M (option Z) :=
  _get_channel_from (channels cfg) data.

Definition _data_has_op (data : json) : M bool :=
  permissions <- attr2 data "author" "permissions" ;;
  o <- py_in "o" permissions ;;
  if negb o then ret false else ret true.

(** A kick, ban or unban call on the guild, which may raise. *)
Definition moderate (a : action) : M unit :=
  emit a ;;;
  match moderation_error b a with
  | Some e => raise e
  | None => ret tt
  end.

(** [_process_user_command] from the channel resolution on: what follows
    the permission check. *)
Definition _resolve_and_execute (data : json) : M unit :=
  channel <- _get_channel data ;;
  match channel with
  | None => log_warning "Unable to find channel to send command alert"
  | Some channel =>
      command <- attr2 data "event" "command" ;;
      mask <- attr2 data "author" "mask" ;;
      content <- attr2 data "event" "content" ;;
      emit (ChannelSend channel
              ("Executing IRC **" ++ fmt command ++ "** command from `"
               ++ fmt mask ++ "` on target `" ++ fmt content ++ "`")) ;;;
      match get_guild_from_channel_id b channel with
      | None =>
          emit (ChannelSend channel "> Critical error! Aborting command") ;;;
          log_warning
            "Unable to find guild associated with relay channel (this is unusual)"
      | Some target_guild =>
          content <- attr2 data "event" "content" ;;
          match get_member_named b target_guild content with
          | None =>
              emit (ChannelSend channel
                      ("Unable to locate target `" ++ fmt content
                       ++ "`! Aborting command"))
          | Some target_user =>
              (* very likely this will raise an exception :( *)
              try_except
                (command <- attr2 data "event" "command" ;;
                 if eq_str command "kick" then
                   moderate (GuildKick target_guild target_user)
                 else if eq_str command "ban" then
                   moderate (GuildBan target_guild target_user
                               (discord_ban_days cfg))
                 else if eq_str command "unban" then
                   moderate (GuildUnban target_guild target_user)
                 else ret tt)
                (fun e => log_warning ("Unable to send command: " ++ exn_str e))
          end
      end
  end.

Definition _process_user_command (data : json) : M unit :=
  has_op <- _data_has_op data ;;
  if negb has_op then
    command <- attr2 data "event" "command" ;;
    log_warning ("Blocking incoming " ++ fmt command
                 ++ " request due to permissions")
  else _resolve_and_execute data.

Definition process_command (data : json) : M unit :=
  if negb (commands_allowed cfg) then
    command <- attr2 data "event" "command" ;;
    log_debug ("Blocking incoming " ++ fmt command
               ++ " request due to disabled config")
  else
    command <- attr2 data "event" "command" ;;
    if in_strs command ["kick"; "ban"; "unban"] then
      _process_user_command data
    else
      log_warning ("Received unroutable command: " ++ fmt command).

Definition whois_field (response : json) (name key : string)
    : M (string * string) :=
  payload <- getattr response "payload" ;;
  value <- getattr payload key ;;
  ret (name, fmt (py_or value (JStr "Not found"))).

Definition _process_whois_response (data : json) : M unit :=
  response <- attr2 data "event" "content" ;;
  author_id <- attr2 response "request" "author" ;;
  match get_user b author_id with
  | None =>
      log_warning ("Unable to find user with ID " ++ fmt author_id
                   ++ " associated with response")
  | Some requester =>
      emit (CreateDm requester) ;;;
      nick <- attr2 response "payload" "nick" ;;
      user <- whois_field response "User" "user" ;;
      host <- whois_field response "Host" "host" ;;
      realname <- whois_field response "Realname" "realname" ;;
      server <- whois_field response "Server" "server" ;;
      emit (DmSendEmbed requester ("WHOIS Response for " ++ fmt nick)
              [user; host; realname; server])
  end.

Definition process_response (data : json) : M unit :=
  response <- attr2 data "event" "content" ;;
  if negb (truthy response) then log_warning "Received empty response"
  else
    type <- getattr response "type" ;;
    if eq_str type "whois" then
      _process_whois_response data ;;;
      _ <- attr2 response "request" "author" ;;
      ret tt
    else ret tt.

(** [_get_mention_from_irc_tag], on the [group(0)] of a match.  Reading
    [self.config.channel] raises when the configuration has no such
    option. *)
Definition _get_mention_from_irc_tag (tagged : string) : M string :=
  channel <- match config_channel cfg with
             | Some channel => ret channel
             | None => raise (AttributeError "channel")
             end ;;
  match get_guild_from_channel_id b channel with
  | None => ret tagged
  | Some guild =>
      let name := str_remove (irc_tag_prefix cfg) tagged in
      match get_member_named b guild (JStr name) with
      | None => ret tagged
      | Some member => ret (mention b member)
      end
  end.

(** The text that re.sub builds from the scan: a stretch is kept, a match is
    replaced by what the callback returns for it; the callback is called on
    the matches from the left, and an exception of it ends the call. *)
Fixpoint sub_pieces (callback : string -> M string) (pieces : list piece)
    : M string :=
  match pieces with
  | [] => ret ""
  | Kept s :: rest =>
      tail <- sub_pieces callback rest ;; ret (s ++ tail)
  | Matched s :: rest =>
      shown <- callback s ;;
      tail <- sub_pieces callback rest ;; ret (shown ++ tail)
  end.

(** [re.sub(pattern, callback, text)] *)
Definition re_sub (pattern : string) (callback : string -> M string)
    (text : string) : M string :=
  pieces <- lift (re_scan pattern text) ;;
  sub_pieces callback pieces.

(** [handle_event] after the guard on the result of [deserialize]: the
    router over [data.event.type]. *)
Definition route_event (response : string) (data : json) : M unit :=
  type <- attr2 data "event" "type" ;;
  (* handle message event *)
  if in_strs type display_types then
    target <- attr2 data "event" "target" ;;
    if eq_str target "factoid_request" then
      log_debug "Ignoring factoid request event"
    else
      message <- process_message data ;;
      match message with
      | Some message =>
          if String.eqb message "" then
            log_warning ("Unable to format message for event: " ++ response)
          else
            message <- re_sub (tag_pattern (irc_tag_prefix cfg))
                         _get_mention_from_irc_tag message ;;
            channel <- _get_channel data ;;
            match channel with
            | None =>
                log_warning "Unable to find channel to send command alert"
            | Some channel => emit (ChannelSend channel message)
            end
      | None =>
          log_warning ("Unable to format message for event: " ++ response)
      end
  (* handle command event *)
  else if eq_str type "command" then process_command data
  else if eq_str type "response" then process_response data
  else log_warning ("Unable to handle event: " ++ response).

Definition handle_event (now : datetime) (response : string) : M unit :=
  data <- deserialize now response ;;
  if negb (truthy data) then
    log_warning "Unable to deserialize data! Aborting!"
  else route_event response data.

(** [for response in responses: await self.handle_event(response)] *)
Fixpoint handle_events (rs : list (datetime * string)) : M unit :=
  match rs with
  | [] => ret tt
  | (now, response) :: rest =>
      handle_event now response ;;; handle_events rest
  end.

(** Modelled from the spec: MqPlugin.consume, of the cogs module, which is
    not among the sources.  It polls the broker; a connectivity failure is
    caught and turned into the plugin's error flag, a success clears the
    flag. *)
Definition consume (fails : bool) (st : state) : state :=
  {| error_count := error_count st; mq_error_state := fails |}.

(** One tick of the consumer loop: the state it leaves, and what it did. *)
Definition execute (env : tick) (st : state) : state * M unit :=
  let st1 := consume (consume_fails env) st in
  if mq_error_state st1 && notice_errors cfg && (error_count st1 <? 5) then
    match first_key cfg with
    | (_, Raise e) => (st1, raise e)
    | (_, Ok key) =>
        match get_channel b (lookup key (channel_map cfg)) with
        | None => (st1, raise (AttributeError "send"))
        | Some channel =>
            ({| error_count := error_count st1 + 1;
                mq_error_state := mq_error_state st1 |},
             emit (ChannelSend channel error_notice))
        end
    end
  else (st1, handle_events (responses env)).

(** Modelled from the spec: the loop of LoopPlugin, of the cogs module, which
    is not among the sources.  The ticks run one after the other, each on the
    state the one before left, and an error in a tick does not end the
    loop.  The result is the last state and the calls of all the ticks. *)
Fixpoint run (envs : list tick) (st : state) : state * trace :=
  match envs with
  | [] => (st, [])
  | env :: rest =>
      let '(st', (t, _)) := execute env st in
      let (st'', t') := run rest st' in
      (st'', (t ++ t')%list)
  end.

End WithRuntime.

(** *** The tags of a line

    What re.sub makes of a piece of the line when the callback returns:
    a stretch is kept; a match is replaced by the mention of the member
    that the tag names, without its prefix, in the guild of the configured
    channel, and kept when there is no such guild or member. *)
Definition is_matched (p : piece) : bool :=
  match p with Matched _ => true | Kept _ => false end.

Definition tag_shown (cfg : config) (b : bot) (p : piece) : string :=
  match p with
  | Kept s => s
  | Matched tagged =>
      match config_channel cfg with
      | None => tagged
      | Some channel =>
          match get_guild_from_channel_id b channel with
          | None => tagged
          | Some guild =>
              match get_member_named b guild
                      (JStr (str_remove (irc_tag_prefix cfg) tagged)) with
              | None => tagged
              | Some member => mention b member
              end
          end
      end
  end.

(** The two log lines that end [deserialize] on a payload with a timestamp. *)
Definition stale_warning (cfg : config) : action :=
  Log WARNING ("Incoming data failed stale check ("
               ++ str_of_Z (stale_seconds cfg) ++ " seconds)").

Definition deserialized_debug (body : string) : action :=
  Log DEBUG ("Deserialized data: " ++ body ++ ")").

(** The event types of the data model. *)
Definition event_types : list string :=
  (display_types ++ ["command"; "response"])%list.

(** The commands that the moderation path routes. *)
Definition user_commands : list string := ["kick"; "ban"; "unban"].

(** *** The line templates

    The kinds of displayed line ([other] events are mode changes or some
    other configuration), the values a line is made of, and the two tables
    of templates that the code is compared with. *)
Inductive kind : Type :=
| Message | Join | Part | Quit | Kick | Action | ModeChange | Configuration
| Factoid.

Record line_values : Type := {
  nickname : json;
  mask : json;
  channel : json;
  content : json;
  target : json;
  param1 : json;
  param2 : json
}.

(** The permission label: [+] first when the voice privilege is present,
    then [@] when the operator privilege is. *)
Definition label_of (voice op : bool) : string :=
  (if voice then "+" else "") ++ (if op then "@" else "").

Section Templates.
Context {rt : Runtime}.
Variable label : string.
Variable f : line_values.

(** The opening of the join, part, quit and kick lines. *)
Definition masked : string :=
  IRC_LOGO ++ " `" ++ label ++ fmt (mask f) ++ "`".

Definition named : string :=
  "`" ++ label ++ fmt (nickname f) ++ "`".

(** The templates in the words of the spec: the action line has no icon and
    the mode-change line is the bare [sets mode] text; the spec words no
    line for the other configuration events. *)
Definition spec_template (k : kind) : option string :=
  match k with
  | Message => Some (IRC_LOGO ++ " " ++ named ++ " " ++ fmt (content f))
  | Join => Some (masked ++ " has joined " ++ fmt (channel f) ++ "!")
  | Part => Some (masked ++ " left " ++ fmt (channel f) ++ "!")
  | Quit => Some (masked ++ " quit (" ++ fmt (content f) ++ ")")
  | Kick =>
      Some (masked ++ " kicked `" ++ fmt (target f) ++ "` from "
            ++ fmt (channel f) ++ "! (reason: *" ++ fmt (content f) ++ "*).")
  | Action => Some (named ++ " " ++ fmt (content f))
  | ModeChange =>
      Some ("sets mode **" ++ fmt (param1 f) ++ "** on `"
            ++ fmt (param2 f) ++ "`")
  | Configuration => None
  | Factoid => Some (IRC_LOGO ++ " " ++ fmt (content f))
  end.

(** The templates of the formatters: as above, but the action line and the
    mode-change line open with the icon and the labelled nickname. *)
Definition relay_template (k : kind) : string :=
  match k with
  | Message => IRC_LOGO ++ " " ++ named ++ " " ++ fmt (content f)
  | Join => masked ++ " has joined " ++ fmt (channel f) ++ "!"
  | Part => masked ++ " left " ++ fmt (channel f) ++ "!"
  | Quit => masked ++ " quit (" ++ fmt (content f) ++ ")"
  | Kick =>
      masked ++ " kicked `" ++ fmt (target f) ++ "` from "
      ++ fmt (channel f) ++ "! (reason: *" ++ fmt (content f) ++ "*)."
  | Action => IRC_LOGO ++ " " ++ named ++ " " ++ fmt (content f)
  | ModeChange =>
      IRC_LOGO ++ " " ++ named ++ " sets mode **" ++ fmt (param1 f)
      ++ "** on `" ++ fmt (param2 f) ++ "`"
  | Configuration =>
      IRC_LOGO ++ " `" ++ fmt (mask f) ++ "` did some configuration on "
      ++ fmt (channel f) ++ "..."
  | Factoid => IRC_LOGO ++ " " ++ fmt (content f)
  end.

End Templates.

(** [data] is an envelope of kind [k] that carries the values [f] in the
    attributes the formatter of that kind reads. *)
Definition carries (data : json) (k : kind) (f : line_values) : Prop :=
  let type_is (s : string) := attr2 data "event" "type" = ret (JStr s) in
  let has (x y : string) (v : json) := attr2 data x y = ret v in
  match k with
  | Message =>
      type_is "message" /\ has "author" "nickname" (nickname f)
      /\ has "event" "content" (content f)
  | Join =>
      type_is "join" /\ has "author" "mask" (mask f)
      /\ has "channel" "name" (channel f)
  | Part =>
      type_is "part" /\ has "author" "mask" (mask f)
      /\ has "channel" "name" (channel f)
  | Quit =>
      type_is "quit" /\ has "author" "mask" (mask f)
      /\ has "event" "content" (content f)
  | Kick =>
      type_is "kick" /\ has "author" "mask" (mask f)
      /\ has "event" "target" (target f)
      /\ has "channel" "name" (channel f)
      /\ has "event" "content" (content f)
  | Action =>
      type_is "action" /\ has "author" "nickname" (nickname f)
      /\ has "event" "content" (content f)
  | ModeChange =>
      type_is "other"
      /\ (exists c, has "event" "irc_command" (JStr c)
                    /\ str_lower c = "mode")
      /\ has "author" "nickname" (nickname f)
      /\ (exists params, has "event" "irc_paramlist" (JList params)
                         /\ nth_error params 1 = Some (param1 f)
                         /\ nth_error params 2 = Some (param2 f))
  | Configuration =>
      type_is "other"
      /\ (exists c, has "event" "irc_command" (JStr c)
                    /\ str_lower c <> "mode")
      /\ has "author" "mask" (mask f)
      /\ has "channel" "name" (channel f)
  | Factoid =>
      type_is "factoid" /\ has "event" "content" (content f)
  end.

(** The calls that act on a member of the guild. *)
Definition is_moderation (a : action) : bool :=
  match a with
  | GuildKick _ _ | GuildBan _ _ _ | GuildUnban _ _ => true
  | _ => false
  end.

(** The error notice, to some channel. *)
Definition is_notice (a : action) : Prop :=
  exists channel, a = ChannelSend channel error_notice.

(** What a formatter returned: a line that opens with the icon, unless it
    raised. *)
Definition gives_line (m : M (option string)) : Prop :=
  match snd m with
  | Ok (Some line) => exists tail, line = IRC_LOGO ++ tail
  | Ok None => False
  | Raise _ => True
  end.

Section Wording.
Context {rt : Runtime}.

(** The line that announces a moderation command in the channel. *)
Definition announcement (command mask content : json) : string :=
  "Executing IRC **" ++ fmt command ++ "** command from `" ++ fmt mask
  ++ "` on target `" ++ fmt content ++ "`".

(** The action that a command names. *)
Definition named_action (cfg : config) (command : json) (guild member : Z)
    : action :=
  if eq_str command "kick" then GuildKick guild member
  else if eq_str command "ban" then
    GuildBan guild member (discord_ban_days cfg)
  else GuildUnban guild member.

(** A field of the whois answer as the embed shows it. *)
Definition or_not_found (value : json) : string :=
  fmt (py_or value (JStr "Not found")).

End Wording.

End IRCReceiver.

(** ** A reference runtime

    Executable versions of the library calls, on which the model is run on
    concrete payloads: a JSON printer and reader for the text that
    json.dumps writes with its default separators (ASCII text; integers as
    the only numbers), the fixed-width "%Y-%m-%d %H:%M:%S.%f" timestamps that
    strftime writes, the decimal digits of Unicode 14, and a matcher for
    the tag pattern of a prefix of one character that is no letter and no
    digit. *)

Module PyLib.

Definition dquote : ascii := ascii_of_nat 34.

Definition str1 (c : ascii) : string := String c EmptyString.

Definition hex_digit (n : nat) : ascii :=
  ascii_of_nat (if (n <? 10)%nat then 48 + n else 87 + n).

(** The body of a JSON string literal. *)
Fixpoint escape (s : string) : string :=
  match s with
  | EmptyString => EmptyString
  | String c s' =>
      let n := nat_of_ascii c in
      (if (n =? 34)%nat then String backslash (str1 dquote)
       else if (n =? 92)%nat then String backslash (str1 backslash)
       else if (n =? 10)%nat then String backslash "n"
       else if (n =? 13)%nat then String backslash "r"
       else if (n =? 9)%nat then String backslash "t"
       else if (n =? 8)%nat then String backslash "b"
       else if (n =? 12)%nat then String backslash "f"
       else if (n <? 32)%nat then
         String backslash
           ("u00" ++ str1 (hex_digit (n / 16)) ++ str1 (hex_digit (n mod 16)))
       else str1 c)
      ++ escape s'
  end.

Definition quoted (s : string) : string :=
  String dquote (escape s ++ str1 dquote).

(** json.dumps *)
Fixpoint json_dumps (v : json) : string :=
  match v with
  | JNull => "null"
  | JBool true => "true"
  | JBool false => "false"
  | JInt z => str_of_Z z
  | JStr s => quoted s
  | JList l => "[" ++ String.concat ", " (map json_dumps l) ++ "]"
  | JObj kv =>
      "{"
      ++ String.concat ", "
           (map (fun member =>
                   quoted (fst member) ++ ": " ++ json_dumps (snd member)) kv)
      ++ "}"
  end.

Definition is_ws (c : ascii) : bool :=
  let n := nat_of_ascii c in
  ((n =? 32) || (n =? 9) || (n =? 10) || (n =? 13))%nat.

Fixpoint skip_ws (s : string) : string :=
  match s with
  | String c s' => if is_ws c then skip_ws s' else s
  | EmptyString => s
  end.

Definition digit_of (c : ascii) : option Z :=
  let n := nat_of_ascii c in
  if ((48 <=? n) && (n <=? 57))%nat then Some (Z.of_nat (n - 48)) else None.

Definition hex_of (c : ascii) : option nat :=
  let n := nat_of_ascii c in
  if ((48 <=? n) && (n <=? 57))%nat then Some (n - 48)%nat
  else if ((97 <=? n) && (n <=? 102))%nat then Some (n - 87)%nat
  else if ((65 <=? n) && (n <=? 70))%nat then Some (n - 55)%nat
  else None.

Definition unescape (c : ascii) : option ascii :=
  let n := nat_of_ascii c in
  if (n =? 34)%nat then Some dquote
  else if (n =? 92)%nat then Some backslash
  else if (n =? 47)%nat then Some c
  else if (n =? 110)%nat then Some (ascii_of_nat 10)
  else if (n =? 114)%nat then Some (ascii_of_nat 13)
  else if (n =? 116)%nat then Some (ascii_of_nat 9)
  else if (n =? 98)%nat then Some (ascii_of_nat 8)
  else if (n =? 102)%nat then Some (ascii_of_nat 12)
  else None.

(** Reads the body of a string literal, after its opening quote: the text
    and what follows the closing quote. *)
Fixpoint read_string (s : string) : option (string * string) :=
  match s with
  | EmptyString => None
  | String c s' =>
      let n := nat_of_ascii c in
      if (n =? 34)%nat then Some (EmptyString, s')
      else if (n =? 92)%nat then
        match s' with
        | String e s'' =>
            if (nat_of_ascii e =? 117)%nat then
              match s'' with
              | String h1 (String h2 (String h3 (String h4 s3))) =>
                  match hex_of h1, hex_of h2, hex_of h3, hex_of h4 with
                  | Some 0%nat, Some 0%nat, Some a, Some d =>
                      if (a <? 8)%nat then
                        match read_string s3 with
                        | Some (t, r) =>
                            Some (String (ascii_of_nat (a * 16 + d)) t, r)
                        | None => None
                        end
                      else None
                  | _, _, _, _ => None
                  end
              | _ => None
              end
            else
              match unescape e, read_string s'' with
              | Some c', Some (t, r) => Some (String c' t, r)
              | _, _ => None
              end
        | EmptyString => None
        end
      else if (n <? 32)%nat then None
      else
        match read_string s' with
        | Some (t, r) => Some (String c t, r)
        | None => None
        end
  end.

(** Reads a run of digits onto the accumulator. *)
Fixpoint read_digits (acc : Z) (s : string) : Z * string :=
  match s with
  | String c s' =>
      match digit_of c with
      | Some d => read_digits (acc * 10 + d) s'
      | None => (acc, s)
      end
  | EmptyString => (acc, s)
  end.

Definition starts_fraction (s : string) : bool :=
  match s with
  | String c _ =>
      let n := nat_of_ascii c in ((n =? 46) || (n =? 101) || (n =? 69))%nat
  | EmptyString => false
  end.

(** An integer literal without sign: no leading zero, no fraction or
    exponent after it. *)
Definition read_nat (s : string) : option (Z * string) :=
  match s with
  | String c s' =>
      match digit_of c with
      | Some 0 =>
          match s' with
          | String c' _ =>
              match digit_of c' with
              | Some _ => None
              | None => if starts_fraction s' then None else Some (0, s')
              end
          | EmptyString => Some (0, s')
          end
      | Some d =>
          let (z, r) := read_digits d s' in
          if starts_fraction r then None else Some (z, r)
      | None => None
      end
  | EmptyString => None
  end.

Definition read_keyword (kw : string) (v : json) (s : string)
    : option (json * string) :=
  if String.prefix kw s
  then Some (v, String.substring (String.length kw)
                  (String.length s - String.length kw) s)
  else None.

(** [d[k] = v] *)
Fixpoint dict_set (k : string) (v : json) (d : list (string * json))
    : list (string * json) :=
  match d with
  | [] => [(k, v)]
  | (k', v') :: rest =>
      if String.eqb k k' then (k, v) :: rest
      else (k', v') :: dict_set k v rest
  end.

(** The elements of an array after its first bracket, [value] reading one
    element. *)
Fixpoint read_elements (fuel : nat) (value : string -> option (json * string))
    (s : string) : option (list json * string) :=
  match fuel with
  | O => None
  | S fuel' =>
      match value s with
      | Some (v, r) =>
          match skip_ws r with
          | String c r' =>
              if (nat_of_ascii c =? 44)%nat then
                match read_elements fuel' value r' with
                | Some (vs, r'') => Some (v :: vs, r'')
                | None => None
                end
              else if (nat_of_ascii c =? 93)%nat then Some ([v], r')
              else None
          | EmptyString => None
          end
      | None => None
      end
  end.

(** The members of an object after its first brace, added to [d]. *)
Fixpoint read_members (fuel : nat) (value : string -> option (json * string))
    (d : list (string * json)) (s : string)
    : option (list (string * json) * string) :=
  match fuel with
  | O => None
  | S fuel' =>
      match skip_ws s with
      | String q s1 =>
          if (nat_of_ascii q =? 34)%nat then
            match read_string s1 with
            | Some (k, s2) =>
                match skip_ws s2 with
                | String colon s3 =>
                    if (nat_of_ascii colon =? 58)%nat then
                      match value s3 with
                      | Some (v, r) =>
                          let d' := dict_set k v d in
                          match skip_ws r with
                          | String c r' =>
                              if (nat_of_ascii c =? 44)%nat then
                                read_members fuel' value d' r'
                              else if (nat_of_ascii c =? 125)%nat then
                                Some (d', r')
                              else None
                          | EmptyString => None
                          end
                      | None => None
                      end
                    else None
                | EmptyString => None
                end
            | None => None
            end
          else None
      | EmptyString => None
      end
  end.

Fixpoint read_value (fuel : nat) (s : string) : option (json * string) :=
  match fuel with
  | O => None
  | S fuel' =>
      match skip_ws s with
      | EmptyString => None
      | String c s' as s0 =>
          let n := nat_of_ascii c in
          if (n =? 110)%nat then read_keyword "null" JNull s0
          else if (n =? 116)%nat then read_keyword "true" (JBool true) s0
          else if (n =? 102)%nat then read_keyword "false" (JBool false) s0
          else if (n =? 34)%nat then
            match read_string s' with
            | Some (t, r) => Some (JStr t, r)
            | None => None
            end
          else if (n =? 45)%nat then
            match read_nat s' with
            | Some (z, r) => Some (JInt (- z), r)
            | None => None
            end
          else if (n =? 91)%nat then
            match skip_ws s' with
            | String c' r =>
                if (nat_of_ascii c' =? 93)%nat then Some (JList [], r)
                else
                  match read_elements fuel' (read_value fuel') s' with
                  | Some (vs, r') => Some (JList vs, r')
                  | None => None
                  end
            | EmptyString => None
            end
          else if (n =? 123)%nat then
            match skip_ws s' with
            | String c' r =>
                if (nat_of_ascii c' =? 125)%nat then Some (JObj [], r)
                else
                  match read_members fuel' (read_value fuel') [] s' with
                  | Some (d, r') => Some (JObj d, r')
                  | None => None
                  end
            | EmptyString => None
            end
          else
            match read_nat s0 with
            | Some (z, r) => Some (JInt z, r)
            | None => None
            end
      end
  end.

(** The fuel that reading a value back takes: one unit for each level of
    nesting, and in a list or an object one for each element. *)
Fixpoint need (v : json) : nat :=
  match v with
  | JList l => S (fold_right Nat.max (length l) (map need l))
  | JObj kv =>
      S (fold_right Nat.max (length kv) (map (fun p => need (snd p)) kv))
  | JNull | JBool _ | JInt _ | JStr _ => 1
  end.

(** What may follow a value in a text: not a character that would make a
    number longer. *)
Definition ends_number (rest : string) : bool :=
  match rest with
  | String c _ =>
      match digit_of c with
      | Some _ => false
      | None => negb (starts_fraction rest)
      end
  | EmptyString => true
  end.

(** [value] reads back a value that was printed, whatever follows it. *)
Definition reads (value : string -> option (json * string)) (v : json)
    : Prop :=
  forall rest : string,
    ends_number rest = true -> value (json_dumps v ++ rest) = Some (v, rest).

(** json.loads, into Munch objects. *)
Definition json_loads (s : string) : result json :=
  match read_value (S (String.length s)) s with
  | Some (v, r) =>
      match skip_ws r with
      | EmptyString => Ok v
      | String _ _ => Raise (JSONDecodeError "Extra data")
      end
  | None => Raise (JSONDecodeError "Expecting value")
  end.

(** [z] in decimal, left-padded with zeros to [width] digits. *)
Definition zero_pad (width : nat) (z : Z) : string :=
  let digits := str_of_Z z in
  String.concat "" (repeat "0" (width - String.length digits)) ++ digits.

(** strftime at "%Y-%m-%d %H:%M:%S.%f" *)
Definition strftime_fixed (t : datetime) : string :=
  zero_pad 4 (year t) ++ "-" ++ zero_pad 2 (month t) ++ "-"
  ++ zero_pad 2 (day t) ++ " " ++ zero_pad 2 (hour t) ++ ":"
  ++ zero_pad 2 (minute t) ++ ":" ++ zero_pad 2 (second t) ++ "."
  ++ zero_pad 6 (microsecond t).

(** A field made of digits only. *)
Definition read_field (s : string) : option Z :=
  match s with
  | EmptyString => None
  | String _ _ =>
      match read_digits 0 s with
      | (z, EmptyString) => Some z
      | (_, String _ _) => None
      end
  end.

(** strptime at "%Y-%m-%d %H:%M:%S.%f", on timestamps of the width strftime
    writes. *)
Definition strptime_fixed (s : string) : result datetime :=
  let field (start len : nat) := read_field (String.substring start len s) in
  let sep (at_ : nat) (c : string) := String.eqb (String.substring at_ 1 s) c in
  if (String.length s =? 26)%nat
     && sep 4%nat "-" && sep 7%nat "-" && sep 10%nat " "
     && sep 13%nat ":" && sep 16%nat ":" && sep 19%nat "."
  then
    match field 0%nat 4%nat, field 5%nat 2%nat, field 8%nat 2%nat,
          field 11%nat 2%nat, field 14%nat 2%nat, field 17%nat 2%nat,
          field 20%nat 6%nat with
    | Some y, Some mo, Some d, Some h, Some mi, Some sec, Some us =>
        let t := mkdatetime y mo d h mi sec us in
        if valid_datetime t then Ok t
        else Raise (ValueError "time data does not match format")
    | _, _, _, _, _, _, _ =>
        Raise (ValueError "time data does not match format")
    end
  else Raise (ValueError "time data does not match format").

(** [repr] of a str, on printable text: single quotes, unless the text has a
    single quote and no double quote. *)
Definition repr_str (s : string) : string :=
  let q := if str_contains "'" s && negb (str_contains (str1 dquote) s)
           then dquote else "'"%char in
  let fix body (s : string) : string :=
    match s with
    | EmptyString => EmptyString
    | String c s' =>
        (if Ascii.eqb c backslash || Ascii.eqb c q
         then String backslash (str1 c) else str1 c) ++ body s'
    end in
  String q (body s ++ str1 q).

(** [repr] of a value; a Munch prints as [Munch({...})]. *)
Fixpoint repr (v : json) : string :=
  match v with
  | JNull => "None"
  | JBool true => "True"
  | JBool false => "False"
  | JInt z => str_of_Z z
  | JStr s => repr_str s
  | JList l =>
      "["
      ++ (fix items (l : list json) : string :=
            match l with
            | [] => ""
            | x :: rest =>
                repr x ++ match rest with [] => "" | _ => ", " ++ items rest end
            end) l
      ++ "]"
  | JObj kv =>
      "Munch({"
      ++ (fix members (kv : list (string * json)) : string :=
            match kv with
            | [] => ""
            | (k, x) :: rest =>
                repr_str k ++ ": " ++ repr x
                ++ match rest with [] => "" | _ => ", " ++ members rest end
            end) kv
      ++ "})"
  end.

(** The code point of a UTF-8 character outside ASCII, by its bytes. *)
Definition code_point (ch : string) : option Z :=
  let byte (a : ascii) := Z.of_nat (nat_of_ascii a) in
  let tail (a : ascii) := byte a - 128 in
  let is_tail (a : ascii) := (128 <=? byte a) && (byte a <? 192) in
  match ch with
  | String a (String b "") =>
      if (192 <=? byte a) && (byte a <? 224) && is_tail b
      then Some ((byte a - 192) * 64 + tail b) else None
  | String a (String b (String c "")) =>
      if (224 <=? byte a) && (byte a <? 240) && is_tail b && is_tail c
      then Some (((byte a - 224) * 64 + tail b) * 64 + tail c) else None
  | String a (String b (String c (String d ""))) =>
      if (240 <=? byte a) && (byte a <? 248) && is_tail b && is_tail c
         && is_tail d
      then Some ((((byte a - 240) * 64 + tail b) * 64 + tail c) * 64 + tail d)
      else None
  | _ => None
  end.

(** The code points of the digit zero of each script outside ASCII; the
    nine code points after each are its digits one to nine. *)
Definition zero_digits : list Z :=
  [1632; 1776; 1984; 2406; 2534; 2662; 2790; 2918; 3046; 3174; 3302; 3430;
   3558; 3664; 3792; 3872; 4160; 4240; 6112; 6160; 6470; 6608; 6784; 6800;
   6992; 7088; 7232; 7248; 42528; 43216; 43264; 43472; 43504; 43600; 44016;
   65296; 66720; 68912; 69734; 69872; 69942; 70096; 70384; 70736; 70864;
   71248; 71360; 71472; 71904; 72016; 72784; 73040; 73120; 92768; 92864;
   93008; 120782; 120792; 120802; 120812; 120822; 123200; 123632; 125264;
   130032].

(** unicodedata.decimal, outside ASCII. *)
Definition unicode_decimal (ch : string) : option Z :=
  match code_point ch with
  | Some cp =>
      match find (fun zero => (zero <=? cp) && (cp <? zero + 10))
                 zero_digits with
      | Some zero => Some (cp - zero)
      | None => None
      end
  | None => None
  end.

(** [\w], on ASCII: a letter, a digit or the underscore.  A byte outside
    ASCII is taken for no word character, as those of the icon are. *)
Definition is_word (c : ascii) : bool :=
  let n := nat_of_ascii c in
  (((48 <=? n) && (n <=? 57)) || ((65 <=? n) && (n <=? 90))
   || ((97 <=? n) && (n <=? 122)) || (n =? 95))%nat.

Definition starts_with_word (s : string) : bool :=
  match s with
  | String c _ => is_word c
  | EmptyString => false
  end.

(** The matches of [\B] then the character [p] then [\w+].  [kept] is
    the stretch since the last match, [found] the match being read, if any,
    and [after_word] tells whether the character before is a word
    character. *)
Fixpoint scan_tags (p : ascii) (kept : string) (found : option string)
    (after_word : bool) (s : string) : list piece :=
  match s with
  | EmptyString =>
      match found with
      | Some tagged => [Kept kept; Matched tagged; Kept ""]
      | None => [Kept kept]
      end
  | String c s' =>
      match found with
      | Some tagged =>
          if is_word c
          then scan_tags p kept (Some (tagged ++ str1 c)) true s'
          else Kept kept :: Matched tagged
               :: scan_tags p (str1 c) None false s'
      | None =>
          if Ascii.eqb c p && Bool.eqb (is_word p) after_word
             && starts_with_word s'
          then scan_tags p kept (Some (str1 c)) (is_word c) s'
          else scan_tags p (kept ++ str1 c) None (is_word c) s'
      end
  end.

(** The scan of re.sub for the tag pattern of a prefix of one ASCII
    character that is no letter and no digit, which the pattern takes as it
    is; a prefix that is a digit from 1 to 9 makes a reference to a group
    that the pattern does not have.  Other patterns are outside this
    reference, which refuses them. *)
Definition scan (pattern text : string) : result (list piece) :=
  match pattern with
  | String b1 (String "B" (String b2 (String p (String b3 "w+")))) =>
      if Ascii.eqb b1 backslash && Ascii.eqb b2 backslash
         && Ascii.eqb b3 backslash
      then
        let n := nat_of_ascii p in
        if ((49 <=? n) && (n <=? 57))%nat
        then Raise (ReError ("invalid group reference " ++ str1 p
                             ++ " at position 3"))
        else if (is_word p && negb (n =? 95)%nat) || (128 <=? n)%nat
        then Raise (ReError "pattern outside the reference")
        else Ok (scan_tags p "" None false text)
      else Raise (ReError "pattern outside the reference")
  | _ => Raise (ReError "pattern outside the reference")
  end.

Definition python : Runtime := {|
  fromJSON := json_loads;
  toJSON := json_dumps;
  strptime := strptime_fixed;
  strftime := strftime_fixed;
  py_repr := repr;
  re_scan := scan;
  decimal_value := unicode_decimal;
  strptime_empty := fun t (E : strptime_fixed "" = Ok t) =>
    eq_ind (strptime_fixed "")
      (fun r => match r with Ok _ => False | Raise _ => True end) I (Ok t) E
|}.

End PyLib.

(** ** A sample deployment

    One relayed channel, [#support], mapped to the local channel 100 of the
    guild 1, in which the member named [spammer] has the id 55.  The
    configuration has the options that the spec lists, and so no
    option [channel]. *)

Module Sample.

Definition cfg : config := {|
  channel_map := [("#support", 100)];
  send_limit := 2;
  commands_allowed := true;
  notice_errors := true;
  stale_seconds := 300;
  discord_ban_days := 7;
  irc_tag_prefix := "@";
  config_channel := None
|}.

(** The same deployment with the error notices turned off. *)
Definition cfg_quiet : config := {|
  channel_map := channel_map cfg;
  send_limit := send_limit cfg;
  commands_allowed := commands_allowed cfg;
  notice_errors := false;
  stale_seconds := stale_seconds cfg;
  discord_ban_days := discord_ban_days cfg;
  irc_tag_prefix := irc_tag_prefix cfg;
  config_channel := config_channel cfg
|}.

(** The same deployment with the cross-network commands turned off. *)
Definition cfg_no_commands : config := {|
  channel_map := channel_map cfg;
  send_limit := send_limit cfg;
  commands_allowed := false;
  notice_errors := notice_errors cfg;
  stale_seconds := stale_seconds cfg;
  discord_ban_days := discord_ban_days cfg;
  irc_tag_prefix := irc_tag_prefix cfg;
  config_channel := config_channel cfg
|}.

Definition the_bot : bot := {|
  has_channel := fun id => id =? 100;
  get_guild_from_channel_id := fun id => if id =? 100 then Some 1 else None;
  get_member_named :=
    fun guild name =>
      if (guild =? 1) && eq_str name "spammer" then Some 55 else None;
  mention := fun member => "<@" ++ str_of_Z member ++ ">";
  get_user := fun _ => None;
  moderation_error := fun _ => None
|}.

(** A tick of the publisher during a broker outage, with no producer
    active. *)
Definition outage : DiscordRelay.tick := {|
  DiscordRelay.publish_fails := true;
  DiscordRelay.appended_before_removal := [];
  DiscordRelay.appended_during_notice := []
|}.

(** A tick during which the broker accepts the batch and a producer appends
    the body [E]. *)
Definition accepted : DiscordRelay.tick := {|
  DiscordRelay.publish_fails := false;
  DiscordRelay.appended_before_removal := ["E"];
  DiscordRelay.appended_during_notice := []
|}.

(** A poll of the consumer during a broker outage. *)
Definition failed_poll : IRCReceiver.tick := {|
  IRCReceiver.consume_fails := true;
  IRCReceiver.responses := []
|}.

(** The buffer [A, B, C, D] of four pending bodies. *)
Definition four_pending : DiscordRelay.state := {|
  DiscordRelay.send_buffer := ["A"; "B"; "C"; "D"];
  DiscordRelay.mq_error_state := false
|}.

(** An envelope as the peer network's bot sends it. *)
Definition irc_envelope (type_ time : string)
    (content command target permissions : json) : json :=
  JObj [
    ("event", JObj [
       ("id", JStr "6f1c");
       ("type", JStr type_);
       ("time", JStr time);
       ("content", content);
       ("command", command);
       ("target", target);
       ("irc_command", JStr "MODE");
       ("irc_paramlist", JList [JStr "#support"; JStr "+o"; JStr "alice"])]);
    ("author", JObj [
       ("nickname", JStr "bob");
       ("mask", JStr "bob!bob@example.org");
       ("permissions", permissions)]);
    ("channel", JObj [("name", JStr "#support")])].

(** The clock of the consumer, and timestamps 299 and 301 seconds before
    it. *)
Definition noon : datetime := mkdatetime 2021 3 1 12 0 0 0.
Definition aged_299 : string := "2021-03-01 11:55:01.000000".
Definition aged_301 : string := "2021-03-01 11:54:59.000000".

(** What [serialize] reads for a message typed by the member 42. *)
Definition ctx : DiscordRelay.context := {|
  DiscordRelay.content := Some "hello";
  DiscordRelay.irc_command := None;
  DiscordRelay.attachments := ["https://cdn.example.org/a.png"];
  DiscordRelay.author_name := "carol";
  DiscordRelay.author_id := 42;
  DiscordRelay.author_display_name := "Carol";
  DiscordRelay.author_discriminator := "0042";
  DiscordRelay.author_bot := false;
  DiscordRelay.author_top_role := "Helper";
  DiscordRelay.permissions_in := {|
    DiscordRelay.kick_members := true;
    DiscordRelay.ban_members := false;
    DiscordRelay.administrator := false |};
  DiscordRelay.guild_name := "Support";
  DiscordRelay.guild_id := 1;
  DiscordRelay.channel_name := "support";
  DiscordRelay.channel_id := 100
|}.

(** The wire text of an envelope, as json.dumps writes it. *)
Definition wire (envelope : json) : string := PyLib.json_dumps envelope.

(** A chat message of the peer network, by its timestamp. *)
Definition chat (time : string) : json :=
  irc_envelope "message" time (JStr "hello") JNull JNull (JStr "").

(** An action of the peer network's user bob, who holds voice and operator
    privileges, and the values its line is made of. *)
Definition waves : json :=
  irc_envelope "action" aged_299 (JStr "waves") JNull JNull (JStr "vo").

Definition waves_values : IRCReceiver.line_values := {|
  IRCReceiver.nickname := JStr "bob";
  IRCReceiver.mask := JStr "bob!bob@example.org";
  IRCReceiver.channel := JStr "#support";
  IRCReceiver.content := JStr "waves";
  IRCReceiver.target := JNull;
  IRCReceiver.param1 := JStr "+o";
  IRCReceiver.param2 := JStr "alice"
|}.

(** The permission snapshot that [serialize] writes for an author who may
    kick. *)
Definition may_kick : json :=
  JObj [("kick", JBool true); ("ban", JBool false); ("unban", JBool false);
        ("admin", JBool false)].

(** A command of the peer network against the member [spammer], by its
    name and the permissions of its author. *)
Definition command (name : string) (permissions : json) : json :=
  irc_envelope "command" aged_299 (JStr "spammer") (JStr name) JNull
    permissions.

(** A chat-shaped envelope of a type outside the data model. *)
Definition unknown : json :=
  irc_envelope "unknown" aged_299 (JStr "hello") JNull JNull (JStr "").

(** A payload that is JSON text but carries no [event.time]. *)
Definition no_time : json := JObj [("event", JObj [("type", JStr "message")])].

(** What the producers see of the bot: the command prefix [.], the factoid
    prefix [?] with no factoids plugin loaded, and the user 42, carol. *)
Definition members : DiscordRelay.client := {|
  DiscordRelay.command_prefix := ".";
  DiscordRelay.factoids_prefix := "?";
  DiscordRelay.factoids_loaded := false;
  DiscordRelay.user_name := fun id => if id =? 42 then Some "carol" else None
|}.


(** A text that mentions carol and an unknown user. *)
Definition greeting : list DiscordRelay.segment :=
  [DiscordRelay.Text "hi "; DiscordRelay.Mention DiscordRelay.At 42;
   DiscordRelay.Text " and "; DiscordRelay.Mention DiscordRelay.AtBang 7;
   DiscordRelay.Text "!"].

(** A morning of the publisher: three bodies are produced, the broker
    refuses the first batch and accepts the next, a fourth body is produced
    and the last tick publishes what is left. *)
Definition morning : list DiscordRelay.event :=
  let tick (fails : bool) :=
    DiscordRelay.Ticked {|
      DiscordRelay.publish_fails := fails;
      DiscordRelay.appended_before_removal := [];
      DiscordRelay.appended_during_notice := [] |} in
  [DiscordRelay.Produced "A"; DiscordRelay.Produced "B";
   DiscordRelay.Produced "C"; tick true; tick false;
   DiscordRelay.Produced "D"; tick false].

(** The same deployment with a [send_limit] of zero. *)
Definition cfg_closed : config := {|
  channel_map := channel_map cfg;
  send_limit := 0;
  commands_allowed := commands_allowed cfg;
  notice_errors := notice_errors cfg;
  stale_seconds := stale_seconds cfg;
  discord_ban_days := discord_ban_days cfg;
  irc_tag_prefix := irc_tag_prefix cfg;
  config_channel := config_channel cfg
|}.

(** A bot that does not know the mapped channel. *)
Definition lost_bot : bot := {|
  has_channel := fun _ => false;
  get_guild_from_channel_id := get_guild_from_channel_id the_bot;
  get_member_named := get_member_named the_bot;
  mention := mention the_bot;
  get_user := get_user the_bot;
  moderation_error := moderation_error the_bot
|}.

(** A whois answer for the request of the user 42, with no real name. *)
Definition whois_answer : json :=
  irc_envelope "response" aged_299
    (JObj [("type", JStr "whois");
           ("request", JObj [("author", JInt 42)]);
           ("payload", JObj [("nick", JStr "bob"); ("user", JStr "bob");
                             ("host", JStr "example.org");
                             ("realname", JNull);
                             ("server", JStr "irc.example.org")])])
    (JStr "whois") JNull (JStr "").

(** A bot that knows the user 42, and whose kick fails. *)
Definition strict_bot : bot := {|
  has_channel := has_channel the_bot;
  get_guild_from_channel_id := get_guild_from_channel_id the_bot;
  get_member_named := get_member_named the_bot;
  mention := mention the_bot;
  get_user := fun id => match id with JInt 42 => Some 42 | _ => None end;
  moderation_error := fun _ => Some (ValueError "Missing Permissions")
|}.

(** The same deployment with the option [channel] set to the relayed
    channel. *)
Definition cfg_tagging : config := {|
  channel_map := channel_map cfg;
  send_limit := send_limit cfg;
  commands_allowed := commands_allowed cfg;
  notice_errors := notice_errors cfg;
  stale_seconds := stale_seconds cfg;
  discord_ban_days := discord_ban_days cfg;
  irc_tag_prefix := irc_tag_prefix cfg;
  config_channel := Some 100
|}.

(** A chat message of the operator bob that tags the member [spammer]. *)
Definition ping : json :=
  irc_envelope "message" aged_299 (JStr "ping @spammer") JNull JNull
    (JStr "o").

(** The same deployment with a threshold of 19602043200 seconds, some 621
    years, and the timestamp that is one microsecond more than the
    threshold before noon. *)
Definition cfg_centuries : config := {|
  channel_map := channel_map cfg;
  send_limit := send_limit cfg;
  commands_allowed := commands_allowed cfg;
  notice_errors := notice_errors cfg;
  stale_seconds := 19602043200;
  discord_ban_days := discord_ban_days cfg;
  irc_tag_prefix := irc_tag_prefix cfg;
  config_channel := config_channel cfg
|}.

Definition long_ago : string := "1399-12-31 23:59:59.999999".

(** A chat message with a timestamp that is no timestamp, and a request for
    a factoid. *)
Definition undated : json :=
  irc_envelope "message" "yesterday" (JStr "hello") JNull JNull (JStr "").

Definition factoid_request : json :=
  irc_envelope "message" aged_299 (JStr "?rules") JNull
    (JStr "factoid_request") (JStr "").

End Sample.

(** * Properties *)

(** ** The monad *)

Lemma bind_ret_l {A B : Type} (a : A) (k : A -> M B) : bind (ret a) k = k a.
Proof. unfold bind, ret. destruct (k a) as [t r]. reflexivity. Qed.

Lemma bind_pure {A B : Type} (a : A) (k : A -> M B) :
  bind (@nil action, Ok a) k = k a.
Proof. apply bind_ret_l. Qed.

Lemma bind_raise {A B : Type} (e : exn) (k : A -> M B) :
  bind (raise e) k = raise e.
Proof. reflexivity. Qed.

Lemma bind_emit {B : Type} (a : action) (k : unit -> M B) :
  bind (emit a) k = (a :: fst (k tt), snd (k tt)).
Proof. unfold bind, emit. destruct (k tt) as [t r]. reflexivity. Qed.

Lemma bind_assoc {A B C : Type} (m : M A) (k : A -> M B) (h : B -> M C) :
  bind (bind m k) h = bind m (fun a => bind (k a) h).
Proof.
  destruct m as [t [a | e]]; simpl; [| reflexivity].
  destruct (k a) as [t1 [x | e1]]; simpl; [| reflexivity].
  destruct (h x) as [t2 r]. rewrite app_assoc. reflexivity.
Qed.

Lemma str_append_assoc (x y z : string) : (x ++ y) ++ z = x ++ (y ++ z).
Proof. induction x as [| c x IH]; simpl; [reflexivity | now rewrite IH]. Qed.

(** Evaluates the binds of values that are known. *)
Ltac run_binds :=
  repeat (progress (rewrite ?bind_ret_l; simpl eq_str; cbv iota)).

(** Rewrites with what is known of the attributes of an envelope. *)
Ltac read_carried :=
  repeat match goal with
         | H : _ /\ _ |- _ => destruct H
         | H : exists c, _ /\ str_lower c = _ |- _ =>
             let c := fresh "c" in
             let Hc := fresh "Hc" in
             destruct H as (c & Hc & Hmode)
         | H : exists c, _ /\ str_lower c <> _ |- _ =>
             let c := fresh "c" in
             let Hc := fresh "Hc" in
             destruct H as (c & Hc & Hmode)
         | H : exists params, _ /\ nth_error params 1 = _ /\ _ |- _ =>
             let params := fresh "params" in
             let Hparams := fresh "Hparams" in
             destruct H as (params & Hparams & Hfirst & Hsecond)
         | H : IRCReceiver.attr2 _ _ _ = ret _ |- _ => rewrite H; clear H
         end.

(** ** The publisher loop *)

Section Publisher.
Import DiscordRelay.

Lemma filter_enumerate_firstn (limit : Z) (l : list string) (k : nat) :
  map snd
    (filter (fun p : nat * string => Z.of_nat (fst p) + 1 <=? limit)
            (combine (seq k (length l)) l))
  = firstn (Z.to_nat limit - k) l.
Proof.
  revert k. induction l as [| a l IH]; intro k; simpl.
  - now rewrite firstn_nil.
  - destruct (Z.leb_spec (Z.of_nat k + 1) limit) as [Hle | Hgt]; simpl.
    + rewrite IH.
      replace (Z.to_nat limit - k)%nat with (S (Z.to_nat limit - S k)) by lia.
      reflexivity.
    + rewrite IH.
      replace (Z.to_nat limit - k)%nat with 0%nat by lia.
      replace (Z.to_nat limit - S k)%nat with 0%nat by lia.
      reflexivity.
Qed.

(** The comprehension takes the oldest [send_limit] bodies, in order. *)
Lemma bodies_of_firstn (cfg : config) (buffer : list string) :
  bodies_of cfg buffer = firstn (Z.to_nat (send_limit cfg)) buffer.
Proof.
  unfold bodies_of, enumerate. rewrite filter_enumerate_firstn.
  now rewrite Nat.sub_0_r.
Qed.

Lemma bodies_of_taken (cfg : config) (buffer : list string) :
  bodies_of cfg buffer = firstn (taken cfg buffer) buffer
  /\ length (bodies_of cfg buffer) = taken cfg buffer.
Proof.
  rewrite bodies_of_firstn. unfold taken.
  assert (E : firstn (Z.to_nat (send_limit cfg)) buffer
              = firstn (Z.to_nat (Z.min (send_limit cfg)
                                    (Z.of_nat (length buffer)))) buffer).
  { destruct (Z.le_ge_cases (send_limit cfg) (Z.of_nat (length buffer))).
    - now rewrite Z.min_l.
    - rewrite Z.min_r by assumption. rewrite Nat2Z.id.
      rewrite firstn_all. apply firstn_all2. lia. }
  split; [exact E |].
  rewrite E, length_firstn. lia.
Qed.

Lemma skipn_app_le {A : Type} (n : nat) (l extra : list A) :
  (n <= length l)%nat -> skipn n (l ++ extra) = (skipn n l ++ extra)%list.
Proof.
  intro Hn. rewrite skipn_app.
  replace (n - length l)%nat with 0%nat by lia. reflexivity.
Qed.

(** What a tick does when it publishes: the general shape of [execute] on a
    buffer from which at least one body is taken. *)
Lemma execute_publishes (cfg : config) (b : bot) (env : tick) (st : state) :
  taken cfg (send_buffer st) <> 0%nat ->
  let n := taken cfg (send_buffer st) in
  let published := [MqPublish (firstn n (send_buffer st))] in
  execute cfg b env st =
    if publish_fails env && notice_errors cfg then
      match first_key cfg with
      | (_, Raise e) =>
          ({| send_buffer :=
                (send_buffer st ++ appended_before_removal env)%list;
              mq_error_state := true |}, (published, Raise e))
      | (_, Ok key) =>
          match get_channel b (lookup key (channel_map cfg)) with
          | Some channel =>
              ({| send_buffer :=
                    ((send_buffer st ++ appended_before_removal env)
                     ++ appended_during_notice env)%list;
                  mq_error_state := true |},
               ((published ++ [ChannelSend channel error_notice])%list, Ok tt))
          | None =>
              ({| send_buffer :=
                    (send_buffer st ++ appended_before_removal env)%list;
                  mq_error_state := true |}, (published, Ok tt))
          end
      end
    else
      ({| send_buffer :=
            (skipn n (send_buffer st) ++ appended_before_removal env)%list;
          mq_error_state := publish_fails env |}, (published, Ok tt)).
Proof.
  intros Hn n published. subst n published.
  destruct (bodies_of_taken cfg (send_buffer st)) as [Hb Hlen].
  assert (Hle : (taken cfg (send_buffer st) <= length (send_buffer st))%nat)
    by (unfold taken; lia).
  unfold execute. cbv zeta. rewrite Hlen, Hb.
  destruct (firstn (taken cfg (send_buffer st)) (send_buffer st))
    as [| x xs] eqn:Ef.
  - exfalso. apply Hn. rewrite <- Hlen, Hb. try rewrite Ef. reflexivity.
  - simpl.
    destruct (publish_fails env); simpl.
    + destruct (notice_errors cfg); simpl.
      * destruct (first_key cfg) as [t [key | e]]; [| reflexivity].
        destruct (get_channel b (lookup key (channel_map cfg))); reflexivity.
      * now rewrite skipn_app_le.
    + now rewrite skipn_app_le.
Qed.

Lemma execute_idle (cfg : config) (b : bot) (env : tick) (st : state) :
  taken cfg (send_buffer st) = 0%nat -> execute cfg b env st = (st, ret tt).
Proof.
  intro Hn. destruct (bodies_of_taken cfg (send_buffer st)) as [Hb _].
  unfold execute. cbv zeta. rewrite Hb, Hn. reflexivity.
Qed.

End Publisher.

Section PublisherTicks.
Import DiscordRelay.

(** C4.  For every buffer and every [send_limit], a tick whose publish
    succeeds takes the first min(send_limit, length) bodies, oldest first,
    publishes exactly them and removes exactly them: the buffer it leaves is
    the rest, followed by what producers appended during the tick, in order.
    When that number is zero nothing is published and the buffer is left as
    it is. *)
Theorem successful_tick_removes_published_prefix
    (cfg : config) (b : bot) (env : tick) (st : state) :
  publish_fails env = false ->
  let n := taken cfg (send_buffer st) in
  bodies_of cfg (send_buffer st) = firstn n (send_buffer st)
  /\ (n = 0%nat -> execute cfg b env st = (st, ret tt))
  /\ (n <> 0%nat ->
      execute cfg b env st =
        ({| send_buffer :=
              (skipn n (send_buffer st) ++ appended_before_removal env)%list;
            mq_error_state := false |},
         ([MqPublish (firstn n (send_buffer st))], Ok tt))).
Proof.
  intros Hok n. subst n. split; [apply bodies_of_taken |]. split.
  - apply execute_idle.
  - intro Hn. rewrite (execute_publishes cfg b env st Hn), Hok.
    reflexivity.
Qed.

(** With the buffer [A, B, C, D] and [send_limit = 2], a successful tick
    during which a producer appends [E] publishes [A, B] and leaves
    [C, D, E]. *)
Lemma successful_tick_on_four_pending :
  execute Sample.cfg Sample.the_bot Sample.accepted Sample.four_pending
  = ({| send_buffer := ["C"; "D"; "E"]; mq_error_state := false |},
     ([MqPublish ["A"; "B"]], Ok tt)).
Proof.
  refine (proj2 (proj2 (successful_tick_removes_published_prefix
                          Sample.cfg Sample.the_bot Sample.accepted
                          Sample.four_pending eq_refl)) _).
  discriminate.
Defined.

(** What a failed publish leaves in the buffer: everything when the error
    notices are on, but only the unpublished rest when they are off. *)
Lemma failed_tick_buffer (cfg : config) (b : bot) (env : tick) (st : state) :
  publish_fails env = true ->
  taken cfg (send_buffer st) <> 0%nat ->
  exists noticed,
    send_buffer (fst (execute cfg b env st)) =
      if notice_errors cfg
      then ((send_buffer st ++ appended_before_removal env) ++ noticed)%list
      else (skipn (taken cfg (send_buffer st)) (send_buffer st)
            ++ appended_before_removal env)%list.
Proof.
  intros Hfail Hn. rewrite (execute_publishes cfg b env st Hn), Hfail.
  destruct (notice_errors cfg); simpl.
  - destruct (first_key cfg) as [t [key | e]].
    + destruct (get_channel b (lookup key (channel_map cfg))).
      * exists (appended_during_notice env). reflexivity.
      * exists []. now rewrite app_nil_r.
    + exists []. now rewrite app_nil_r.
  - exists []. reflexivity.
Qed.

(** A failed publish with the notices on sends one notice, whatever
    happened in the ticks before: the publisher keeps no count. *)
Lemma failed_tick_always_notifies (cfg : config) (b : bot) (env : tick)
    (st : state) (key : string) (channel : Z) :
  publish_fails env = true ->
  notice_errors cfg = true ->
  taken cfg (send_buffer st) <> 0%nat ->
  first_key cfg = ret key ->
  get_channel b (lookup key (channel_map cfg)) = Some channel ->
  snd (execute cfg b env st)
  = ([MqPublish (firstn (taken cfg (send_buffer st)) (send_buffer st));
      ChannelSend channel error_notice], Ok tt).
Proof.
  intros Hfail Hnotice Hn Hkey Hch.
  rewrite (execute_publishes cfg b env st Hn), Hfail, Hnotice, Hkey.
  simpl. rewrite Hch. reflexivity.
Qed.

(** C1.  The code at the failing input: with [notice_errors] off, a tick whose
    publish fails on the buffer [A, B, C, D] removes the attempted slice
    [A, B] all the same, and leaves [C, D]. *)
Theorem failed_tick_without_notice_drops_slice :
  execute Sample.cfg_quiet Sample.the_bot Sample.outage Sample.four_pending
  = ({| send_buffer := ["C"; "D"]; mq_error_state := true |},
     ([MqPublish ["A"; "B"]], Ok tt)).
Proof. reflexivity. Qed.

(** With [notice_errors] on, the same failed tick keeps the four bodies. *)
Lemma failed_tick_with_notice_keeps_buffer :
  execute Sample.cfg Sample.the_bot Sample.outage Sample.four_pending
  = ({| send_buffer := ["A"; "B"; "C"; "D"]; mq_error_state := true |},
     ([MqPublish ["A"; "B"]; ChannelSend 100 error_notice], Ok tt)).
Proof. reflexivity. Qed.

Lemma run_cons (cfg : config) (b : bot) (env : tick) (rest : list tick)
    (st st' : state) (t : trace) (r : result unit) :
  execute cfg b env st = (st', (t, r)) ->
  snd (run cfg b (env :: rest) st) = (t ++ snd (run cfg b rest st'))%list.
Proof.
  intro He. simpl. rewrite He.
  destruct (run cfg b rest st') as [s t']. reflexivity.
Qed.

Lemma adapter_calls_app (t t' : trace) :
  adapter_calls (t ++ t')%list = (adapter_calls t ++ adapter_calls t')%list.
Proof. apply filter_app. Qed.

Lemma outage_tick (flag : bool) :
  execute Sample.cfg Sample.the_bot Sample.outage
    {| send_buffer := ["A"; "B"; "C"; "D"]; mq_error_state := flag |}
  = ({| send_buffer := ["A"; "B"; "C"; "D"]; mq_error_state := true |},
     ([MqPublish ["A"; "B"]; ChannelSend 100 error_notice], Ok tt)).
Proof. reflexivity. Qed.

Lemma outage_run (n : nat) (flag : bool) :
  adapter_calls
    (snd (run Sample.cfg Sample.the_bot (repeat Sample.outage n)
            {| send_buffer := ["A"; "B"; "C"; "D"];
               mq_error_state := flag |}))
  = repeat (ChannelSend 100 error_notice) n.
Proof.
  revert flag. induction n as [| n IH]; intro flag; [reflexivity |].
  cbn [repeat]. rewrite (run_cons _ _ _ _ _ _ _ _ (outage_tick flag)).
  rewrite adapter_calls_app, IH. reflexivity.
Qed.

(** C7.  The code at the failing input: over [n] consecutive ticks of a broker
    outage the publisher loop sends [n] error notices to the first channel
    of the map, for every [n]; no count bounds them. *)
Theorem publisher_notices_are_unbounded (n : nat) :
  adapter_calls
    (snd (run Sample.cfg Sample.the_bot (repeat Sample.outage n)
            Sample.four_pending))
  = repeat (ChannelSend 100 error_notice) n.
Proof. apply outage_run. Qed.

End PublisherTicks.

(** ** The float of [total_seconds()] *)

Section Floats.

Lemma round_half_even_bounds (num den : Z) :
  num / den <= round_half_even num den <= num / den + 1.
Proof.
  unfold round_half_even.
  destruct (2 * (num mod den) <? den); [lia |].
  destruct (den <? 2 * (num mod den)); [lia |].
  destruct (Z.even (num / den)); lia.
Qed.

(** A quotient below [t], under it by more than half a unit, is rounded
    below [t]; the quotient [t] is rounded to [t]; a quotient above [t],
    over it by more than half a unit, is rounded above [t]. *)
Lemma round_half_even_order (num den t gap : Z) :
  0 < den -> den < 2 * gap ->
  (num + gap <= t * den -> round_half_even num den < t)
  /\ (num = t * den -> round_half_even num den = t)
  /\ (t * den + gap <= num -> t < round_half_even num den).
Proof.
  intros Hden Hgap. unfold round_half_even.
  pose proof (Z.div_mod num den ltac:(lia)) as Hdiv.
  pose proof (Z.mod_pos_bound num den Hden) as Hmod.
  repeat split; intro H.
  - assert (num / den < t) by nia.
    destruct (Z.ltb_spec (2 * (num mod den)) den); [lia |].
    assert (num / den + 1 < t) by nia.
    destruct (den <? 2 * (num mod den)); [lia |].
    destruct (Z.even (num / den)); lia.
  - assert (num / den = t) by nia.
    assert (num mod den = 0) by nia.
    destruct (Z.ltb_spec (2 * (num mod den)) den); lia.
  - assert (t <= num / den) by nia.
    destruct (Z.ltb_spec (2 * (num mod den)) den) as [Hlt | Hge].
    + nia.
    + destruct (Z.ltb_spec den (2 * (num mod den))); [lia |].
      destruct (Z.even (num / den)); nia.
Qed.

Lemma log2_million : Z.log2 1000000 = 19.
Proof. reflexivity. Qed.

(** Below 2^34 seconds the exponent is at most -19: the floats are less
    than a microsecond apart. *)
Lemma exponent_small (a : Z) :
  0 < a < 2 ^ 34 * 1000000 -> exponent a 1000000 <= -19.
Proof.
  intros [Hpos Hlt]. unfold exponent. rewrite log2_million.
  assert (Hlog : Z.log2 a < 54).
  { apply Z.log2_lt_pow2; [exact Hpos |]. lia. }
  destruct (Z.eq_dec (Z.log2 a) 53) as [E | NE].
  - rewrite E. change (53 - 19 - 52) with (-18).
    change (scaled a 1000000 (-18)) with (a * 2 ^ 18, 1000000).
    cbn [fst snd].
    assert (Hq : a * 2 ^ 18 / 1000000 < 2 ^ 52).
    { apply Z.div_lt_upper_bound; lia. }
    apply Z.ltb_lt in Hq. rewrite Hq. lia.
  - destruct (_ <? _); lia.
Qed.

(** The significand of a quotient has at least 53 bits. *)
Lemma exponent_normal (a : Z) :
  0 < a -> 0 <= exponent a 1000000 ->
  2 ^ 52 <= fst (scaled a 1000000 (exponent a 1000000))
            / snd (scaled a 1000000 (exponent a 1000000)).
Proof.
  intros Hpos. unfold exponent. rewrite log2_million.
  set (e0 := Z.log2 a - 19 - 52).
  destruct (Z.ltb_spec (fst (scaled a 1000000 e0) / snd (scaled a 1000000 e0))
                       (2 ^ 52)) as [Hlow | Hok]; intro He; [| exact Hok].
  unfold scaled. replace (0 <=? e0 - 1) with true by (symmetry; now apply Z.leb_le).
  cbn [fst snd].
  apply Z.div_le_lower_bound.
  - assert (0 < 2 ^ (e0 - 1)) by (apply Z.pow_pos_nonneg; lia). lia.
  - destruct (Z.log2_spec a Hpos) as [Hlog _].
    assert (Hsplit : 2 ^ Z.log2 a = 2 ^ 20 * (2 ^ 52 * 2 ^ (e0 - 1))).
    { rewrite <- !Z.pow_add_r by lia. f_equal. lia. }
    assert (0 < 2 ^ 52 * 2 ^ (e0 - 1)).
    { apply Z.mul_pos_pos; [lia | apply Z.pow_pos_nonneg; lia]. }
    nia.
Qed.

(** The quotient of a positive count of microseconds is ordered against a
    whole number of seconds below 2^34 as the count is against that many
    microseconds. *)
Lemma rounded_positive (a s : Z) :
  0 < a -> 0 <= s < 2 ^ 34 ->
  float_compare (true_divide a 1000000) s = (a ?= s * 1000000).
Proof.
  intros Hpos Hs. unfold true_divide.
  replace (a =? 0) with false by (symmetry; apply Z.eqb_neq; lia).
  rewrite (Z.abs_eq a) by lia. rewrite (Z.sgn_pos a Hpos), Z.mul_1_l.
  set (e := exponent a 1000000).
  pose proof (round_half_even_bounds (fst (scaled a 1000000 e))
                (snd (scaled a 1000000 e))) as Hround.
  unfold float_compare.
  destruct (Z_lt_le_dec a (2 ^ 34 * 1000000)) as [Hnear | Hfar].
  - pose proof (exponent_small a (conj Hpos Hnear)) as He. fold e in He.
    unfold scaled in *.
    replace (0 <=? e) with false in * by (symmetry; apply Z.leb_gt; lia).
    cbn [fst snd] in *.
    assert (Hgap : 2 ^ 19 <= 2 ^ (- e)) by (apply Z.pow_le_mono_r; lia).
    set (P := 2 ^ (- e)) in *.
    destruct (round_half_even_order (a * P) 1000000 (s * P) P
                ltac:(lia) ltac:(lia)) as (Hlt & Heq & Hgt).
    destruct (Z.compare_spec a (s * 1000000)) as [E | L | G].
    + apply Z.compare_eq_iff. apply Heq. subst a. ring.
    + apply Z.compare_lt_iff. apply Hlt. nia.
    + apply Z.compare_gt_iff. apply Hgt. nia.
  - replace (a ?= s * 1000000) with Gt
      by (symmetry; apply Z.compare_gt_iff; lia).
    destruct (Z.leb_spec 0 e) as [He | He].
    + pose proof (exponent_normal a Hpos He) as Hn. fold e in Hn.
      apply Z.compare_gt_iff.
      assert (1 <= 2 ^ e) by (apply (Z.pow_le_mono_r 2 0 e); lia).
      nia.
    + unfold scaled in *.
      replace (0 <=? e) with false in * by (symmetry; apply Z.leb_gt; lia).
      cbn [fst snd] in *.
      assert (HP : 0 < 2 ^ (- e)) by (apply Z.pow_pos_nonneg; lia).
      set (P := 2 ^ (- e)) in *.
      assert (2 ^ 34 * P <= a * P / 1000000).
      { apply Z.div_le_lower_bound; [lia | nia]. }
      apply Z.compare_gt_iff. nia.
Qed.

Lemma float_compare_opp (m e s : Z) :
  float_compare (- m, e) s = CompOpp (float_compare (m, e) (- s)).
Proof.
  assert (Hopp : forall x y : Z, (- x ?= y) = CompOpp (x ?= - y)).
  { intros x y. rewrite <- Z.compare_antisym, <- (Z.compare_opp x (- y)).
    now rewrite Z.opp_involutive. }
  unfold float_compare.
  destruct (0 <=? e); rewrite Z.mul_opp_l; apply Hopp.
Qed.

(** For a threshold below 2^34 seconds in size, the float of
    [total_seconds()] is ordered against it as the count of microseconds is
    against the threshold in microseconds. *)
Lemma total_seconds_compare (us s : Z) :
  Z.abs s < 2 ^ 34 ->
  float_compare (total_seconds us) s = (us ?= s * 1000000).
Proof.
  intro Hs. unfold total_seconds.
  destruct (Z.compare_spec us 0) as [E | L | G].
  - subst us. unfold true_divide, float_compare. cbn [Z.eqb Z.leb Z.compare].
    cbn. destruct s; reflexivity.
  - (* a negative count *)
    assert (Hm : true_divide us 1000000
                 = (- fst (true_divide (- us) 1000000),
                    snd (true_divide (- us) 1000000))).
    { unfold true_divide.
      replace (us =? 0) with false by (symmetry; apply Z.eqb_neq; lia).
      replace (- us =? 0) with false by (symmetry; apply Z.eqb_neq; lia).
      rewrite Z.abs_opp, Z.sgn_opp, (Z.sgn_neg us L). cbn [fst snd].
      f_equal. ring. }
    rewrite Hm, float_compare_opp, <- surjective_pairing.
    destruct (Z_lt_le_dec s 0) as [Hneg | Hnn].
    + rewrite (rounded_positive (- us) (- s)) by lia.
      rewrite <- Z.compare_antisym, Z.mul_opp_l. apply Z.compare_opp.
    + (* the quotient is negative, the threshold is not *)
      transitivity Lt; [| symmetry; apply Z.compare_lt_iff; lia].
      assert (Hz : float_compare (true_divide (- us) 1000000) 0 = Gt).
      { rewrite (rounded_positive (- us) 0) by lia.
        apply Z.compare_gt_iff. lia. }
      destruct (true_divide (- us) 1000000) as [m e]. unfold float_compare in *.
      destruct (0 <=? e).
      * apply Z.compare_gt_iff in Hz.
        assert (Hgt : (m * 2 ^ e ?= - s) = Gt)
          by (apply Z.compare_gt_iff; lia).
        now rewrite Hgt.
      * apply Z.compare_gt_iff in Hz.
        assert (Hgt : (m ?= - s * 2 ^ (- e)) = Gt).
        { apply Z.compare_gt_iff.
          assert (0 <= 2 ^ (- e)) by (apply Z.pow_nonneg; lia). nia. }
        now rewrite Hgt.
  - destruct (Z_lt_le_dec s 0) as [Hneg | Hnn].
    + (* the quotient is positive, the threshold is negative *)
      transitivity Gt; [| symmetry; apply Z.compare_gt_iff; lia].
      assert (Hz : float_compare (true_divide us 1000000) 0 = Gt).
      { rewrite (rounded_positive us 0) by lia.
        apply Z.compare_gt_iff. lia. }
      destruct (true_divide us 1000000) as [m e]. unfold float_compare in *.
      destruct (0 <=? e).
      * apply Z.compare_gt_iff in Hz. apply Z.compare_gt_iff. lia.
      * apply Z.compare_gt_iff in Hz. apply Z.compare_gt_iff.
        assert (0 <= 2 ^ (- e)) by (apply Z.pow_nonneg; lia). nia.
    + apply rounded_positive; lia.
Qed.

Lemma total_seconds_gt (us s : Z) :
  Z.abs s < 2 ^ 34 ->
  float_gt (total_seconds us) s = (us >? s * 1000000).
Proof.
  intro Hs. unfold float_gt, Z.gtb.
  now rewrite (total_seconds_compare us s Hs).
Qed.

End Floats.

(** ** The consumer: deserialize and the router *)

Section Receiver.
Import IRCReceiver.
Context {rt : Runtime}.
Variable cfg : config.
Variable b : bot.

Lemma getattr_trace (v : json) (name : string) : fst (getattr v name) = [].
Proof.
  destruct v; try reflexivity. simpl.
  destruct (lookup name fields); reflexivity.
Qed.

Lemma attr2_trace (data : json) (x y : string) : fst (attr2 data x y) = [].
Proof.
  unfold attr2. destruct data; try reflexivity. simpl.
  destruct (lookup x fields) as [v |]; [| reflexivity].
  rewrite bind_ret_l. apply getattr_trace.
Qed.

(** A value that has an attribute is a non-empty Munch, hence truthy. *)
Lemma getattr_truthy (v x : json) (name : string) :
  getattr v name = ret x -> truthy v = true.
Proof.
  destruct v; try discriminate. destruct fields; [discriminate | reflexivity].
Qed.

Lemma attr2_truthy (data v : json) (x y : string) :
  attr2 data x y = ret v -> truthy data = true.
Proof.
  unfold attr2. destruct data; try discriminate.
  destruct fields; [discriminate | reflexivity].
Qed.

(** A string that parses as a timestamp is not empty, hence truthy. *)
Lemma truthy_timestamp (s : string) (t : datetime) :
  strptime s = Ok t -> truthy (JStr s) = true.
Proof.
  intro Hs. simpl. apply negb_true_iff, String.eqb_neq.
  intros ->. exact (strptime_empty t Hs).
Qed.

(** A payload that is no JSON text is refused with two warnings. *)
Lemma deserialize_unparseable (now : datetime) (body : string) (e : exn) :
  fromJSON body = Raise e ->
  deserialize cfg now body =
    ([Log WARNING ("Unable to Munch-deserialize incoming data: " ++ exn_str e);
      Log WARNING ("Full body: " ++ body)], Ok JNull).
Proof. intro Hp. unfold deserialize. rewrite Hp. reflexivity. Qed.

(** A payload whose [event.time] is present and falsy is refused. *)
Lemma deserialize_falsy_time (now : datetime) (body : string)
    (data time : json) :
  fromJSON body = Ok data ->
  attr2 data "event" "time" = ret time ->
  truthy time = false ->
  deserialize cfg now body =
    ([Log WARNING "Unable to retrieve time object from incoming data"],
     Ok JNull).
Proof.
  intros Hp Ht Hf. unfold deserialize. rewrite Hp, Ht, bind_ret_l, Hf.
  reflexivity.
Qed.

(** An exception of the attribute access [deserialized.event.time], which
    stands outside the try block, leaves [deserialize]. *)
Lemma deserialize_raises_on_missing_time (now : datetime) (body : string)
    (data : json) (e : exn) :
  fromJSON body = Ok data ->
  snd (attr2 data "event" "time") = Raise e ->
  deserialize cfg now body = ([], Raise e).
Proof.
  intros Hp Ht. unfold deserialize. rewrite Hp.
  pose proof (attr2_trace data "event" "time") as Htr.
  destruct (attr2 data "event" "time") as [t r]. simpl in *. subst.
  reflexivity.
Qed.

Lemma deserialize_timed (now : datetime) (body : string) (data : json)
    (s : string) (t : datetime) :
  fromJSON body = Ok data ->
  attr2 data "event" "time" = ret (JStr s) ->
  strptime s = Ok t ->
  deserialize cfg now body =
    if float_gt (total_seconds (sub_microseconds now t)) (stale_seconds cfg)
    then ([stale_warning cfg], Ok JNull)
    else ([deserialized_debug body], Ok data).
Proof.
  intros Hp Ht Hparse. unfold deserialize.
  rewrite Hp, Ht, bind_ret_l, (truthy_timestamp s t Hparse).
  simpl negb. cbv iota.
  unfold _time_stale. rewrite Hparse. unfold lift. fold (@ret datetime t).
  rewrite bind_ret_l.
  destruct (float_gt (total_seconds (sub_microseconds now t))
                     (stale_seconds cfg));
    rewrite bind_ret_l; reflexivity.
Qed.

(** C3.  With a threshold [stale_seconds] below 2^34 seconds in size, an
    envelope whose [event.time] parses under the fixed format to a time more
    than [stale_seconds] seconds before the clock is refused by
    [deserialize], and [handle_event] does nothing for it but log two
    warnings: no formatter and no dispatcher runs.  An envelope aged at most
    [stale_seconds] is returned by [deserialize] and handed to the router. *)
Theorem stale_envelope_dropped_fresh_envelope_routed
    (now : datetime) (body : string) (data : json) (s : string)
    (t : datetime) :
  Z.abs (stale_seconds cfg) < 2 ^ 34 ->
  fromJSON body = Ok data ->
  attr2 data "event" "time" = ret (JStr s) ->
  strptime s = Ok t ->
  (sub_microseconds now t > stale_seconds cfg * 1000000 ->
   deserialize cfg now body = ([stale_warning cfg], Ok JNull)
   /\ handle_event cfg b now body =
        ([stale_warning cfg; Log WARNING "Unable to deserialize data! Aborting!"],
         Ok tt))
  /\ (sub_microseconds now t <= stale_seconds cfg * 1000000 ->
      deserialize cfg now body = ([deserialized_debug body], Ok data)
      /\ handle_event cfg b now body =
           (deserialized_debug body :: fst (route_event cfg b body data),
            snd (route_event cfg b body data))).
Proof.
  intros Hbound Hp Ht Hparse.
  pose proof (deserialize_timed now body data s t Hp Ht Hparse) as Hd.
  rewrite (total_seconds_gt _ _ Hbound) in Hd.
  split; intro Hage.
  - assert (Hgt : (sub_microseconds now t >? stale_seconds cfg * 1000000)
                  = true) by (apply Z.gtb_lt; lia).
    rewrite Hgt in Hd. split; [exact Hd |].
    unfold handle_event. rewrite Hd. reflexivity.
  - assert (Hle : (sub_microseconds now t >? stale_seconds cfg * 1000000)
                  = false).
    { destruct (Z.gtb_spec (sub_microseconds now t)
                           (stale_seconds cfg * 1000000)); [lia | reflexivity]. }
    rewrite Hle in Hd. split; [exact Hd |].
    unfold handle_event. rewrite Hd. unfold bind.
    rewrite (attr2_truthy _ _ _ _ Ht). simpl negb. cbv iota.
    destruct (route_event cfg b body data) as [t' r]. reflexivity.
Qed.

(** A payload of JSON text that carries no [event.time] makes [deserialize]
    raise, and with it [handle_event] and the tick that called it. *)
Lemma missing_time_escapes (now : datetime) (body : string) (data : json)
    (e : exn) (st : state) :
  fromJSON body = Ok data ->
  snd (attr2 data "event" "time") = Raise e ->
  deserialize cfg now body = ([], Raise e)
  /\ handle_event cfg b now body = ([], Raise e)
  /\ snd (execute cfg b {| consume_fails := false;
                           responses := [(now, body)] |} st)
     = ([], Raise e).
Proof.
  intros Hp Ht.
  pose proof (deserialize_raises_on_missing_time now body data e Hp Ht) as Hd.
  assert (Hh : handle_event cfg b now body = ([], Raise e))
    by (unfold handle_event; rewrite Hd; reflexivity).
  repeat split; try assumption.
  unfold execute. simpl. rewrite Hh. reflexivity.
Qed.

Lemma _time_stale_trace (now : datetime) (time : json) :
  fst (_time_stale cfg now time) = [].
Proof.
  unfold _time_stale.
  destruct time; try reflexivity. unfold lift.
  destruct (strptime s) as [t | e]; [| reflexivity].
  cbn [bind fst snd app].
  destruct (float_gt (total_seconds (sub_microseconds now t))
                     (stale_seconds cfg));
    reflexivity.
Qed.

(** When [deserialize] returns an envelope, it has logged the debug line and
    nothing else, and the envelope is the parsed payload. *)
Lemma deserialize_success_inv (now : datetime) (body : string) (t : trace)
    (data : json) :
  deserialize cfg now body = (t, Ok data) ->
  truthy data = true ->
  t = [deserialized_debug body] /\ fromJSON body = Ok data.
Proof.
  unfold deserialize. intros Hd Htruthy.
  destruct (fromJSON body) as [d | e].
  - pose proof (attr2_trace d "event" "time") as Ht1.
    destruct (attr2 d "event" "time") as [t1 [time | e1]];
      simpl in Ht1; subst t1; [| discriminate].
    rewrite bind_pure in Hd.
    destruct (truthy time).
    + simpl negb in Hd. cbv iota in Hd.
      pose proof (_time_stale_trace now time) as Ht2.
      destruct (_time_stale cfg now time) as [t2 [stale | e2]];
        simpl in Ht2; subst t2; [| discriminate].
      rewrite bind_pure in Hd.
      destruct stale; inversion Hd; subst.
      * discriminate.
      * split; reflexivity.
    + inversion Hd; subst. discriminate.
  - inversion Hd; subst. discriminate.
Qed.

Lemma in_event_types_false (ty : json) :
  in_strs ty event_types = false ->
  in_strs ty display_types = false
  /\ eq_str ty "command" = false /\ eq_str ty "response" = false.
Proof.
  unfold event_types, in_strs. rewrite existsb_app. simpl.
  intro Hf. apply orb_false_iff in Hf. destruct Hf as [Hd Hr].
  split; [exact Hd |].
  destruct (eq_str ty "command"); [discriminate |].
  destruct (eq_str ty "response"); [discriminate |]. split; reflexivity.
Qed.

(** The router on a type outside the data model: one warning. *)
Lemma route_event_unknown_type (body : string) (data ty : json) :
  attr2 data "event" "type" = ret ty ->
  in_strs ty event_types = false ->
  route_event cfg b body data =
    ([Log WARNING ("Unable to handle event: " ++ body)], Ok tt).
Proof.
  intros Hty Hout.
  destruct (in_event_types_false ty Hout) as (Hd & Hc & Hr).
  unfold route_event. rewrite Hty, bind_ret_l, Hd, Hc, Hr. reflexivity.
Qed.

(** [process_command] on a command that is not kick, ban or unban. *)
Lemma process_command_unroutable (data command : json) :
  attr2 data "event" "command" = ret command ->
  in_strs command user_commands = false ->
  process_command cfg b data =
    ([if commands_allowed cfg
      then Log WARNING ("Received unroutable command: " ++ fmt command)
      else Log DEBUG ("Blocking incoming " ++ fmt command
                      ++ " request due to disabled config")], Ok tt).
Proof.
  unfold user_commands. intros Hc Hout. unfold process_command.
  destruct (commands_allowed cfg); simpl negb; cbv iota;
    rewrite Hc, bind_ret_l; [rewrite Hout |]; reflexivity.
Qed.

(** C8, as amended.  A successfully deserialized envelope whose type is
    outside the data model makes [handle_event] log exactly one warning and
    call no adapter.  A command other than kick, ban and unban makes
    [process_command] call no adapter; it is logged as unroutable when the
    cross-network commands are allowed, and only as blocked, at debug
    level, when they are disabled. *)
Theorem unroutable_events_and_commands :
  (forall (now : datetime) (body : string) (t : trace) (data ty : json),
      deserialize cfg now body = (t, Ok data) ->
      truthy data = true ->
      attr2 data "event" "type" = ret ty ->
      in_strs ty event_types = false ->
      handle_event cfg b now body =
        ([deserialized_debug body;
          Log WARNING ("Unable to handle event: " ++ body)], Ok tt)
      /\ length (warnings (fst (handle_event cfg b now body))) = 1%nat
      /\ adapter_calls (fst (handle_event cfg b now body)) = [])
  /\ (forall data command : json,
        attr2 data "event" "command" = ret command ->
        in_strs command user_commands = false ->
        process_command cfg b data =
          ([if commands_allowed cfg
            then Log WARNING ("Received unroutable command: " ++ fmt command)
            else Log DEBUG ("Blocking incoming " ++ fmt command
                            ++ " request due to disabled config")], Ok tt)
        /\ adapter_calls (fst (process_command cfg b data)) = []).
Proof.
  split.
  - intros now body t data ty Hd Htruthy Hty Hout.
    destruct (deserialize_success_inv now body t data Hd Htruthy) as [-> _].
    assert (Hh : handle_event cfg b now body =
                 ([deserialized_debug body;
                   Log WARNING ("Unable to handle event: " ++ body)], Ok tt)).
    { unfold handle_event. rewrite Hd. unfold bind. rewrite Htruthy.
      simpl negb. cbv iota.
      rewrite (route_event_unknown_type body data ty Hty Hout). reflexivity. }
    rewrite Hh. repeat split.
  - intros data command Hc Hout.
    rewrite (process_command_unroutable data command Hc Hout).
    split; [reflexivity |]. destruct (commands_allowed cfg); reflexivity.
Qed.

(** The permission check of the moderation path. *)
Lemma _data_has_op_spec (data permissions : json) (o : bool) :
  attr2 data "author" "permissions" = ret permissions ->
  py_in "o" permissions = ret o ->
  _data_has_op data = ret o.
Proof.
  intros Hp Ho. unfold _data_has_op. rewrite Hp, bind_ret_l, Ho, bind_ret_l.
  destruct o; reflexivity.
Qed.

(** A permission snapshot made of the four booleans has no operator
    marker, whatever the booleans are. *)
Lemma four_booleans_have_no_op (kick ban unban admin : bool) :
  py_in "o" (JObj [("kick", JBool kick); ("ban", JBool ban);
                   ("unban", JBool unban); ("admin", JBool admin)])
  = ret false.
Proof. reflexivity. Qed.

(** C2, as amended.  With the commands enabled, a kick, ban or unban
    envelope is rejected, with one warning and before any channel or adapter
    call, when its [author.permissions] does not contain the operator marker
    [o]; that is the case of every snapshot made only of the kick, ban,
    unban and admin booleans, also with [kick] or [admin] true.  An envelope
    whose [author.permissions] contains [o] passes the check and goes on to
    the channel, guild and target resolution. *)
Theorem gate_checks_operator_marker (data command permissions : json) :
  commands_allowed cfg = true ->
  attr2 data "event" "command" = ret command ->
  in_strs command user_commands = true ->
  attr2 data "author" "permissions" = ret permissions ->
  (py_in "o" permissions = ret false ->
   process_command cfg b data =
     ([Log WARNING ("Blocking incoming " ++ fmt command
                    ++ " request due to permissions")], Ok tt))
  /\ (py_in "o" permissions = ret true ->
      process_command cfg b data = _resolve_and_execute cfg b data)
  /\ (forall kick ban unban admin : bool,
         permissions = JObj [("kick", JBool kick); ("ban", JBool ban);
                             ("unban", JBool unban); ("admin", JBool admin)] ->
         py_in "o" permissions = ret false).
Proof.
  unfold user_commands. intros Hon Hc Hin Hp.
  assert (Hpc : process_command cfg b data = _process_user_command cfg b data).
  { unfold process_command. rewrite Hon. simpl negb. cbv iota.
    rewrite Hc, bind_ret_l, Hin. reflexivity. }
  repeat split.
  - intro Ho. rewrite Hpc. unfold _process_user_command.
    rewrite (_data_has_op_spec data permissions false Hp Ho), bind_ret_l.
    simpl negb. cbv iota. rewrite Hc, bind_ret_l. reflexivity.
  - intro Ho. rewrite Hpc. unfold _process_user_command.
    rewrite (_data_has_op_spec data permissions true Hp Ho), bind_ret_l.
    reflexivity.
  - intros kick ban unban admin ->. apply four_booleans_have_no_op.
Qed.

(** The label is [+] when the voice privilege is present, followed by [@]
    when the operator privilege is, and empty on a falsy snapshot. *)
Lemma _get_permissions_label_spec (permissions : json) :
  (truthy permissions = false -> _get_permissions_label permissions = ret "")
  /\ (forall voice op : bool,
         truthy permissions = true ->
         py_in "v" permissions = ret voice ->
         py_in "o" permissions = ret op ->
         _get_permissions_label permissions = ret (label_of voice op)).
Proof.
  unfold _get_permissions_label. split.
  - intros ->. reflexivity.
  - intros voice op -> -> ->. rewrite !bind_ret_l. reflexivity.
Qed.

(** C9, as amended.  The line that [process_message] makes of a displayable
    envelope is the template of its kind: the chat message, join, part,
    quit, kick and factoid lines are those of the spec; the action line
    opens with the icon, like the chat message line; the mode-change line
    opens with the icon and the labelled nickname before [sets mode]; any
    other configuration event gives the [did some configuration] line.  The
    label is [+] when the voice privilege [v] is present, followed by [@]
    when the operator privilege [o] is, and empty otherwise. *)
Theorem formatted_lines_follow_templates (data permissions : json) :
  attr2 data "author" "permissions" = ret permissions ->
  (truthy permissions = false -> _get_permissions_label permissions = ret "")
  /\ (forall voice op : bool,
         truthy permissions = true ->
         py_in "v" permissions = ret voice ->
         py_in "o" permissions = ret op ->
         _get_permissions_label permissions = ret (label_of voice op))
  /\ (forall (label : string) (k : kind) (f : line_values),
         _get_permissions_label permissions = ret label ->
         carries data k f ->
         process_message data = ret (Some (relay_template label f k))).
Proof.
  intro Hp.
  destruct (_get_permissions_label_spec permissions) as [Hempty Hlabel].
  split; [exact Hempty |]. split; [exact Hlabel |].
  intros label k f Hl Hc.
  unfold process_message, _format_chat_message, _format_event_message.
  unfold relay_template, masked, named.
  destruct k; unfold carries in Hc; read_carried; run_binds; rewrite Hl;
    run_binds;
    rewrite ?str_append_assoc; try reflexivity.
  - (* mode change *)
    unfold py_lower. rewrite bind_ret_l, Hmode. simpl String.eqb. cbv iota.
    unfold py_index. rewrite Hfirst, bind_ret_l, Hsecond, bind_ret_l.
    rewrite ?str_append_assoc. reflexivity.
  - (* other configuration *)
    unfold py_lower. rewrite bind_ret_l.
    apply String.eqb_neq in Hmode. rewrite Hmode. run_binds.
    rewrite ?str_append_assoc. reflexivity.
Qed.

(** The consumer's notices are counted: a tick sends one only while
    [error_count] is below five, and counts it. *)
Lemma consumer_tick_without_notice (env : tick) (st : state) :
  5 <= error_count st ->
  execute cfg b env st
  = (consume (consume_fails env) st, handle_events cfg b (responses env)).
Proof.
  intro Hn. unfold execute. cbv zeta.
  replace (error_count (consume (consume_fails env) st) <? 5) with false
    by (symmetry; apply Z.ltb_ge; exact Hn).
  rewrite andb_false_r. reflexivity.
Qed.

Lemma consumer_error_count_bounded (envs : list tick) (st : state) :
  error_count st <= 5 -> error_count (fst (run cfg b envs st)) <= 5.
Proof.
  revert st. induction envs as [| env envs IH]; intros st Hst; [exact Hst |].
  simpl.
  assert (Hex : error_count (fst (execute cfg b env st)) <= 5).
  { unfold execute. cbv zeta.
    destruct (mq_error_state (consume (consume_fails env) st)
              && notice_errors cfg); simpl; [| exact Hst].
    destruct (Z.ltb_spec (error_count st) 5); simpl; [| exact Hst].
    destruct (first_key cfg) as [t [key | e]]; [| exact Hst].
    destruct (get_channel b (lookup key (channel_map cfg))); simpl; lia. }
  destruct (execute cfg b env st) as [st' [t r]]; simpl in Hex.
  specialize (IH st' Hex).
  destruct (run cfg b envs st') as [st'' t']. exact IH.
Qed.

Lemma consumer_run_cons (env : tick) (rest : list tick) (st st' : state)
    (t : trace) (r : result unit) :
  execute cfg b env st = (st', (t, r)) ->
  snd (run cfg b (env :: rest) st) = (t ++ snd (run cfg b rest st'))%list.
Proof.
  intro He. simpl. rewrite He.
  destruct (run cfg b rest st') as [s t']. reflexivity.
Qed.

End Receiver.

Section ReceiverOnSample.
Import IRCReceiver.

(** Against a threshold of 300 seconds, the chat message stamped 301 seconds
    before the clock is dropped and the one stamped 299 seconds before it is
    sent to the mapped channel. *)
Lemma aged_301_dropped_aged_299_delivered :
  handle_event (rt := PyLib.python) Sample.cfg Sample.the_bot Sample.noon
    (Sample.wire (Sample.chat Sample.aged_301))
  = ([Log WARNING "Incoming data failed stale check (300 seconds)";
      Log WARNING "Unable to deserialize data! Aborting!"], Ok tt)
  /\ handle_event (rt := PyLib.python) Sample.cfg Sample.the_bot Sample.noon
       (Sample.wire (Sample.chat Sample.aged_299))
     = ([deserialized_debug (Sample.wire (Sample.chat Sample.aged_299));
         ChannelSend 100 (IRC_LOGO ++ " `bob` hello")], Ok tt).
Proof.
  split.
  - refine (proj2 (proj1 (stale_envelope_dropped_fresh_envelope_routed
                            (rt := PyLib.python) Sample.cfg Sample.the_bot
                            Sample.noon
                            (Sample.wire (Sample.chat Sample.aged_301))
                            (Sample.chat Sample.aged_301) Sample.aged_301
                            (mkdatetime 2021 3 1 11 54 59 0)
                            _ _ _ _) _)).
    + vm_compute. reflexivity.
    + vm_compute. reflexivity.
    + reflexivity.
    + vm_compute. reflexivity.
    + vm_compute. reflexivity.
  - refine (proj2 (proj2 (stale_envelope_dropped_fresh_envelope_routed
                            (rt := PyLib.python) Sample.cfg Sample.the_bot
                            Sample.noon
                            (Sample.wire (Sample.chat Sample.aged_299))
                            (Sample.chat Sample.aged_299) Sample.aged_299
                            (mkdatetime 2021 3 1 11 55 1 0)
                            _ _ _ _) _)).
    + vm_compute. reflexivity.
    + vm_compute. reflexivity.
    + reflexivity.
    + vm_compute. reflexivity.
    + vm_compute. discriminate.
Defined.

(** Against a threshold of 19602043200 seconds, the chat message stamped one
    microsecond more than the threshold before the clock is not refused:
    [total_seconds()] rounds its age to the threshold, [deserialize] returns
    the envelope and [handle_event] sends its line to the mapped channel. *)
Lemma age_past_large_threshold_is_delivered :
  strptime (Runtime := PyLib.python) Sample.long_ago
  = Ok (mkdatetime 1399 12 31 23 59 59 999999)
  /\ sub_microseconds Sample.noon (mkdatetime 1399 12 31 23 59 59 999999)
     = stale_seconds Sample.cfg_centuries * 1000000 + 1
  /\ deserialize (rt := PyLib.python) Sample.cfg_centuries Sample.noon
       (Sample.wire (Sample.chat Sample.long_ago))
     = ([deserialized_debug (Sample.wire (Sample.chat Sample.long_ago))],
        Ok (Sample.chat Sample.long_ago))
  /\ handle_event (rt := PyLib.python) Sample.cfg_centuries Sample.the_bot
       Sample.noon (Sample.wire (Sample.chat Sample.long_ago))
     = ([deserialized_debug (Sample.wire (Sample.chat Sample.long_ago));
         ChannelSend 100 (IRC_LOGO ++ " `bob` hello")], Ok tt).
Proof. split; [| split; [| split]]; vm_compute; reflexivity. Qed.

(** C6.  The code at the failing input: the payload [Sample.no_time], an
    object whose [event] has a type and no time, is JSON text; [deserialize]
    does not answer it with a failure result but raises AttributeError, and
    the exception leaves [handle_event] and the consumer tick. *)
Theorem deserialize_raises_without_time :
  fromJSON (Runtime := PyLib.python) (Sample.wire Sample.no_time)
    = Ok Sample.no_time
  /\ deserialize (rt := PyLib.python) Sample.cfg Sample.noon
       (Sample.wire Sample.no_time)
     = ([], Raise (AttributeError "time"))
  /\ snd (execute (rt := PyLib.python) Sample.cfg Sample.the_bot
            {| consume_fails := false;
               responses := [(Sample.noon, Sample.wire Sample.no_time)] |}
            {| error_count := 0; mq_error_state := false |})
     = ([], Raise (AttributeError "time")).
Proof.
  assert (Hp : fromJSON (Runtime := PyLib.python) (Sample.wire Sample.no_time)
               = Ok Sample.no_time) by (vm_compute; reflexivity).
  split; [exact Hp |].
  destruct (missing_time_escapes (rt := PyLib.python) Sample.cfg Sample.the_bot
              Sample.noon _ _ (AttributeError "time")
              {| error_count := 0; mq_error_state := false |} Hp eq_refl)
    as (Hd & _ & He).
  split; assumption.
Qed.

(** A kick command whose author's snapshot has [kick = true] is rejected by
    the permission check, with the commands enabled. *)
Lemma kick_permission_is_rejected :
  commands_allowed Sample.cfg = true
  /\ attr2 (Sample.command "kick" Sample.may_kick) "author" "permissions"
     = ret Sample.may_kick
  /\ getattr Sample.may_kick "kick" = ret (JBool true)
  /\ _data_has_op (Sample.command "kick" Sample.may_kick) = ret false
  /\ process_command (rt := PyLib.python) Sample.cfg Sample.the_bot
       (Sample.command "kick" Sample.may_kick)
     = ([Log WARNING "Blocking incoming kick request due to permissions"],
        Ok tt).
Proof. repeat split. Qed.

(** The kick command of an author with the four-boolean snapshot is
    rejected; that of an author with the operator marker is executed. *)
Lemma gate_on_sample_commands :
  process_command (rt := PyLib.python) Sample.cfg Sample.the_bot
    (Sample.command "kick" Sample.may_kick)
  = ([Log WARNING "Blocking incoming kick request due to permissions"], Ok tt)
  /\ process_command (rt := PyLib.python) Sample.cfg Sample.the_bot
       (Sample.command "kick" (JStr "o"))
     = ([ChannelSend 100
           "Executing IRC **kick** command from `bob!bob@example.org` on target `spammer`";
         GuildKick 1 55], Ok tt).
Proof.
  split.
  - exact (proj1 (gate_checks_operator_marker (rt := PyLib.python)
                    Sample.cfg Sample.the_bot
                    (Sample.command "kick" Sample.may_kick)
                    (JStr "kick") Sample.may_kick
                    eq_refl eq_refl eq_refl eq_refl) eq_refl).
  - refine (eq_trans
              (proj1 (proj2 (gate_checks_operator_marker (rt := PyLib.python)
                               Sample.cfg Sample.the_bot
                               (Sample.command "kick" (JStr "o"))
                               (JStr "kick") (JStr "o")
                               eq_refl eq_refl eq_refl eq_refl)) eq_refl) _).
    reflexivity.
Defined.

(** With the commands disabled, a whois command is not logged as
    unroutable; the only log line is the debug line of the disabled check. *)
Lemma disabled_commands_log_no_unroutable :
  in_strs (JStr "whois") user_commands = false
  /\ process_command (rt := PyLib.python) Sample.cfg_no_commands
       Sample.the_bot (Sample.command "whois" (JStr "o"))
     = ([Log DEBUG "Blocking incoming whois request due to disabled config"],
        Ok tt)
  /\ warnings (fst (process_command (rt := PyLib.python)
                      Sample.cfg_no_commands Sample.the_bot
                      (Sample.command "whois" (JStr "o")))) = [].
Proof. repeat split. Qed.

(** An envelope of type [unknown] gives one warning and no adapter call; a
    whois command, with the commands allowed, is logged as unroutable. *)
Lemma unknown_type_and_whois_command :
  handle_event (rt := PyLib.python) Sample.cfg Sample.the_bot Sample.noon
    (Sample.wire Sample.unknown)
  = ([deserialized_debug (Sample.wire Sample.unknown);
      Log WARNING ("Unable to handle event: " ++ Sample.wire Sample.unknown)],
     Ok tt)
  /\ process_command (rt := PyLib.python) Sample.cfg Sample.the_bot
       (Sample.command "whois" (JStr "o"))
     = ([Log WARNING "Received unroutable command: whois"], Ok tt).
Proof.
  split.
  - refine (proj1 (proj1 (unroutable_events_and_commands (rt := PyLib.python)
                            Sample.cfg Sample.the_bot)
                     Sample.noon (Sample.wire Sample.unknown)
                     [deserialized_debug (Sample.wire Sample.unknown)]
                     Sample.unknown (JStr "unknown") _ eq_refl eq_refl eq_refl)).
    vm_compute. reflexivity.
  - exact (proj1 (proj2 (unroutable_events_and_commands (rt := PyLib.python)
                           Sample.cfg Sample.the_bot)
                    (Sample.command "whois" (JStr "o")) (JStr "whois")
                    eq_refl eq_refl)).
Defined.

(** The line of an action opens with the icon, which the action template of
    the spec does not have. *)
Lemma action_line_opens_with_icon :
  process_message (rt := PyLib.python) Sample.waves
  = ret (Some (IRC_LOGO ++ " `+@bob` waves"))
  /\ spec_template (rt := PyLib.python) "+@" Sample.waves_values Action
     = Some "`+@bob` waves"
  /\ process_message (rt := PyLib.python) Sample.waves
     <> ret (spec_template (rt := PyLib.python) "+@" Sample.waves_values
               Action).
Proof. repeat split. discriminate. Qed.

(** The action of the sample is formatted by the action template, under the
    label of an author with both privileges. *)
Lemma action_line_of_sample :
  _get_permissions_label (JStr "vo") = ret "+@"
  /\ process_message (rt := PyLib.python) Sample.waves
     = ret (Some (IRC_LOGO ++ " `+@bob` waves")).
Proof.
  pose proof (formatted_lines_follow_templates (rt := PyLib.python)
                Sample.waves (JStr "vo") eq_refl) as (_ & Hlabel & Hline).
  split.
  - exact (Hlabel true true eq_refl eq_refl eq_refl).
  - refine (Hline "+@" Action Sample.waves_values eq_refl _).
    repeat split.
Defined.

(** During an outage the consumer of the sample sends its notice on the
    first five failed polls and on none after them. *)
Lemma consumer_notices_stop_after_five (n : nat) :
  adapter_calls
    (snd (run (rt := PyLib.python) Sample.cfg Sample.the_bot
            (repeat Sample.failed_poll n)
            {| error_count := 0; mq_error_state := false |}))
  = repeat (ChannelSend 100 error_notice) (Nat.min n 5).
Proof.
  assert (Hrun : forall (n : nat) (k : nat) (flag : bool),
             (k <= 5)%nat ->
             adapter_calls
               (snd (run (rt := PyLib.python) Sample.cfg Sample.the_bot
                       (repeat Sample.failed_poll n)
                       {| error_count := Z.of_nat k;
                          mq_error_state := flag |}))
             = repeat (ChannelSend 100 error_notice) (Nat.min n (5 - k))).
  { clear n. induction n as [| n IH]; intros k flag Hk; [reflexivity |].
    cbn [repeat].
    destruct (Nat.eq_dec k 5) as [-> | Hlt].
    - rewrite (consumer_run_cons (rt := PyLib.python) Sample.cfg
                 Sample.the_bot Sample.failed_poll (repeat Sample.failed_poll n)
                 {| error_count := Z.of_nat 5; mq_error_state := flag |}
                 {| error_count := Z.of_nat 5; mq_error_state := true |} []
                 (Ok tt) eq_refl).
      rewrite app_nil_l, (IH 5%nat true (Nat.le_refl 5)).
      rewrite Nat.sub_diag, !Nat.min_0_r. reflexivity.
    - assert (He : execute (rt := PyLib.python) Sample.cfg Sample.the_bot
                     Sample.failed_poll
                     {| error_count := Z.of_nat k; mq_error_state := flag |}
                   = ({| error_count := Z.of_nat (S k);
                         mq_error_state := true |},
                      ([ChannelSend 100 error_notice], Ok tt))).
      { unfold execute. cbv zeta. simpl.
        replace (Z.of_nat k <? 5) with true by (symmetry; apply Z.ltb_lt; lia).
        simpl. do 2 f_equal. lia. }
      rewrite (consumer_run_cons (rt := PyLib.python) Sample.cfg
                 Sample.the_bot Sample.failed_poll _ _ _ _ _ He).
      rewrite adapter_calls_app, (IH (S k) true ltac:(lia)).
      replace (5 - k)%nat with (S (5 - S k)) by lia. reflexivity. }
  rewrite <- (Nat.sub_0_r 5) at 1. exact (Hrun n 0%nat false ltac:(lia)).
Qed.

End ReceiverOnSample.

(** ** The JSON text of the reference runtime

    What [json_dumps] prints, [json_loads] reads back to the same value. *)

Lemma str_append_nil (s : string) : s ++ "" = s.
Proof. induction s; simpl; congruence. Qed.

Section JsonText.
Import PyLib.

Lemma read_string_escape (s rest : string) :
  read_string (escape s ++ String dquote rest) = Some (s, rest).
Proof.
  induction s as [| c s IH]; [reflexivity |].
  cbn [escape]. rewrite str_append_assoc.
  destruct c as [[] [] [] [] [] [] [] []];
    simpl in *; rewrite IH; reflexivity.
Qed.

Lemma uint_value_acc (d : Decimal.uint) : forall acc : positive,
  DiscordRelay.uint_value (Zpos acc) d = Zpos (Pos.of_uint_acc d acc).
Proof.
  induction d; intro acc; cbn [DiscordRelay.uint_value Pos.of_uint_acc];
    try reflexivity; rewrite <- IHd; f_equal; lia.
Qed.

Lemma uint_value_of_uint (d : Decimal.uint) :
  DiscordRelay.uint_value 0 d = Z.of_N (Pos.of_uint d).
Proof.
  induction d; simpl; try reflexivity; try exact IHd; apply uint_value_acc.
Qed.

(** The numeral of a positive number opens with a digit that is not zero. *)
Lemma to_uint_head (p : positive) (d : Decimal.uint) :
  Pos.to_uint p <> Decimal.D0 d.
Proof.
  intro E.
  pose proof (DecimalPos.Unsigned.to_of (Pos.to_uint p)) as Hn.
  rewrite DecimalPos.Unsigned.of_to in Hn. cbn [N.to_uint] in Hn.
  pose proof (DecimalPos.Unsigned.to_uint_nonzero p) as Hz.
  unfold Decimal.unorm in Hn.
  destruct (Decimal.nzhead (Pos.to_uint p)) eqn:Eh;
    [congruence | now apply DecimalFacts.nzhead_nonzero in Eh
    | congruence ..].
Qed.

Lemma ends_number_digit (c : ascii) (rest : string) :
  ends_number (String c rest) = true -> digit_of c = None.
Proof. unfold ends_number. destruct (digit_of c); [discriminate | reflexivity]. Qed.

Lemma ends_number_fraction (rest : string) :
  ends_number rest = true -> starts_fraction rest = false.
Proof.
  destruct rest as [| c rest]; [reflexivity |]. unfold ends_number.
  destruct (digit_of c); [discriminate |]. now rewrite negb_true_iff.
Qed.

Lemma read_digits_uint (d : Decimal.uint) :
  forall (acc : Z) (rest : string),
  ends_number rest = true ->
  read_digits acc (NilEmpty.string_of_uint d ++ rest)
  = (DiscordRelay.uint_value acc d, rest).
Proof.
  induction d; intros acc rest Hrest;
    try (simpl; rewrite (IHd _ rest Hrest); rewrite ?Z.add_0_r; reflexivity).
  simpl. destruct rest as [| c rest]; [reflexivity |].
  simpl. now rewrite (ends_number_digit c rest Hrest).
Qed.

(** A number that [str] wrote, without sign, is read back. *)
Lemma read_nat_str_of_Z (z : Z) (rest : string) :
  0 <= z -> ends_number rest = true ->
  read_nat (str_of_Z z ++ rest) = Some (z, rest).
Proof.
  intros Hz Hrest. unfold str_of_Z.
  destruct z as [| p | p]; [| | lia].
  - simpl. destruct rest as [| c rest]; [reflexivity |].
    rewrite (ends_number_digit c rest Hrest).
    now rewrite (ends_number_fraction _ Hrest).
  - simpl Z.to_int. unfold NilZero.string_of_int, NilZero.string_of_uint.
    pose proof (DecimalPos.Unsigned.to_uint_nonnil p) as Hn.
    pose proof (to_uint_head p) as Hh.
    pose proof (uint_value_of_uint (Pos.to_uint p)) as Hv.
    rewrite DecimalPos.Unsigned.of_to in Hv.
    destruct (Pos.to_uint p) as [| d | d | d | d | d | d | d | d | d | d];
      [congruence | now elim (Hh d) | ..];
      cbn [NilEmpty.string_of_uint String.append read_nat];
      match goal with
      | |- context [digit_of ?c] =>
          let v := eval vm_compute in (digit_of c) in
          change (digit_of c) with v
      end; cbv iota beta;
      rewrite (read_digits_uint d _ rest Hrest);
      rewrite (ends_number_fraction _ Hrest);
      cbn [DiscordRelay.uint_value] in Hv; simpl in Hv; rewrite Hv;
      reflexivity.
Qed.

Lemma json_nested_ind (P : json -> Prop) :
  P JNull -> (forall b : bool, P (JBool b)) -> (forall z : Z, P (JInt z)) ->
  (forall s : string, P (JStr s)) ->
  (forall items : list json, Forall P items -> P (JList items)) ->
  (forall fields : list (string * json),
      Forall (fun field => P (snd field)) fields -> P (JObj fields)) ->
  forall v : json, P v.
Proof.
  intros Hnull Hbool Hint Hstr Hlist Hobj.
  fix IH 1. intros [| b | z | s | items | fields].
  - exact Hnull.
  - apply Hbool.
  - apply Hint.
  - apply Hstr.
  - apply Hlist. induction items as [| x items IHitems]; constructor.
    + apply IH.
    + exact IHitems.
  - apply Hobj. induction fields as [| [k x] fields IHfields]; constructor.
    + apply IH.
    + exact IHfields.
Qed.

Lemma substring_all (s : string) :
  String.substring 0 (String.length s) s = s.
Proof. induction s; simpl; congruence. Qed.

Lemma prefix_append (kw rest : string) : String.prefix kw (kw ++ rest) = true.
Proof.
  induction kw as [| a kw IH]; simpl; [now destruct rest |].
  destruct (ascii_dec a a); [exact IH | congruence].
Qed.

Lemma read_keyword_here (kw : string) (v : json) (rest : string) :
  read_keyword kw v (kw ++ rest) = Some (v, rest).
Proof.
  unfold read_keyword. rewrite prefix_append. do 2 f_equal.
  induction kw as [| a kw IH]; simpl.
  - rewrite Nat.sub_0_r. apply substring_all.
  - exact IH.
Qed.

Lemma dict_set_fresh (k : string) (v : json) (d : list (string * json)) :
  existsb (String.eqb k) (map fst d) = false ->
  dict_set k v d = (d ++ [(k, v)])%list.
Proof.
  induction d as [| [k' v'] d IH]; simpl; [reflexivity |].
  intro H. apply orb_false_iff in H. destruct H as [Hk Hd].
  rewrite Hk, IH by exact Hd. reflexivity.
Qed.

Lemma read_value_S (fuel : nat) (s : string) :
  read_value (S fuel) s
  = match skip_ws s with
    | EmptyString => None
    | String c s' as s0 =>
        let n := nat_of_ascii c in
        if (n =? 110)%nat then read_keyword "null" JNull s0
        else if (n =? 116)%nat then read_keyword "true" (JBool true) s0
        else if (n =? 102)%nat then read_keyword "false" (JBool false) s0
        else if (n =? 34)%nat then
          match read_string s' with
          | Some (t, r) => Some (JStr t, r)
          | None => None
          end
        else if (n =? 45)%nat then
          match read_nat s' with
          | Some (z, r) => Some (JInt (- z), r)
          | None => None
          end
        else if (n =? 91)%nat then
          match skip_ws s' with
          | String c' r =>
              if (nat_of_ascii c' =? 93)%nat then Some (JList [], r)
              else
                match read_elements fuel (read_value fuel) s' with
                | Some (vs, r') => Some (JList vs, r')
                | None => None
                end
          | EmptyString => None
          end
        else if (n =? 123)%nat then
          match skip_ws s' with
          | String c' r =>
              if (nat_of_ascii c' =? 125)%nat then Some (JObj [], r)
              else
                match read_members fuel (read_value fuel) [] s' with
                | Some (d, r') => Some (JObj d, r')
                | None => None
                end
          | EmptyString => None
          end
        else
          match read_nat s0 with
          | Some (z, r) => Some (JInt z, r)
          | None => None
          end
    end.
Proof. reflexivity. Qed.

Lemma read_value_space (fuel : nat) (s : string) :
  read_value fuel (String " " s) = read_value fuel s.
Proof. destruct fuel; reflexivity. Qed.

Lemma str_of_Z_head (id : Z) :
  0 <= id ->
  exists a t, str_of_Z id = String a t /\ DiscordRelay.is_digit a = true.
Proof.
  intro Hid. unfold str_of_Z.
  destruct id as [| p | p];
    [exists "0"%char, ""; split; reflexivity | | lia].
  simpl. unfold NilZero.string_of_uint.
  pose proof (DecimalPos.Unsigned.to_uint_nonnil p).
  destruct (Pos.to_uint p); try congruence; simpl; eexists _, _;
    split; reflexivity.
Qed.

(** What a printed value opens with: no white space, no closing bracket. *)
Lemma json_dumps_head (v : json) (rest : string) :
  exists (c : ascii) (t : string),
    json_dumps v ++ rest = String c t /\ is_ws c = false
    /\ (nat_of_ascii c =? 93)%nat = false.
Proof.
  destruct v as [| [|] | z | s | items | fields];
    try (eexists _, _; repeat split; reflexivity).
  cbn [json_dumps].
  destruct (Z_lt_le_dec z 0) as [Hneg | Hnn].
  - destruct z as [| p | p]; try lia.
    eexists _, _; repeat split; reflexivity.
  - destruct (str_of_Z_head z Hnn) as (a & t & -> & Hdigit).
    exists a, (t ++ rest). split; [reflexivity |].
    destruct a as [[] [] [] [] [] [] [] []]; try discriminate Hdigit;
      split; reflexivity.
Qed.

Lemma quoted_append (k t : string) :
  quoted k ++ t = String dquote (escape k ++ String dquote t).
Proof. unfold quoted, str1. cbn [String.append]. now rewrite str_append_assoc. Qed.

Lemma concat_map_cons {A : Type} (f : A -> string) (sep : string) (x y : A)
    (l : list A) :
  String.concat sep (map f (x :: y :: l))
  = f x ++ sep ++ String.concat sep (map f (y :: l)).
Proof. reflexivity. Qed.

Lemma distinct_middle (k : string) (before after : list string) :
  distinct (before ++ k :: after) = true ->
  existsb (String.eqb k) before = false.
Proof.
  induction before as [| x before IH]; [reflexivity |].
  cbn [app distinct existsb]. intro H.
  apply andb_true_iff in H. destruct H as [Hx Hrest].
  rewrite (IH Hrest), orb_false_r.
  apply negb_true_iff in Hx. rewrite existsb_app in Hx.
  apply orb_false_iff in Hx. destruct Hx as [_ Hx]. cbn [existsb] in Hx.
  apply orb_false_iff in Hx. destruct Hx as [Hx _].
  now rewrite String.eqb_sym.
Qed.

Section Readers.
Variable value : string -> option (json * string).
Hypothesis value_space : forall s : string, value (String " " s) = value s.

Lemma read_elements_space (fuel : nat) (s : string) :
  read_elements fuel value (String " " s) = read_elements fuel value s.
Proof. destruct fuel; [reflexivity |]. cbn [read_elements]. now rewrite value_space. Qed.

Lemma read_members_space (fuel : nat) (d : list (string * json)) (s : string) :
  read_members fuel value d (String " " s) = read_members fuel value d s.
Proof. destruct fuel; reflexivity. Qed.

Lemma read_elements_dumps (l : list json) :
  forall (fuel : nat) (x : json) (rest : string),
  (length (x :: l) <= fuel)%nat ->
  Forall (reads value) (x :: l) ->
  read_elements fuel value
    (String.concat ", " (map json_dumps (x :: l)) ++ String "]" rest)
  = Some (x :: l, rest).
Proof.
  induction l as [| y l IH]; intros fuel x rest Hfuel Hall;
    (destruct fuel as [| fuel]; [simpl in Hfuel; lia |]);
    inversion Hall as [| ? ? Hx Hl]; subst.
  - cbn [map String.concat read_elements].
    rewrite (Hx (String "]" rest) eq_refl). reflexivity.
  - rewrite concat_map_cons, !str_append_assoc.
    set (tail := String.concat ", " (map json_dumps (y :: l))
                 ++ String "]" rest).
    change (", " ++ tail) with (String "," (String " " tail)).
    cbn [read_elements]. rewrite Hx by reflexivity.
    change (skip_ws (String "," (String " " tail)))
      with (String "," (String " " tail)).
    cbv iota. change (nat_of_ascii "," =? 44)%nat with true. cbv iota.
    rewrite read_elements_space. unfold tail.
    rewrite (IH fuel y rest); [reflexivity | simpl in *; lia | exact Hl].
Qed.

Lemma read_members_dumps (kv : list (string * json)) :
  forall (fuel : nat) (p : string * json) (d : list (string * json))
         (rest : string),
  (length (p :: kv) <= fuel)%nat ->
  Forall (fun q => reads value (snd q)) (p :: kv) ->
  distinct (map fst d ++ map fst (p :: kv)) = true ->
  read_members fuel value d
    (String.concat ", "
       (map (fun member =>
               quoted (fst member) ++ ": " ++ json_dumps (snd member))
            (p :: kv))
     ++ String "}" rest)
  = Some ((d ++ p :: kv)%list, rest).
Proof.
  induction kv as [| q kv IH]; intros fuel [k x] d rest Hfuel Hall Hkeys;
    (destruct fuel as [| fuel]; [simpl in Hfuel; lia |]);
    inversion Hall as [| ? ? Hx Hl]; subst; cbn [fst snd] in *;
    pose proof (distinct_middle k (map fst d) _ Hkeys) as Hfresh.
  - cbn [map String.concat fst snd].
    rewrite !str_append_assoc, quoted_append.
    change (": " ++ json_dumps x ++ String "}" rest)
      with (String ":" (String " " (json_dumps x ++ String "}" rest))).
    cbn [read_members].
    change (skip_ws (String dquote ?s)) with (String dquote s).
    cbv iota. change (nat_of_ascii dquote =? 34)%nat with true. cbv iota.
    rewrite read_string_escape.
    change (skip_ws (String ":" ?s)) with (String ":" s).
    cbv iota. change (nat_of_ascii ":" =? 58)%nat with true. cbv iota.
    rewrite value_space, Hx by reflexivity.
    change (skip_ws (String "}" rest)) with (String "}" rest).
    cbv iota. change (nat_of_ascii "}" =? 44)%nat with false.
    change (nat_of_ascii "}" =? 125)%nat with true. cbv iota.
    now rewrite dict_set_fresh.
  - rewrite concat_map_cons. cbn [fst snd].
    rewrite !str_append_assoc, quoted_append.
    set (tail := String.concat ", " _ ++ String "}" rest).
    change (", " ++ tail) with (String "," (String " " tail)).
    change (": " ++ json_dumps x ++ String "," (String " " tail))
      with (String ":" (String " " (json_dumps x
                                    ++ String "," (String " " tail)))).
    cbn [read_members].
    change (skip_ws (String dquote ?s)) with (String dquote s).
    cbv iota. change (nat_of_ascii dquote =? 34)%nat with true. cbv iota.
    rewrite read_string_escape.
    change (skip_ws (String ":" ?s)) with (String ":" s).
    cbv iota. change (nat_of_ascii ":" =? 58)%nat with true. cbv iota.
    rewrite value_space, Hx by reflexivity.
    change (skip_ws (String "," (String " " tail)))
      with (String "," (String " " tail)).
    cbv iota. change (nat_of_ascii "," =? 44)%nat with true. cbv iota.
    rewrite read_members_space, dict_set_fresh by exact Hfresh.
    unfold tail. rewrite (IH fuel q (d ++ [(k, x)])%list rest).
    + now rewrite <- app_assoc.
    + simpl in *; lia.
    + exact Hl.
    + rewrite map_app, <- app_assoc. exact Hkeys.
Qed.

End Readers.

Lemma fold_max_bound {A : Type} (f : A -> nat) (l : list A) (n m : nat) :
  (fold_right Nat.max n (map f l) <= m)%nat ->
  (n <= m)%nat /\ Forall (fun x => (f x <= m)%nat) l.
Proof.
  induction l as [| x l IH]; cbn [map fold_right]; intro H.
  - split; [exact H | constructor].
  - destruct IH as [Hn Hl]; [lia |]. split; [exact Hn |].
    constructor; [lia | exact Hl].
Qed.

(** With fuel enough, [read_value] reads back what [json_dumps] printed. *)
Lemma read_value_dumps (v : json) :
  well_formed v = true ->
  forall (fuel : nat) (rest : string),
  (need v <= fuel)%nat -> ends_number rest = true ->
  read_value fuel (json_dumps v ++ rest) = Some (v, rest).
Proof.
  induction v as [| b | z | s | items IH | fields IH] using json_nested_ind;
    intros Hwf fuel rest Hfuel Hrest;
    (destruct fuel as [| fuel]; [simpl in Hfuel; lia |]);
    rewrite read_value_S.
  - exact (read_keyword_here "null" JNull rest).
  - destruct b.
    + exact (read_keyword_here "true" (JBool true) rest).
    + exact (read_keyword_here "false" (JBool false) rest).
  - cbn [json_dumps].
    destruct (Z_lt_le_dec z 0) as [Hneg | Hnn].
    + destruct z as [| p | p]; try lia.
      change (str_of_Z (Z.neg p) ++ rest)
        with (String "-" (str_of_Z (Z.pos p) ++ rest)).
      change (skip_ws (String "-" ?t)) with (String "-" t).
      cbv iota zeta. change (nat_of_ascii "-") with 45%nat.
      cbn [Nat.eqb]. rewrite read_nat_str_of_Z by (lia || assumption).
      reflexivity.
    + pose proof (read_nat_str_of_Z z rest Hnn Hrest) as Hread.
      destruct (str_of_Z_head z Hnn) as (a & t & Ha & Hdigit).
      rewrite Ha in *. cbn [String.append] in *.
      destruct a as [[] [] [] [] [] [] [] []]; try discriminate Hdigit;
        match goal with
        | |- context [skip_ws (String ?a ?t)] =>
            change (skip_ws (String a t)) with (String a t)
        end;
        cbv iota zeta;
        match goal with
        | |- context [nat_of_ascii ?a] =>
            let n := eval vm_compute in (nat_of_ascii a) in
            change (nat_of_ascii a) with n
        end;
        cbn [Nat.eqb]; rewrite Hread; reflexivity.
  - cbn [json_dumps]. rewrite quoted_append.
    change (skip_ws (String dquote ?t)) with (String dquote t).
    cbv iota zeta. change (nat_of_ascii dquote) with 34%nat. cbn [Nat.eqb].
    now rewrite read_string_escape.
  - cbn [json_dumps]. cbn [String.append].
    change (skip_ws (String "[" ?t)) with (String "[" t).
    cbv iota zeta. change (nat_of_ascii "[") with 91%nat. cbn [Nat.eqb].
    rewrite str_append_assoc. cbn [String.append].
    destruct items as [| x items].
    + reflexivity.
    + destruct (json_dumps_head x
                  (", " ++ String.concat ", " (map json_dumps items)
                   ++ String "]" rest)) as (c & t & _ & Hws & Hclose).
      cbn [need] in Hfuel. apply le_S_n in Hfuel.
      apply fold_max_bound in Hfuel. destruct Hfuel as [Hlen Hneed].
      cbn [well_formed] in Hwf. rewrite forallb_forall in Hwf.
      assert (Hreads : Forall (reads (read_value fuel)) (x :: items)).
      { rewrite Forall_forall in *. intros y Hy rest' Hrest'.
        apply IH; auto. }
      rewrite (read_elements_dumps (read_value fuel)
                 (read_value_space fuel) items fuel x rest Hlen Hreads).
      destruct (json_dumps_head x
                  (match items with
                   | [] => ""
                   | _ :: _ =>
                       ", " ++ String.concat ", " (map json_dumps items)
                   end ++ String "]" rest)) as (c' & t' & Hhead & Hws' & Hcl').
      assert (Htext : String.concat ", " (map json_dumps (x :: items))
                      ++ String "]" rest = String c' t').
      { rewrite <- Hhead. destruct items; cbn [map String.concat];
          now rewrite ?str_append_assoc. }
      rewrite Htext. cbn [skip_ws]. rewrite Hws', Hcl'. reflexivity.
  - change (json_dumps (JObj fields))
      with ("{" ++ String.concat ", "
                     (map (fun member =>
                             quoted (fst member) ++ ": "
                             ++ json_dumps (snd member)) fields)
            ++ "}").
    rewrite !str_append_assoc.
    change (skip_ws ("{" ++ ?t)) with (String "{" t).
    change ("}" ++ rest) with (String "}" rest).
    cbv iota zeta. change (nat_of_ascii "{") with 123%nat. cbn [Nat.eqb].
    destruct fields as [| [k x] fields].
    + reflexivity.
    + cbn [need] in Hfuel. apply le_S_n in Hfuel.
      apply fold_max_bound in Hfuel. destruct Hfuel as [Hlen Hneed].
      cbn [well_formed] in Hwf. apply andb_true_iff in Hwf.
      destruct Hwf as [Hkeys Hwf]. rewrite forallb_forall in Hwf.
      assert (Hreads : Forall (fun q => reads (read_value fuel) (snd q))
                         ((k, x) :: fields)).
      { rewrite Forall_forall in *. intros y Hy rest' Hrest'.
        apply IH; auto. }
      rewrite (read_members_dumps (read_value fuel)
                 (read_value_space fuel) fields fuel (k, x) [] rest
                 Hlen Hreads Hkeys).
      assert (Htext : exists t',
                 String.concat ", "
                   (map (fun member =>
                           quoted (fst member) ++ ": "
                           ++ json_dumps (snd member)) ((k, x) :: fields))
                 ++ String "}" rest = String dquote t').
      { destruct fields; cbn [map String.concat fst snd];
          rewrite ?str_append_assoc, quoted_append; eexists; reflexivity. }
      destruct Htext as (t' & ->). reflexivity.
Qed.

Lemma need_le_length (v : json) :
  (need v <= String.length (json_dumps v))%nat.
Proof.
  assert (Hlen : forall x y : string,
             String.length (x ++ y) = (String.length x + String.length y)%nat)
    by (intro x; induction x; intro y; simpl; congruence).
  assert (Hnonempty : forall v : json,
             (1 <= String.length (json_dumps v))%nat).
  { intro w. destruct (json_dumps_head w "") as (c & t & Hhead & _).
    rewrite str_append_nil in Hhead. rewrite Hhead. simpl. lia. }
  assert (Hjoin : forall (A : Type) (f : A -> nat) (g : A -> string)
                         (l : list A),
             Forall (fun x => (f x <= String.length (g x))%nat
                              /\ (1 <= String.length (g x))%nat) l ->
             (fold_right Nat.max (length l) (map f l)
              <= String.length (String.concat ", " (map g l)))%nat).
  { intros A f g l Hl.
    assert (Heach : Forall (fun x => (f x <= String.length
                                               (String.concat ", " (map g l)))%nat)
                      l).
    { induction Hl as [| x l [Hx H1] Hl IH]; constructor.
      - destruct l as [| y l].
        + cbn [map String.concat]. lia.
        + rewrite concat_map_cons, !Hlen. lia.
      - destruct l as [| y l]; [constructor |].
        rewrite concat_map_cons, !Hlen.
        rewrite Forall_forall in *. intros z Hz. specialize (IH z Hz). lia. }
    assert (Hcount : (length l
                      <= String.length (String.concat ", " (map g l)))%nat).
    { clear Heach. induction Hl as [| x l [Hx H1] Hl IH]; [simpl; lia |].
      destruct l as [| y l].
      - cbn [map String.concat length]. lia.
      - rewrite concat_map_cons, !Hlen. cbn [length] in *. lia. }
    revert Hcount Heach.
    generalize (String.length (String.concat ", " (map g l))) as m.
    generalize (length l) as n. clear. intros n m Hn Hall.
    induction Hall; cbn [map fold_right]; lia. }
  induction v as [| b | z | s | items IH | fields IH] using json_nested_ind;
    try apply Hnonempty.
  - cbn [need json_dumps]. rewrite !Hlen. simpl String.length.
    pose proof (Hjoin json need json_dumps items) as H.
    assert (Hall : Forall (fun x => (need x <= String.length (json_dumps x))%nat
                                    /\ (1 <= String.length (json_dumps x))%nat)
                     items).
    { rewrite Forall_forall in *. intros x Hx. split; [now apply IH |].
      apply Hnonempty. }
    specialize (H Hall). lia.
  - cbn [need].
    change (json_dumps (JObj fields))
      with ("{" ++ String.concat ", "
                     (map (fun member =>
                             quoted (fst member) ++ ": "
                             ++ json_dumps (snd member)) fields)
            ++ "}").
    pose proof (Hjoin (string * json)%type (fun p => need (snd p))
                  (fun member => quoted (fst member) ++ ": "
                                 ++ json_dumps (snd member)) fields) as H.
    assert (Hall : Forall
                     (fun p : string * json =>
                        (need (snd p)
                         <= String.length (quoted (fst p) ++ ": "
                                           ++ json_dumps (snd p)))%nat
                        /\ (1 <= String.length
                                   (quoted (fst p) ++ ": "
                                    ++ json_dumps (snd p)))%nat) fields).
    { rewrite Forall_forall in *. intros p Hp. specialize (IH p Hp).
      rewrite !Hlen. unfold quoted. simpl String.length. lia. }
    specialize (H Hall). rewrite !Hlen.
    change (String.length "{") with 1%nat.
    change (String.length "}") with 1%nat. lia.
Qed.

(** The reference reads back what it writes. *)
Lemma json_loads_dumps (v : json) :
  well_formed v = true -> json_loads (json_dumps v) = Ok v.
Proof.
  intro Hwf. unfold json_loads.
  pose proof (read_value_dumps v Hwf (S (String.length (json_dumps v))) ""
                ltac:(pose proof (need_le_length v); lia) eq_refl) as H.
  rewrite str_append_nil in H. rewrite H. reflexivity.
Qed.

End JsonText.

(** ** Serialization *)

Section Serialization.
Import DiscordRelay IRCReceiver.
Context {rt : Runtime}.

(** C10.  In the envelope that [serialize] builds, [author.permissions.unban]
    and [author.permissions.ban] are the same boolean, the [ban_members]
    capability of the author. *)
Theorem serialized_unban_is_ban
    (type_ : string) (ctx : context) (id : string) (now : datetime) :
  let data := serialize_data type_ ctx id now in
  let permission (name : string) :=
    (permissions <- attr2 data "author" "permissions" ;;
     getattr permissions name) in
  permission "unban" = ret (JBool (ban_members (permissions_in ctx)))
  /\ permission "ban" = ret (JBool (ban_members (permissions_in ctx)))
  /\ permission "unban" = permission "ban".
Proof. repeat split. Qed.

Lemma serialize_data_well_formed (type_ : string) (ctx : context)
    (id : string) (sent : datetime) :
  well_formed (serialize_data type_ ctx id sent) = true.
Proof.
  unfold serialize_data. cbn [well_formed map fst snd forallb].
  replace (forallb well_formed (map JStr (attachments ctx))) with true.
  - destruct (DiscordRelay.content ctx), (irc_command ctx); reflexivity.
  - symmetry. apply forallb_forall. intros x Hx.
    apply in_map_iff in Hx. destruct Hx as (s & <- & _). reflexivity.
Qed.

(** C5.  With a JSON library that reads back the values it writes, a
    timestamp that reads back as the time it was written at, and an age
    that [total_seconds()] does not give as more than [stale_seconds]:
    [deserialize] of what [serialize] returns succeeds and yields the
    envelope that was serialized, in which the fields [event.id],
    [event.type], [event.time], [event.content] and [event.attachments],
    those of [author] and of [author.permissions], and those of [server]
    and [channel] are the values of the source event; this for every event
    type. *)
Theorem deserialize_serialize_roundtrip
    (cfg : config) (type_ : string) (ctx : context) (id : string)
    (sent now : datetime) :
  let envelope := serialize_data type_ ctx id sent in
  let field (section name : string) := attr2 envelope section name in
  let permission (name : string) :=
    (permissions <- attr2 envelope "author" "permissions" ;;
     getattr permissions name) in
  (forall v : json, well_formed v = true -> fromJSON (toJSON v) = Ok v) ->
  strptime (strftime sent) = Ok sent ->
  float_gt (total_seconds (sub_microseconds now sent)) (stale_seconds cfg)
  = false ->
  (body <- serialize type_ ctx id sent ;; deserialize cfg now body)
  = ([Log DEBUG ("Serialized data: " ++ toJSON envelope);
      deserialized_debug (toJSON envelope)], Ok envelope)
  /\ field "event" "id" = ret (JStr id)
  /\ field "event" "type" = ret (JStr type_)
  /\ field "event" "time" = ret (JStr (strftime sent))
  /\ field "event" "content" = ret (opt_str (DiscordRelay.content ctx))
  /\ field "event" "attachments" = ret (JList (map JStr (attachments ctx)))
  /\ field "author" "username" = ret (JStr (author_name ctx))
  /\ field "author" "id" = ret (JInt (author_id ctx))
  /\ field "author" "nickname" = ret (JStr (author_display_name ctx))
  /\ field "author" "discriminator" = ret (JStr (author_discriminator ctx))
  /\ field "author" "is_bot" = ret (JBool (author_bot ctx))
  /\ field "author" "top_role" = ret (JStr (author_top_role ctx))
  /\ permission "kick" = ret (JBool (kick_members (permissions_in ctx)))
  /\ permission "ban" = ret (JBool (ban_members (permissions_in ctx)))
  /\ permission "unban" = ret (JBool (ban_members (permissions_in ctx)))
  /\ permission "admin" = ret (JBool (administrator (permissions_in ctx)))
  /\ field "server" "name" = ret (JStr (guild_name ctx))
  /\ field "server" "id" = ret (JInt (guild_id ctx))
  /\ field "channel" "name" = ret (JStr (channel_name ctx))
  /\ field "channel" "id" = ret (JInt (channel_id ctx)).
Proof.
  intros envelope field permission Hjson Htime Hfresh.
  split; [| repeat split].
  change (serialize type_ ctx id sent)
    with ([Log DEBUG ("Serialized data: " ++ toJSON envelope)],
          Ok (toJSON envelope)).
  cbn [bind].
  rewrite (deserialize_timed cfg now (toJSON envelope) envelope
             (strftime sent) sent
             (Hjson envelope (serialize_data_well_formed type_ ctx id sent))
             eq_refl Htime).
  rewrite Hfresh. reflexivity.
Qed.

End Serialization.

Section SerializationOnSample.
Import DiscordRelay IRCReceiver.

(** The message of the sample, serialized at 11:55:01 and consumed at noon
    by the reference runtime, is deserialized to the envelope that was
    serialized, with the values of the sample in its fields. *)
Lemma roundtrip_of_sample_message :
  let sent := mkdatetime 2021 3 1 11 55 1 0 in
  let envelope :=
    serialize_data (rt := PyLib.python) "message" Sample.ctx "6f1c" sent in
  let field (section name : string) := attr2 envelope section name in
  let permission (name : string) :=
    (permissions <- attr2 envelope "author" "permissions" ;;
     getattr permissions name) in
  (body <- serialize (rt := PyLib.python) "message" Sample.ctx "6f1c" sent ;;
   deserialize (rt := PyLib.python) Sample.cfg Sample.noon body)
  = ([Log DEBUG ("Serialized data: " ++ Sample.wire envelope);
      deserialized_debug (Sample.wire envelope)], Ok envelope)
  /\ field "event" "id" = ret (JStr "6f1c")
  /\ field "event" "type" = ret (JStr "message")
  /\ field "event" "time" = ret (JStr Sample.aged_299)
  /\ field "event" "content" = ret (JStr "hello")
  /\ field "event" "attachments"
     = ret (JList [JStr "https://cdn.example.org/a.png"])
  /\ field "author" "username" = ret (JStr "carol")
  /\ field "author" "id" = ret (JInt 42)
  /\ field "author" "nickname" = ret (JStr "Carol")
  /\ field "author" "discriminator" = ret (JStr "0042")
  /\ field "author" "is_bot" = ret (JBool false)
  /\ field "author" "top_role" = ret (JStr "Helper")
  /\ permission "kick" = ret (JBool true)
  /\ permission "ban" = ret (JBool false)
  /\ permission "unban" = ret (JBool false)
  /\ permission "admin" = ret (JBool false)
  /\ field "server" "name" = ret (JStr "Support")
  /\ field "server" "id" = ret (JInt 1)
  /\ field "channel" "name" = ret (JStr "support")
  /\ field "channel" "id" = ret (JInt 100).
Proof.
  refine (deserialize_serialize_roundtrip (rt := PyLib.python) Sample.cfg
            "message" Sample.ctx "6f1c" (mkdatetime 2021 3 1 11 55 1 0)
            Sample.noon json_loads_dumps _ _).
  - vm_compute. reflexivity.
  - vm_compute. reflexivity.
Defined.

End SerializationOnSample.

(** * Further properties *)

(** ** The producers *)

Section Mentions.
Import DiscordRelay.
Context {rt : Runtime}.
Variable c : client.

Lemma digits_of_uint (d : Decimal.uint) :
  forall (acc : Z) (seen : bool) (r : string),
  digits_then_close acc seen (NilEmpty.string_of_uint d ++ String ">" r)
  = if seen || match d with Decimal.Nil => false | _ => true end
    then Some (uint_value acc d, r) else None.
Proof.
  induction d; intros acc seen r;
    try (simpl; rewrite IHd, orb_true_r; simpl; rewrite ?Z.add_0_r;
         reflexivity).
  simpl. destruct seen; reflexivity.
Qed.

(** The digits that [str] writes for a number read back as the number. *)
Lemma digits_of_str_of_Z (z : Z) (r : string) :
  0 <= z ->
  digits_then_close 0 false (str_of_Z z ++ String ">" r) = Some (z, r).
Proof.
  intro Hz. unfold str_of_Z.
  destruct z as [| p | p]; [reflexivity | | lia].
  simpl Z.to_int. unfold NilZero.string_of_int, NilZero.string_of_uint.
  pose proof (DecimalPos.Unsigned.to_uint_nonnil p) as Hn.
  destruct (Pos.to_uint p) eqn:E; [congruence | ..];
    rewrite <- E; rewrite digits_of_uint; rewrite E; simpl orb; cbv iota;
    rewrite <- E, uint_value_of_uint, DecimalPos.Unsigned.of_to; reflexivity.
Qed.

Lemma digits_then_close_shorter_within (n : nat) :
  forall (s : string) (acc : Z) (seen : bool) (z : Z) (rest : string),
  (String.length s <= n)%nat ->
  digits_then_close acc seen s = Some (z, rest) ->
  (String.length rest < String.length s)%nat.
Proof.
  induction n as [| n IH]; intros s acc seen z rest Hn.
  - destruct s; [discriminate | simpl in Hn; lia].
  - destruct s as [| a s]; [discriminate |]. cbn [digits_then_close].
    destruct (is_digit a).
    + intro H. apply IH in H; simpl in *; lia.
    + destruct (seen && Ascii.eqb a ">").
      * intro H. inversion H; subst. simpl. lia.
      * repeat (match goal with
                | |- context [match ?x with _ => _ end] => destruct x
                end; try discriminate);
          intro H; apply IH in H; simpl in *; lia.
Qed.

Lemma digits_then_close_shorter (s : string) :
  forall (acc : Z) (seen : bool) (z : Z) (rest : string),
  digits_then_close acc seen s = Some (z, rest) ->
  (String.length rest < String.length s)%nat.
Proof.
  intros acc seen z rest.
  now apply (digits_then_close_shorter_within (String.length s)).
Qed.

Lemma skip_optional_length (a : ascii) (s : string) :
  (String.length (skip_optional a s) <= String.length s)%nat.
Proof.
  destruct s as [| x s]; simpl; [lia |]. destruct (Ascii.eqb x a); simpl; lia.
Qed.

(** A match is not empty: the text after it is shorter. *)
Lemma mention_at_shorter (s : string) (z : Z) (rest : string) :
  mention_at s = Some (z, rest) ->
  (String.length rest < String.length s)%nat.
Proof.
  destruct s as [| a s]; simpl; [discriminate |].
  destruct (Ascii.eqb a "<"); [| discriminate].
  intro H. apply digits_then_close_shorter in H.
  pose proof (skip_optional_length "!" (skip_optional "@" s)).
  pose proof (skip_optional_length "@" s). lia.
Qed.

(** The length of the text is fuel enough: more fuel changes nothing. *)
Lemma sub_mentions_from_fuel (n : nat) :
  forall (fuel fuel' : nat) (s : string),
  (String.length s <= n)%nat -> (n <= fuel)%nat -> (n <= fuel')%nat ->
  sub_mentions_from fuel c s = sub_mentions_from fuel' c s.
Proof.
  induction n as [| n IH]; intros fuel fuel' s Hs Hf Hf'.
  - destruct s; [| simpl in Hs; lia].
    destruct fuel, fuel'; reflexivity.
  - destruct fuel as [| fuel]; [lia |]. destruct fuel' as [| fuel']; [lia |].
    cbn [sub_mentions_from]. destruct s as [| a s]; [reflexivity |].
    destruct (mention_at (String a s)) as [[id rest] |] eqn:E.
    + apply mention_at_shorter in E. f_equal.
      apply IH; simpl in *; lia.
    + f_equal. apply IH; simpl in *; lia.
Qed.

(** The equations of the substitution. *)
Lemma sub_mentions_match (s : string) (id : Z) (rest : string) :
  mention_at s = Some (id, rest) ->
  sub_mentions c s = _get_nick_from_id_match c id ++ sub_mentions c rest.
Proof.
  intro E. pose proof (mention_at_shorter s id rest E) as Hlt.
  unfold sub_mentions. destruct s as [| a s]; [discriminate |].
  cbn [String.length sub_mentions_from]. rewrite E. f_equal.
  cbn [String.length] in Hlt.
  apply (sub_mentions_from_fuel (String.length rest)); lia.
Qed.

Lemma sub_mentions_keep (a : ascii) (s : string) :
  mention_at (String a s) = None ->
  sub_mentions c (String a s) = String a (sub_mentions c s).
Proof.
  intro E. unfold sub_mentions. cbn [String.length sub_mentions_from].
  rewrite E. reflexivity.
Qed.

Lemma str_contains_cons (needle : string) (a : ascii) (s : string) :
  str_contains needle (String a s) = false ->
  String.prefix needle (String a s) = false /\ str_contains needle s = false.
Proof. simpl str_contains. intro H. apply orb_false_iff in H. exact H. Qed.

Lemma no_bracket_head (a : ascii) (s : string) :
  str_contains "<" (String a s) = false -> Ascii.eqb a "<" = false.
Proof.
  intro H. apply str_contains_cons in H. destruct H as [H _].
  simpl in H. destruct (Ascii.eqb_spec "<"%char a) as [<- | Hne].
  - destruct s; discriminate.
  - destruct (Ascii.eqb_spec a "<"%char); congruence.
Qed.

Lemma sub_mentions_text (s rest : string) :
  str_contains "<" s = false ->
  sub_mentions c (s ++ rest) = s ++ sub_mentions c rest.
Proof.
  induction s as [| a s IH]; intro H; [reflexivity |].
  pose proof (no_bracket_head a s H) as Ha.
  apply str_contains_cons in H. destruct H as [_ H].
  cbn [String.append]. rewrite sub_mentions_keep.
  - now rewrite IH.
  - simpl. rewrite Ha. reflexivity.
Qed.

(** Each spelling of a mention is matched, with the id it was written
    from. *)
Lemma mention_at_written (spelling : style) (id : Z) (rest : string) :
  0 <= id ->
  mention_at (written (Mention spelling id) ++ rest) = Some (id, rest).
Proof.
  intro Hid. unfold written.
  destruct (str_of_Z_head id Hid) as (a & t & Ha & Hdig).
  assert (Hskip : forall x : ascii,
             (x = "@" \/ x = "!")%char ->
             skip_optional x (str_of_Z id ++ String ">" rest)
             = str_of_Z id ++ String ">" rest).
  { intros x Hx. rewrite Ha. simpl.
    destruct (Ascii.eqb_spec a x) as [-> | _]; [| reflexivity].
    destruct Hx as [-> | ->]; discriminate. }
  rewrite !str_append_assoc.
  destruct spelling; simpl; rewrite ?str_append_assoc; simpl;
    rewrite ?Hskip by auto; rewrite ?Hskip by auto;
    now apply digits_of_str_of_Z.
Qed.

(** X1.  In a text made of plain stretches (without an opening bracket) and
    of mentions [<id>], [<@id>] or [<@!id>], the substitution that
    [response] applies keeps every plain stretch and replaces every mention,
    by [@] and the name of the user with that id, or by [@user] when the bot
    knows no such user. *)
Theorem mentions_are_replaced (segments : list segment) :
  Forall plain segments ->
  sub_mentions c (join (map written segments))
  = join (map (shown c) segments).
Proof.
  induction 1 as [| seg segments Hseg _ IH]; [reflexivity |].
  cbn [map join fold_right]. fold (join (map written segments)).
  fold (join (map (shown c) segments)).
  destruct seg as [s | spelling id]; cbn [plain shown] in *.
  - change (written (Text s)) with s.
    rewrite (sub_mentions_text s _ Hseg), IH. reflexivity.
  - rewrite (sub_mentions_match _ id (join (map written segments))).
    + now rewrite IH.
    + apply mention_at_written. lia.
Qed.

End Mentions.

(** The greeting of the sample, with carol known and the user 7 unknown. *)
Lemma greeting_is_relayed_with_names :
  DiscordRelay.sub_mentions (rt := PyLib.python) Sample.members
    "hi <@42> and <@!7>!"
  = "hi @carol and @user!".
Proof.
  refine (mentions_are_replaced (rt := PyLib.python) Sample.members
            Sample.greeting _).
  repeat constructor; cbn; lia.
Defined.

Section Producers.
Import DiscordRelay.
Context {rt : Runtime}.

Lemma existsb_eqb_In (x : Z) (l : list Z) :
  existsb (Z.eqb x) l = true <-> In x l.
Proof.
  rewrite existsb_exists. split.
  - intros (y & Hy & Heq). apply Z.eqb_eq in Heq. now subst.
  - intro Hx. exists x. split; [exact Hx | apply Z.eqb_refl].
Qed.

(** X2.  [match] relays a message exactly when its channel is one of the
    mapped channels and its text does not start with the command prefix;
    the factoid mark is only set on a relayed message, when the text starts
    with the factoid prefix and no factoids plugin is loaded.  With an empty
    command prefix every text starts with it, and nothing is relayed. *)
Theorem match_relays_iff (cfg : config) (c : client) (channel : Z)
    (content : string) :
  (fst (match_ cfg c channel content) = true <->
   In channel (channels cfg)
   /\ String.prefix (command_prefix c) content = false)
  /\ (snd (match_ cfg c channel content) = true <->
      fst (match_ cfg c channel content) = true
      /\ String.prefix (factoids_prefix c) content = true
      /\ factoids_loaded c = false)
  /\ (command_prefix c = "" ->
      match_ cfg c channel content = (false, false)).
Proof.
  unfold match_.
  pose proof (existsb_eqb_In channel (channels cfg)) as Hin.
  assert (Hempty : String.prefix "" content = true)
    by (destruct content; reflexivity).
  destruct (existsb (Z.eqb channel) (channels cfg)).
  - assert (Hc : In channel (channels cfg)) by now apply Hin.
    destruct (String.prefix (command_prefix c) content) eqn:Hp; simpl.
    + split; [| split].
      * split; [discriminate | intros [_ H]; discriminate H].
      * split; [discriminate | intros [H _]; discriminate H].
      * reflexivity.
    + split; [| split].
      * split; [intros _; split; [exact Hc | reflexivity] | reflexivity].
      * rewrite andb_true_iff, negb_true_iff. tauto.
      * intro He. rewrite He, Hempty in Hp. discriminate Hp.
  - simpl. split; [| split].
    + split; [discriminate |].
      intros [Hc _]. apply Hin in Hc. discriminate Hc.
    + split; [discriminate | intros [H _]; discriminate H].
    + reflexivity.
Qed.




End Producers.

(** On the sample: a text of the relayed channel is relayed, a command of
    the bot is not. *)
Lemma sample_match :
  fst (DiscordRelay.match_ Sample.cfg Sample.members 100 "hello") = true
  /\ fst (DiscordRelay.match_ Sample.cfg Sample.members 100 ".help") = false.
Proof.
  split.
  - apply (proj1 (match_relays_iff Sample.cfg Sample.members 100 "hello")).
    split; [left; reflexivity | reflexivity].
  - destruct (fst (DiscordRelay.match_ Sample.cfg Sample.members 100 ".help"))
      eqn:E; [| reflexivity].
    apply (proj1 (match_relays_iff Sample.cfg Sample.members 100 ".help"))
      in E.
    destruct E as [_ E]. discriminate E.
Defined.



(** ** The buffer over time *)

Section Buffer.
Import DiscordRelay.

(** What a tick without producers leaves, when a failed publish goes with a
    notice: the accepted batch and the buffer, together, are the buffer
    before the tick. *)
Lemma quiet_tick_conserves (cfg : config) (b : bot) (env : tick) (st : state) :
  quiet (Ticked env) ->
  noticed cfg (Ticked env) ->
  ((if publish_fails env
    then []
    else published_bodies (fst (snd (execute cfg b env st))))
   ++ send_buffer (fst (execute cfg b env st)))%list
  = send_buffer st.
Proof.
  intros [Hq1 Hq2] Hn. simpl in Hn.
  destruct (Nat.eq_dec (taken cfg (send_buffer st)) 0) as [Hz | Hnz].
  - rewrite (execute_idle cfg b env st Hz). simpl.
    destruct (publish_fails env); reflexivity.
  - rewrite (execute_publishes cfg b env st Hnz), Hq1, Hq2.
    destruct (publish_fails env); simpl.
    + rewrite (Hn eq_refl). simpl.
      destruct (first_key cfg) as [t [key | e]]; simpl;
        [| now rewrite app_nil_r].
      destruct (get_channel b (lookup key (channel_map cfg))); simpl;
        now rewrite ?app_nil_r.
    + rewrite !app_nil_r. apply firstn_skipn.
Qed.

Lemma run_events_ticked (cfg : config) (b : bot) (env : tick)
    (rest : list event) (st : state) :
  run_events cfg b (Ticked env :: rest) st
  = (fst (run_events cfg b rest (fst (execute cfg b env st))),
     ((if publish_fails env
       then []
       else published_bodies (fst (snd (execute cfg b env st))))
      ++ snd (run_events cfg b rest (fst (execute cfg b env st))))%list).
Proof.
  simpl. destruct (execute cfg b env st) as [st' [t r]]. simpl.
  destruct (run_events cfg b rest st') as [st'' accepted]. reflexivity.
Qed.

(** X5.  Over any sequence of producer appends and ticks in which a failed
    publish goes with the error notices on, the bodies the broker accepted
    followed by the bodies still in the buffer are the bodies that were in
    the buffer at the start followed by the bodies produced since, in the
    order they were produced: none is lost, none is accepted twice, none
    overtakes another. *)
Theorem accepted_then_pending_is_all_produced
    (cfg : config) (b : bot) (events : list event) (st : state) :
  Forall quiet events ->
  Forall (noticed cfg) events ->
  (snd (run_events cfg b events st)
   ++ send_buffer (fst (run_events cfg b events st)))%list
  = (send_buffer st ++ produced events)%list.
Proof.
  intros Hq Hn. revert st.
  induction events as [| e events IH]; intro st.
  - simpl. now rewrite app_nil_r.
  - inversion Hq as [| ? ? Hq1 Hq2]; subst.
    inversion Hn as [| ? ? Hn1 Hn2]; subst.
    destruct e as [body | env].
    + cbn [run_events produced flat_map]. rewrite (IH Hq2 Hn2). simpl.
      now rewrite <- app_assoc.
    + rewrite run_events_ticked. cbn [fst snd produced flat_map].
      rewrite <- app_assoc, (IH Hq2 Hn2). fold (produced events).
      rewrite app_assoc, (quiet_tick_conserves cfg b env st Hq1 Hn1).
      reflexivity.
Qed.

(** X6.  With a [send_limit] of zero or less no tick ever publishes: the
    broker accepts nothing and the buffer only grows, whatever the ticks. *)
Theorem nothing_is_published_without_limit
    (cfg : config) (b : bot) (events : list event) (st : state) :
  send_limit cfg <= 0 ->
  run_events cfg b events st
  = ({| send_buffer := (send_buffer st ++ produced events)%list;
        mq_error_state := mq_error_state st |}, []).
Proof.
  intro Hlimit. revert st.
  induction events as [| e events IH]; intro st.
  - simpl. rewrite app_nil_r. destruct st; reflexivity.
  - destruct e as [body | env].
    + cbn [run_events produced flat_map]. rewrite IH. simpl.
      now rewrite <- app_assoc.
    + rewrite run_events_ticked.
      assert (Hz : taken cfg (send_buffer st) = 0%nat)
        by (unfold taken; lia).
      rewrite (execute_idle cfg b env st Hz). cbn [fst snd].
      rewrite IH. simpl. destruct (publish_fails env); reflexivity.
Qed.

(** X7.  A batch that a tick hands to the broker is never empty and never
    longer than [send_limit], and it is the head of the buffer: the oldest
    bodies, in order. *)
Theorem published_batch_is_bounded_prefix
    (cfg : config) (b : bot) (env : tick) (st : state)
    (bodies : list string) :
  In (MqPublish bodies) (fst (snd (execute cfg b env st))) ->
  bodies <> []
  /\ Z.of_nat (length bodies) <= send_limit cfg
  /\ bodies = firstn (length bodies) (send_buffer st).
Proof.
  intro Hin.
  destruct (Nat.eq_dec (taken cfg (send_buffer st)) 0) as [Hz | Hnz].
  - rewrite (execute_idle cfg b env st Hz) in Hin. destruct Hin.
  - assert (Hb : bodies = firstn (taken cfg (send_buffer st)) (send_buffer st)).
    { rewrite (execute_publishes cfg b env st Hnz) in Hin.
      destruct (publish_fails env && notice_errors cfg).
      - destruct (first_key cfg) as [t [key | e]]; simpl in Hin.
        + destruct (get_channel b (lookup key (channel_map cfg)));
            simpl in Hin; intuition congruence.
        + intuition congruence.
      - simpl in Hin. intuition congruence. }
    assert (Hlen : length bodies = taken cfg (send_buffer st)).
    { rewrite Hb, length_firstn. unfold taken. lia. }
    repeat split.
    + intros ->. simpl in Hlen. congruence.
    + rewrite Hlen. unfold taken in *. lia.
    + rewrite Hlen. exact Hb.
Qed.

End Buffer.

(** The morning of the sample: the refused batch is tried again, and the
    broker accepts [A, B], then [C, D]. *)
Lemma sample_morning :
  (snd (DiscordRelay.run_events Sample.cfg Sample.the_bot Sample.morning
          (DiscordRelay.preconfig false))
   ++ DiscordRelay.send_buffer
        (fst (DiscordRelay.run_events Sample.cfg Sample.the_bot
                Sample.morning (DiscordRelay.preconfig false))))%list
  = ["A"; "B"; "C"; "D"].
Proof.
  refine (accepted_then_pending_is_all_produced Sample.cfg Sample.the_bot
            Sample.morning (DiscordRelay.preconfig false) _ _).
  - repeat constructor.
  - repeat constructor.
Defined.

(** With the limit at zero, the four bodies stay in the buffer. *)
Lemma sample_closed_morning :
  DiscordRelay.run_events Sample.cfg_closed Sample.the_bot Sample.morning
    (DiscordRelay.preconfig false)
  = ({| DiscordRelay.send_buffer := ["A"; "B"; "C"; "D"];
        DiscordRelay.mq_error_state := false |}, []).
Proof.
  refine (nothing_is_published_without_limit Sample.cfg_closed Sample.the_bot
            Sample.morning (DiscordRelay.preconfig false) _).
  vm_compute. discriminate.
Defined.

(** The batch of the sample's successful tick is [A, B]. *)
Lemma sample_batch :
  ["A"; "B"] <> []
  /\ Z.of_nat (length ["A"; "B"]) <= send_limit Sample.cfg
  /\ ["A"; "B"]
     = firstn (length ["A"; "B"])
         (DiscordRelay.send_buffer Sample.four_pending).
Proof.
  refine (published_batch_is_bounded_prefix Sample.cfg Sample.the_bot
            Sample.accepted Sample.four_pending ["A"; "B"] _).
  left. reflexivity.
Defined.

(** ** The consumer loop *)

Section ConsumerLoop.
Import IRCReceiver.
Context {rt : Runtime}.
Variable cfg : config.
Variable b : bot.

(** A poll that brings no response either sends the notice and counts it,
    or sends nothing and leaves the count. *)
Lemma empty_poll_cases (env : tick) (st : state) :
  responses env = [] ->
  (fst (snd (execute cfg b env st)) = []
   /\ error_count (fst (execute cfg b env st)) = error_count st)
  \/ (exists channel,
         fst (snd (execute cfg b env st)) = [ChannelSend channel error_notice]
         /\ error_count (fst (execute cfg b env st)) = error_count st + 1
         /\ error_count st < 5).
Proof.
  intro Hr. unfold execute. cbv zeta. rewrite Hr.
  destruct (mq_error_state (consume (consume_fails env) st)
            && notice_errors cfg); simpl; [| left; split; reflexivity].
  destruct (Z.ltb_spec (error_count st) 5); simpl;
    [| left; split; reflexivity].
  destruct (first_key cfg) as [t [key | e]]; [| left; split; reflexivity].
  destruct (get_channel b (lookup key (channel_map cfg))) as [channel |];
    [| left; split; reflexivity].
  right. exists channel. repeat split. assumption.
Qed.

(** X8.  Over any sequence of polls that bring no response, the consumer
    sends at most [5 - error_count] messages, and each is the error notice:
    from [preconfig] on, at most five notices, whatever the broker does. *)
Theorem consumer_notices_are_bounded (envs : list tick) (st : state) :
  Forall (fun env => responses env = []) envs ->
  (length (adapter_calls (snd (run cfg b envs st)))
   <= Z.to_nat (5 - error_count st))%nat
  /\ Forall is_notice (adapter_calls (snd (run cfg b envs st))).
Proof.
  intro Hempty. revert st.
  induction Hempty as [| env envs Henv _ IH]; intro st.
  - split; [apply Nat.le_0_l | constructor].
  - rewrite (consumer_run_cons cfg b env envs st
               (fst (execute cfg b env st))
               (fst (snd (execute cfg b env st)))
               (snd (snd (execute cfg b env st))))
      by (destruct (execute cfg b env st) as [? [? ?]]; reflexivity).
    rewrite adapter_calls_app.
    destruct (IH (fst (execute cfg b env st))) as [IHlen IHall].
    destruct (empty_poll_cases env st Henv)
      as [[Ht Hc] | (channel & Ht & Hc & Hlt)]; rewrite Ht, Hc in *.
    + split; assumption.
    + cbn [adapter_calls filter is_adapter_call app length] in *.
      split; [lia |].
      constructor; [exists channel; reflexivity | assumption].
Qed.

(** X9.  While the notice cannot be delivered, because the channel map is
    empty or the bot does not know its first channel, a failed poll with the
    notices on raises (IndexError, or AttributeError on the missing
    channel) before the count is advanced: over any number of such polls
    nothing is sent and [error_count] stays where it was, so the bound of
    five is never reached. *)
Theorem undeliverable_notice_is_never_counted (envs : list tick) (st : state) :
  notice_errors cfg = true ->
  error_count st < 5 ->
  Forall (fun env => consume_fails env = true) envs ->
  (channel_map cfg = []
   \/ exists key, first_key cfg = ret key
                  /\ get_channel b (lookup key (channel_map cfg)) = None) ->
  (forall env, In env envs ->
     exists e, snd (snd (execute cfg b env st)) = Raise e
               /\ (e = IndexError "list index out of range"
                   \/ e = AttributeError "send"))
  /\ snd (run cfg b envs st) = []
  /\ error_count (fst (run cfg b envs st)) = error_count st.
Proof.
  intros Hnotice Hlt Hfail Hmissing.
  assert (Hex : forall (flag : bool) (env : tick),
             consume_fails env = true ->
             exists e,
               execute cfg b env
                 {| error_count := error_count st; mq_error_state := flag |}
               = ({| error_count := error_count st; mq_error_state := true |},
                  ([], Raise e))
               /\ (e = IndexError "list index out of range"
                   \/ e = AttributeError "send")).
  { intros flag env Hf. unfold execute. cbv zeta. unfold consume.
    rewrite Hf, Hnotice. simpl.
    replace (error_count st <? 5) with true by (symmetry; now apply Z.ltb_lt).
    destruct Hmissing as [Hnil | (key & Hkey & Hch)].
    - unfold first_key. rewrite Hnil. eexists. split; [reflexivity |].
      left. reflexivity.
    - rewrite Hkey. simpl. rewrite Hch. eexists. split; [reflexivity |].
      right. reflexivity. }
  split.
  - intros env Hin. rewrite Forall_forall in Hfail.
    destruct st as [count flag].
    destruct (Hex flag env (Hfail env Hin)) as (e & He & Hkind).
    exists e. simpl in He. rewrite He. split; [reflexivity | exact Hkind].
  - assert (Hrun : forall flag : bool,
               snd (run cfg b envs
                      {| error_count := error_count st;
                         mq_error_state := flag |}) = []
               /\ error_count
                    (fst (run cfg b envs
                            {| error_count := error_count st;
                               mq_error_state := flag |}))
                  = error_count st).
    { induction Hfail as [| env envs Hf _ IH]; intro flag.
      - split; reflexivity.
      - destruct (Hex flag env Hf) as (e & He & _).
        cbn [run]. rewrite He.
        destruct (IH true) as [IHt IHc].
        destruct (run cfg b envs
                    {| error_count := error_count st;
                       mq_error_state := true |}) as [st'' t'].
        simpl in *. subst. split; [reflexivity | exact IHc]. }
    destruct st as [count flag]. exact (Hrun flag).
Qed.

End ConsumerLoop.

(** The consumer of the sample, from [preconfig]: over eight failed polls it
    sends no more than five messages. *)
Lemma sample_outage_notices :
  (length
     (adapter_calls
        (snd (IRCReceiver.run (rt := PyLib.python) Sample.cfg Sample.the_bot
                (repeat Sample.failed_poll 8)
                (IRCReceiver.preconfig false))))
   <= 5)%nat.
Proof.
  refine (proj1 (consumer_notices_are_bounded (rt := PyLib.python)
                   Sample.cfg Sample.the_bot (repeat Sample.failed_poll 8)
                   (IRCReceiver.preconfig false) _)).
  repeat constructor.
Defined.

(** With a bot that does not know the mapped channel, eight failed polls
    send nothing and count nothing. *)
Lemma sample_lost_channel :
  snd (IRCReceiver.run (rt := PyLib.python) Sample.cfg Sample.lost_bot
         (repeat Sample.failed_poll 8) (IRCReceiver.preconfig false)) = []
  /\ IRCReceiver.error_count
       (fst (IRCReceiver.run (rt := PyLib.python) Sample.cfg Sample.lost_bot
               (repeat Sample.failed_poll 8) (IRCReceiver.preconfig false)))
     = 0.
Proof.
  refine (proj2 (undeliverable_notice_is_never_counted (rt := PyLib.python)
                   Sample.cfg Sample.lost_bot (repeat Sample.failed_poll 8)
                   (IRCReceiver.preconfig false) eq_refl _ _ _)).
  - vm_compute. reflexivity.
  - repeat constructor.
  - right. exists "#support". split; reflexivity.
Defined.

(** ** The router and the moderation path *)

Lemma bind_snd {A B : Type} (m : M A) (k : A -> M B) :
  snd (bind m k)
  = match snd m with
    | Ok a => snd (k a)
    | Raise e => Raise e
    end.
Proof.
  destruct m as [t [a | e]]; simpl; [| reflexivity].
  destruct (k a); reflexivity.
Qed.

Lemma bind_fst {A B : Type} (m : M A) (k : A -> M B) :
  fst (bind m k)
  = (fst m ++ match snd m with
              | Ok a => fst (k a)
              | Raise _ => []
              end)%list.
Proof.
  destruct m as [t [a | e]]; simpl; [| now rewrite app_nil_r].
  destruct (k a); reflexivity.
Qed.

(** A computation that made no call and did not raise is a [ret]. *)
Lemma silent_ok {A : Type} (m : M A) (a : A) :
  fst m = [] -> snd m = Ok a -> m = ret a.
Proof. destruct m as [t r]. simpl. intros -> ->. reflexivity. Qed.

Section Router.
Import IRCReceiver.
Context {rt : Runtime}.
Variable cfg : config.
Variable b : bot.

(** X10.  With a threshold [stale_seconds] below 2^34 seconds in size,
    whatever [deserialize] returns as an envelope is the parsed payload
    itself, and its [event.time] is a string that parses to a time at most
    [stale_seconds] seconds before the clock: nothing older, and nothing
    without a readable timestamp, gets past it. *)
Theorem deserialized_envelope_is_fresh
    (now : datetime) (body : string) (t : trace) (data : json) :
  Z.abs (stale_seconds cfg) < 2 ^ 34 ->
  deserialize cfg now body = (t, Ok data) ->
  truthy data = true ->
  fromJSON body = Ok data
  /\ exists (s : string) (time : datetime),
       attr2 data "event" "time" = ret (JStr s)
       /\ strptime s = Ok time
       /\ sub_microseconds now time <= stale_seconds cfg * 1000000.
Proof.
  unfold deserialize. intros Hbound Hd Htruthy.
  destruct (fromJSON body) as [d | e];
    [| inversion Hd; subst; discriminate].
  pose proof (attr2_trace d "event" "time") as Ht1.
  destruct (attr2 d "event" "time") as [t1 [time | e1]] eqn:Etime;
    simpl in Ht1; subst t1; [| discriminate].
  rewrite bind_pure in Hd.
  destruct (truthy time); simpl negb in Hd; cbv iota in Hd;
    [| inversion Hd; subst; discriminate].
  unfold _time_stale in Hd.
  destruct time as [| | | s | |]; try discriminate.
  unfold lift in Hd.
  destruct (strptime s) as [parsed | e2] eqn:Eparse; [| discriminate].
  rewrite bind_pure in Hd.
  rewrite (total_seconds_gt _ _ Hbound) in Hd.
  destruct (Z.gtb_spec (sub_microseconds now parsed)
                       (stale_seconds cfg * 1000000)) as [Hgt | Hle];
    rewrite bind_ret_l in Hd; inversion Hd; subst; [discriminate |].
  split; [reflexivity |]. exists s, parsed.
  split; [exact Etime | split; [exact Eparse | exact Hle]].
Qed.

(** X11.  A payload that [deserialize] refuses (it returns None) costs one
    more warning and nothing else: no adapter is called for it, and the
    poll goes on with the responses after it.  A payload that is no JSON
    text is refused in this way. *)
Theorem refused_payload_is_skipped
    (now : datetime) (body : string) (rest : list (datetime * string)) :
  (forall t : trace,
      deserialize cfg now body = (t, Ok JNull) ->
      handle_events cfg b ((now, body) :: rest)
      = ((t ++ Log WARNING "Unable to deserialize data! Aborting!"
            :: fst (handle_events cfg b rest))%list,
         snd (handle_events cfg b rest)))
  /\ (forall e : exn,
         fromJSON body = Raise e ->
         deserialize cfg now body
         = ([Log WARNING ("Unable to Munch-deserialize incoming data: "
                          ++ exn_str e);
             Log WARNING ("Full body: " ++ body)], Ok JNull)).
Proof.
  split.
  - intros t Hd. cbn [handle_events]. unfold handle_event. rewrite Hd.
    simpl. destruct (handle_events cfg b rest) as [t' r]. simpl.
    now rewrite <- app_assoc.
  - intros e He. now apply deserialize_unparseable.
Qed.

(** X12.  A payload whose [event.time] is truthy but is no timestamp makes
    [deserialize] raise: the ValueError of [strptime] for a string it
    rejects, a TypeError for a value that is no string.  The exception
    leaves [handle_event], and the responses after it in the poll are not
    handled. *)
Theorem malformed_timestamp_escapes
    (now : datetime) (body : string) (data time : json)
    (rest : list (datetime * string)) :
  fromJSON body = Ok data ->
  attr2 data "event" "time" = ret time ->
  truthy time = true ->
  (forall (s : string) (e : exn),
      time = JStr s ->
      strptime s = Raise e ->
      deserialize cfg now body = ([], Raise e)
      /\ handle_events cfg b ((now, body) :: rest) = ([], Raise e))
  /\ ((forall s : string, time <> JStr s) ->
      deserialize cfg now body
      = ([], Raise (TypeError "strptime() argument 1 must be str"))
      /\ handle_events cfg b ((now, body) :: rest)
         = ([], Raise (TypeError "strptime() argument 1 must be str"))).
Proof.
  intros Hp Ht Htruthy.
  assert (Hraise : forall e : exn,
             _time_stale cfg now time = ([], Raise e) ->
             deserialize cfg now body = ([], Raise e)
             /\ handle_events cfg b ((now, body) :: rest) = ([], Raise e)).
  { intros e Hs.
    assert (Hd : deserialize cfg now body = ([], Raise e)).
    { unfold deserialize. rewrite Hp, Ht, bind_ret_l, Htruthy. simpl negb.
      cbv iota. rewrite Hs. reflexivity. }
    split; [exact Hd |].
    cbn [handle_events]. unfold handle_event. rewrite Hd. reflexivity. }
  split.
  - intros s e -> He. apply Hraise. unfold _time_stale, lift. rewrite He.
    reflexivity.
  - intro Hns. apply Hraise. unfold _time_stale.
    destruct time; try reflexivity. exfalso. now apply (Hns s).
Qed.

(** The channel of an envelope is what the map gives for its channel name,
    if the bot knows that channel. *)
Lemma lookup_in_values (name : string) (i : Z) (m : list (string * Z)) :
  lookup name m = Some i -> existsb (Z.eqb i) (map snd m) = true.
Proof.
  induction m as [| [k v] m IH]; simpl; [discriminate |].
  destruct (String.eqb name k).
  - intro H. inversion H; subst. now rewrite Z.eqb_refl.
  - intro H. rewrite (IH H). apply orb_true_r.
Qed.

Lemma _get_channel_from_spec (data : json) (name : string) (ids : list Z) :
  attr2 data "channel" "name" = ret (JStr name) ->
  _get_channel_from cfg b ids data
  = ret match lookup name (channel_map cfg) with
        | Some i =>
            if existsb (Z.eqb i) ids then get_channel b (Some i) else None
        | None => None
        end.
Proof.
  intro Hn. induction ids as [| id ids IH]; simpl.
  - destruct (lookup name (channel_map cfg)); reflexivity.
  - rewrite Hn, bind_ret_l. simpl channel_map_get. rewrite bind_ret_l.
    destruct (lookup name (channel_map cfg)) as [i |]; [| exact IH].
    rewrite (Z.eqb_sym i id). destruct (Z.eqb_spec id i) as [-> | _].
    + reflexivity.
    + exact IH.
Qed.

Lemma _get_channel_spec (data : json) (name : string) :
  attr2 data "channel" "name" = ret (JStr name) ->
  _get_channel cfg b data
  = ret (get_channel b (lookup name (channel_map cfg))).
Proof.
  intro Hn. unfold _get_channel. rewrite (_get_channel_from_spec _ _ _ Hn).
  destruct (lookup name (channel_map cfg)) as [i |] eqn:E; [| reflexivity].
  unfold channels. now rewrite (lookup_in_values name i _ E).
Qed.

(** [_get_channel] makes no call. *)
Lemma _get_channel_from_trace (data : json) (ids : list Z) :
  fst (_get_channel_from cfg b ids data) = [].
Proof.
  induction ids as [| id ids IH]; [reflexivity |].
  cbn [_get_channel_from]. rewrite bind_fst, attr2_trace.
  destruct (snd (attr2 data "channel" "name")) as [name | e]; [| reflexivity].
  rewrite bind_fst.
  assert (Hg : fst (channel_map_get cfg name) = [])
    by (destruct name; reflexivity).
  rewrite Hg.
  destruct (snd (channel_map_get cfg name)) as [mapped | e]; [| reflexivity].
  simpl. destruct mapped as [i |]; [| exact IH].
  destruct (id =? i); [reflexivity | exact IH].
Qed.

Lemma gives_line_bind {A : Type} (m : M A) (k : A -> M (option string)) :
  (forall a, gives_line (k a)) -> gives_line (bind m k).
Proof.
  intro Hk. unfold gives_line. rewrite bind_snd.
  destruct (snd m) as [a | e]; [apply Hk | exact I].
Qed.

Lemma in_strs_In (v : json) (l : list string) :
  in_strs v l = true -> exists s, v = JStr s /\ In s l.
Proof.
  unfold in_strs. rewrite existsb_exists. intros (x & Hin & Heq).
  destruct v; try discriminate. simpl in Heq. apply String.eqb_eq in Heq.
  subst. eexists. split; [reflexivity | exact Hin].
Qed.

Ltac lined :=
  repeat first
    [ rewrite bind_ret_l
    | rewrite bind_assoc
    | progress (simpl eq_str; cbv iota)
    | apply gives_line_bind; intro
    | match goal with
      | |- gives_line (if ?c then _ else _) => destruct c
      end ];
  try (unfold gives_line; simpl; eexists; reflexivity).

(** On a display type the formatters give a line or raise. *)
Lemma process_message_gives_line (data ty : json) :
  attr2 data "event" "type" = ret ty ->
  in_strs ty display_types = true ->
  gives_line (process_message data).
Proof.
  intros Hty Hin. apply in_strs_In in Hin. destruct Hin as (s & -> & Hs).
  unfold process_message, _format_chat_message, _format_event_message.
  rewrite Hty.
  simpl in Hs.
  destruct Hs as [<- | [<- | [<- | [<- | [<- | [<- | [<- | [<- | []]]]]]]]];
    lined.
Qed.

(** X13.  For an envelope of a display type, [process_message] gives a line
    that opens with the icon, unless it raises on a missing field: it never
    gives None nor an empty line, so for such an envelope the router never
    takes its branch for a message that could not be formatted. *)
Theorem display_types_are_all_formatted (data ty : json) :
  attr2 data "event" "type" = ret ty ->
  in_strs ty display_types = true ->
  match snd (process_message data) with
  | Ok (Some line) => line <> "" /\ exists tail, line = IRC_LOGO ++ tail
  | Ok None => False
  | Raise _ => True
  end.
Proof.
  intros Hty Hin.
  pose proof (process_message_gives_line data ty Hty Hin) as H.
  unfold gives_line in H.
  destruct (snd (process_message data)) as [[line |] | e]; try exact H.
  split; [| exact H]. destruct H as (tail & ->). discriminate.
Qed.

(** What the callback returns for a match, when the configuration has the
    option [channel]. *)
Lemma _get_mention_from_irc_tag_shown (channel : Z) (tagged : string) :
  config_channel cfg = Some channel ->
  _get_mention_from_irc_tag cfg b tagged
  = ret (tag_shown cfg b (Matched tagged)).
Proof.
  intro Hc. unfold _get_mention_from_irc_tag, tag_shown.
  rewrite Hc, bind_ret_l.
  destruct (get_guild_from_channel_id b channel) as [guild |];
    [| reflexivity].
  destruct (get_member_named b guild _); reflexivity.
Qed.

(** What re.sub builds from the scan of a line: the callback raises at the
    first match when the configuration has no option [channel]. *)
Lemma sub_pieces_tags (pieces : list piece) :
  sub_pieces (_get_mention_from_irc_tag cfg b) pieces
  = if match config_channel cfg with None => true | Some _ => false end
       && existsb is_matched pieces
    then raise (AttributeError "channel")
    else ret (join (map (tag_shown cfg b) pieces)).
Proof.
  induction pieces as [| [s | tagged] pieces IH]; cbn [sub_pieces].
  - rewrite andb_false_r. reflexivity.
  - rewrite IH. cbn [existsb is_matched orb map join fold_right].
    destruct (_ && _); reflexivity.
  - cbn [existsb is_matched orb map join fold_right].
    destruct (config_channel cfg) as [channel |] eqn:Hc.
    + rewrite (_get_mention_from_irc_tag_shown channel tagged Hc), bind_ret_l.
      rewrite IH. reflexivity.
    + unfold _get_mention_from_irc_tag. rewrite Hc. reflexivity.
Qed.

(** X14.  An envelope of a display type is answered by at most one call.
    Nothing is sent when the target is [factoid_request] (one debug line,
    and the formatter is not run).  Otherwise re.sub scans the formatted
    line for tags: its error on a pattern that does not compile leaves the
    router, and so does the AttributeError of the callback at the first tag
    when the configuration has no option [channel]; in both cases nothing
    is sent.  In the other cases the line, with each tag that names a
    member of the configured channel's guild replaced by the mention of
    that member, is sent to the channel that the map gives for
    [channel.name], and there is nothing but a warning when the map has no
    such name or the bot does not know the channel. *)
Theorem display_event_goes_to_mapped_channel
    (body : string) (data ty target : json) :
  attr2 data "event" "type" = ret ty ->
  in_strs ty display_types = true ->
  attr2 data "event" "target" = ret target ->
  (eq_str target "factoid_request" = true ->
   route_event cfg b body data
   = ([Log DEBUG "Ignoring factoid request event"], Ok tt))
  /\ (eq_str target "factoid_request" = false ->
      forall line name : string,
        process_message data = ret (Some line) ->
        attr2 data "channel" "name" = ret (JStr name) ->
        (forall e : exn,
            re_scan (tag_pattern (irc_tag_prefix cfg)) line = Raise e ->
            route_event cfg b body data = ([], Raise e))
        /\ (forall pieces : list piece,
               re_scan (tag_pattern (irc_tag_prefix cfg)) line = Ok pieces ->
               (config_channel cfg = None ->
                existsb is_matched pieces = true ->
                route_event cfg b body data
                = ([], Raise (AttributeError "channel")))
               /\ (config_channel cfg <> None
                   \/ existsb is_matched pieces = false ->
                   route_event cfg b body data
                   = match get_channel b (lookup name (channel_map cfg)) with
                     | Some channel =>
                         ([ChannelSend channel
                             (join (map (tag_shown cfg b) pieces))], Ok tt)
                     | None =>
                         ([Log WARNING
                             "Unable to find channel to send command alert"],
                          Ok tt)
                     end))).
Proof.
  intros Hty Hin Htarget. unfold route_event.
  rewrite Hty, bind_ret_l, Hin, Htarget, bind_ret_l. split.
  - intros ->. reflexivity.
  - intros -> line name Hline Hname.
    pose proof (process_message_gives_line data ty Hty Hin) as Hg.
    unfold gives_line in Hg. rewrite Hline in Hg. simpl in Hg.
    destruct Hg as (tail & ->).
    rewrite Hline, bind_ret_l.
    replace (String.eqb (IRC_LOGO ++ tail) "") with false by reflexivity.
    unfold re_sub. split.
    + intros e He. rewrite He. reflexivity.
    + intros pieces Hp. rewrite Hp. unfold lift.
      fold (@ret (list piece) pieces). rewrite bind_ret_l, sub_pieces_tags.
      split.
      * intros Hc Hm. rewrite Hc, Hm. reflexivity.
      * intro Hsome.
        replace (match config_channel cfg with
                 | Some _ => false
                 | None => true
                 end && existsb is_matched pieces) with false.
        -- rewrite bind_ret_l, (_get_channel_spec data name Hname), bind_ret_l.
           destruct (get_channel b (lookup name (channel_map cfg)));
             reflexivity.
        -- destruct Hsome as [Hc | Hm].
           ++ destruct (config_channel cfg); [reflexivity | congruence].
           ++ rewrite Hm. now rewrite andb_false_r.
Qed.

Lemma py_in_trace (needle : string) (v : json) : fst (py_in needle v) = [].
Proof. destruct v; reflexivity. Qed.

Lemma _data_has_op_trace (data : json) : fst (_data_has_op data) = [].
Proof.
  unfold _data_has_op. rewrite bind_fst, attr2_trace.
  destruct (snd (attr2 data "author" "permissions")) as [p | e];
    [| reflexivity].
  rewrite bind_fst, py_in_trace.
  destruct (snd (py_in "o" p)) as [[] | e]; reflexivity.
Qed.

(** Splits on the outcome of an attribute access, which makes no call. *)
Ltac read_attr data x y :=
  let Ht := fresh "Ht" in
  pose proof (attr2_trace data x y) as Ht;
  destruct (attr2 data x y) as [? [? | ?]];
  simpl in Ht; subst; simpl.

(** The moderation path acts on a member at most once. *)
Lemma _resolve_and_execute_moderations (data : json) :
  (length (filter is_moderation (fst (_resolve_and_execute cfg b data)))
   <= 1)%nat.
Proof.
  unfold _resolve_and_execute.
  pose proof (_get_channel_from_trace data (channels cfg)) as Hc.
  fold (_get_channel cfg b data) in Hc.
  destruct (_get_channel cfg b data) as [t [[channel |] | e]];
    simpl in Hc; subst; simpl; try lia.
  read_attr data "event" "command"; try lia.
  read_attr data "author" "mask"; try lia.
  read_attr data "event" "content"; try lia.
  destruct (get_guild_from_channel_id b channel) as [guild |]; simpl;
    try lia.
  destruct (get_member_named b guild _) as [member |]; simpl; try lia.
  unfold moderate.
  repeat match goal with
         | |- context [if ?c then _ else _] => destruct c; simpl
         | |- context [moderation_error b ?a] =>
             destruct (moderation_error b a); simpl
         end; lia.
Qed.

(** X15.  [process_command] acts on a member of the guild at most once, and
    only behind the gate: if its trace has a kick, a ban or an unban, then
    the cross-network commands are allowed, the command is one of kick, ban
    and unban, and [_data_has_op] answered True for the envelope. *)
Theorem moderation_only_behind_the_gate (data : json) :
  (length (filter is_moderation (fst (process_command cfg b data)))
   <= 1)%nat
  /\ (filter is_moderation (fst (process_command cfg b data)) <> [] ->
      commands_allowed cfg = true
      /\ _data_has_op data = ret true
      /\ exists command,
           attr2 data "event" "command" = ret command
           /\ in_strs command user_commands = true).
Proof.
  unfold process_command, user_commands.
  destruct (commands_allowed cfg); simpl negb; cbv iota.
  - pose proof (attr2_trace data "event" "command") as Ht.
    destruct (attr2 data "event" "command") as [t [command | e]] eqn:Ecmd;
      simpl in Ht; subst t;
      [| simpl; split; [lia | congruence]].
    rewrite bind_pure.
    destruct (in_strs command ["kick"; "ban"; "unban"]) eqn:Hin;
      [| simpl; split; [lia | congruence]].
    unfold _process_user_command.
    pose proof (_data_has_op_trace data) as Hop.
    destruct (_data_has_op data) as [t [[] | e]] eqn:Eop;
      simpl in Hop; subst t.
    + rewrite bind_pure. simpl negb. cbv iota. split.
      * apply _resolve_and_execute_moderations.
      * intros _. repeat split. exists command. split; [| exact Hin].
        reflexivity.
    + rewrite bind_pure. simpl negb. cbv iota. rewrite Ecmd. simpl.
      split; [lia | congruence].
    + simpl. split; [lia | congruence].
  - pose proof (attr2_trace data "event" "command") as Ht.
    destruct (attr2 data "event" "command") as [t [command | e]];
      simpl in Ht; subst t; simpl; split; try lia; congruence.
Qed.

(** X16.  Once the channel, the guild and the target member are resolved,
    the moderation path announces the command in the channel and calls
    exactly the action the command names, on the resolved guild and member.
    An exception of that call is caught: it is logged as a warning and the
    path returns normally. *)
Theorem moderation_runs_the_named_action
    (data command mask content : json) (name : string)
    (channel guild member : Z) :
  attr2 data "channel" "name" = ret (JStr name) ->
  get_channel b (lookup name (channel_map cfg)) = Some channel ->
  attr2 data "event" "command" = ret command ->
  in_strs command user_commands = true ->
  attr2 data "author" "mask" = ret mask ->
  attr2 data "event" "content" = ret content ->
  get_guild_from_channel_id b channel = Some guild ->
  get_member_named b guild content = Some member ->
  let action := named_action cfg command guild member in
  _resolve_and_execute cfg b data
  = (ChannelSend channel (announcement command mask content)
       :: action
       :: match moderation_error b action with
          | Some e => [Log WARNING ("Unable to send command: " ++ exn_str e)]
          | None => []
          end,
     Ok tt).
Proof.
  intros Hname Hch Hcmd Hin Hmask Hcontent Hguild Hmember action.
  subst action. unfold _resolve_and_execute, named_action, announcement.
  rewrite (_get_channel_spec data name Hname), bind_ret_l, Hch.
  rewrite Hcmd, Hmask, Hcontent, !bind_ret_l. rewrite bind_emit.
  rewrite Hguild, bind_ret_l, Hmember, bind_ret_l.
  apply in_strs_In in Hin. destruct Hin as (s & -> & Hs).
  unfold user_commands in Hs. simpl in Hs.
  destruct Hs as [<- | [<- | [<- | []]]]; simpl eq_str; cbv iota;
    unfold moderate; rewrite bind_emit;
    match goal with
    | |- context [moderation_error b ?a] => destruct (moderation_error b a)
    end; reflexivity.
Qed.

(** X17.  The moderation path gives up before any action on a member when
    it cannot resolve the channel (a warning, nothing sent), the guild of
    the channel (the command is announced, then a critical error is sent
    and logged) or the target member (the command is announced, then the
    channel is told that the target was not found). *)
Theorem unresolved_moderation_is_aborted
    (data command mask content : json) (name : string) :
  attr2 data "channel" "name" = ret (JStr name) ->
  attr2 data "event" "command" = ret command ->
  attr2 data "author" "mask" = ret mask ->
  attr2 data "event" "content" = ret content ->
  (get_channel b (lookup name (channel_map cfg)) = None ->
   _resolve_and_execute cfg b data
   = ([Log WARNING "Unable to find channel to send command alert"], Ok tt))
  /\ (forall channel : Z,
         get_channel b (lookup name (channel_map cfg)) = Some channel ->
         get_guild_from_channel_id b channel = None ->
         _resolve_and_execute cfg b data
         = ([ChannelSend channel (announcement command mask content);
             ChannelSend channel "> Critical error! Aborting command";
             Log WARNING
               "Unable to find guild associated with relay channel (this is unusual)"],
            Ok tt))
  /\ (forall channel guild : Z,
         get_channel b (lookup name (channel_map cfg)) = Some channel ->
         get_guild_from_channel_id b channel = Some guild ->
         get_member_named b guild content = None ->
         _resolve_and_execute cfg b data
         = ([ChannelSend channel (announcement command mask content);
             ChannelSend channel
               ("Unable to locate target `" ++ fmt content
                ++ "`! Aborting command")],
            Ok tt)).
Proof.
  intros Hname Hcmd Hmask Hcontent.
  unfold _resolve_and_execute, announcement.
  rewrite (_get_channel_spec data name Hname), bind_ret_l.
  repeat split.
  - intros ->. reflexivity.
  - intros channel -> Hguild.
    rewrite Hcmd, Hmask, Hcontent, !bind_ret_l, bind_emit, Hguild.
    reflexivity.
  - intros channel guild -> Hguild Hmember.
    rewrite Hcmd, Hmask, Hcontent, !bind_ret_l, bind_emit, Hguild.
    rewrite bind_ret_l, Hmember. reflexivity.
Qed.

Lemma whois_field_spec (response value : json) (name key : string) :
  attr2 response "payload" key = ret value ->
  whois_field response name key = ret (name, or_not_found value).
Proof.
  unfold whois_field, attr2, or_not_found. intro H.
  pose proof (getattr_trace response "payload") as Ht.
  destruct (getattr response "payload") as [t [payload | e]];
    simpl in Ht; subst t; [| discriminate].
  rewrite bind_pure in H. rewrite bind_pure, H, bind_ret_l. reflexivity.
Qed.

(** X18.  A whois answer is sent as a direct message to the user whose id is
    [request.author]: an embed titled with the nick, with the four fields
    User, Host, Realname and Server in this order, a falsy value being
    shown as [Not found].  When the bot knows no such user, there is a
    warning and no call. *)
Theorem whois_answer_is_sent_to_requester
    (data response author nick user host realname server : json) :
  attr2 data "event" "content" = ret response ->
  truthy response = true ->
  getattr response "type" = ret (JStr "whois") ->
  attr2 response "request" "author" = ret author ->
  attr2 response "payload" "nick" = ret nick ->
  attr2 response "payload" "user" = ret user ->
  attr2 response "payload" "host" = ret host ->
  attr2 response "payload" "realname" = ret realname ->
  attr2 response "payload" "server" = ret server ->
  process_response b data
  = match get_user b author with
    | Some requester =>
        ([CreateDm requester;
          DmSendEmbed requester ("WHOIS Response for " ++ fmt nick)
            [("User", or_not_found user); ("Host", or_not_found host);
             ("Realname", or_not_found realname);
             ("Server", or_not_found server)]], Ok tt)
    | None =>
        ([Log WARNING ("Unable to find user with ID " ++ fmt author
                       ++ " associated with response")], Ok tt)
    end.
Proof.
  intros Hresp Htruthy Htype Hauthor Hnick Huser Hhost Hreal Hserver.
  unfold process_response, _process_whois_response.
  rewrite Hresp, bind_ret_l, Htruthy. simpl negb. cbv iota.
  rewrite Htype, bind_ret_l. simpl eq_str. cbv iota.
  rewrite bind_ret_l, Hauthor, bind_ret_l.
  destruct (get_user b author) as [requester |]; [| reflexivity].
  rewrite bind_assoc, bind_emit. rewrite Hnick, bind_ret_l.
  rewrite (whois_field_spec response user "User" "user" Huser), bind_ret_l.
  rewrite (whois_field_spec response host "Host" "host" Hhost), bind_ret_l.
  rewrite (whois_field_spec response realname "Realname" "realname" Hreal),
    bind_ret_l.
  rewrite (whois_field_spec response server "Server" "server" Hserver),
    bind_ret_l.
  reflexivity.
Qed.

End Router.

Section RouterOnSample.
Import IRCReceiver.

(** The chat message of the sample, once deserialized, is the payload, and
    its timestamp is within the threshold. *)
Lemma sample_chat_is_fresh :
  fromJSON (Runtime := PyLib.python) (Sample.wire (Sample.chat Sample.aged_299))
  = Ok (Sample.chat Sample.aged_299)
  /\ exists (s : string) (time : datetime),
       attr2 (Sample.chat Sample.aged_299) "event" "time" = ret (JStr s)
       /\ strptime (Runtime := PyLib.python) s = Ok time
       /\ sub_microseconds Sample.noon time
          <= stale_seconds Sample.cfg * 1000000.
Proof.
  refine (deserialized_envelope_is_fresh (rt := PyLib.python) Sample.cfg
            Sample.noon (Sample.wire (Sample.chat Sample.aged_299))
            [deserialized_debug (Sample.wire (Sample.chat Sample.aged_299))]
            (Sample.chat Sample.aged_299) _ _ eq_refl).
  - vm_compute. reflexivity.
  - vm_compute. reflexivity.
Defined.

(** A payload that is no JSON text is skipped, and the chat message after it
    is delivered. *)
Lemma sample_garbage_then_chat :
  handle_events (rt := PyLib.python) Sample.cfg Sample.the_bot
    [(Sample.noon, "garbage");
     (Sample.noon, Sample.wire (Sample.chat Sample.aged_299))]
  = ([Log WARNING
        "Unable to Munch-deserialize incoming data: Expecting value";
      Log WARNING "Full body: garbage";
      Log WARNING "Unable to deserialize data! Aborting!";
      deserialized_debug (Sample.wire (Sample.chat Sample.aged_299));
      ChannelSend 100 (IRC_LOGO ++ " `bob` hello")], Ok tt).
Proof.
  destruct (refused_payload_is_skipped (rt := PyLib.python) Sample.cfg
              Sample.the_bot Sample.noon "garbage"
              [(Sample.noon, Sample.wire (Sample.chat Sample.aged_299))])
    as [Hskip Hrefuse].
  rewrite (Hskip _ (Hrefuse (JSONDecodeError "Expecting value") eq_refl)).
  vm_compute. reflexivity.
Defined.

(** The message dated [yesterday] raises the ValueError of [strptime]. *)
Lemma sample_undated_raises :
  deserialize (rt := PyLib.python) Sample.cfg Sample.noon
    (Sample.wire Sample.undated)
  = ([], Raise (ValueError "time data does not match format")).
Proof.
  refine (proj1 (proj1 (malformed_timestamp_escapes (rt := PyLib.python)
                          Sample.cfg Sample.the_bot Sample.noon
                          (Sample.wire Sample.undated) Sample.undated
                          (JStr "yesterday") [] _ eq_refl eq_refl)
                   "yesterday" (ValueError "time data does not match format")
                   eq_refl eq_refl)).
  vm_compute. reflexivity.
Defined.

(** The chat message of the sample is formatted to a line. *)
Lemma sample_chat_is_formatted :
  match snd (process_message (rt := PyLib.python)
               (Sample.chat Sample.aged_299)) with
  | Ok (Some line) => line <> "" /\ exists tail, line = IRC_LOGO ++ tail
  | Ok None => False
  | Raise _ => True
  end.
Proof.
  exact (display_types_are_all_formatted (rt := PyLib.python)
           (Sample.chat Sample.aged_299) (JStr "message") eq_refl eq_refl).
Defined.

(** The chat message goes to the channel 100; the factoid request goes
    nowhere. *)
Lemma sample_chat_and_factoid_request :
  route_event (rt := PyLib.python) Sample.cfg Sample.the_bot "body"
    (Sample.chat Sample.aged_299)
  = ([ChannelSend 100 (IRC_LOGO ++ " `bob` hello")], Ok tt)
  /\ route_event (rt := PyLib.python) Sample.cfg_tagging Sample.the_bot
       "body" Sample.ping
     = ([ChannelSend 100 (IRC_LOGO ++ " `@bob` ping <@55>")], Ok tt)
  /\ route_event (rt := PyLib.python) Sample.cfg Sample.the_bot "body"
       Sample.ping
     = ([], Raise (AttributeError "channel"))
  /\ route_event (rt := PyLib.python) Sample.cfg Sample.the_bot "body"
       Sample.factoid_request
     = ([Log DEBUG "Ignoring factoid request event"], Ok tt).
Proof.
  pose (tagged := [Kept (IRC_LOGO ++ " `"); Matched "@bob";
                   Kept "` ping "; Matched "@spammer"; Kept ""]).
  split; [| split; [| split]].
  - refine (proj2 (proj2 (proj2 (display_event_goes_to_mapped_channel
                                   (rt := PyLib.python)
                                   Sample.cfg Sample.the_bot "body"
                                   (Sample.chat Sample.aged_299)
                                   (JStr "message") JNull
                                   eq_refl eq_refl eq_refl)
                            eq_refl (IRC_LOGO ++ " `bob` hello") "#support"
                            eq_refl eq_refl)
                     [Kept (IRC_LOGO ++ " `bob` hello")] eq_refl) _).
    right. reflexivity.
  - refine (proj2 (proj2 (proj2 (display_event_goes_to_mapped_channel
                                   (rt := PyLib.python)
                                   Sample.cfg_tagging Sample.the_bot "body"
                                   Sample.ping (JStr "message") JNull
                                   eq_refl eq_refl eq_refl)
                            eq_refl (IRC_LOGO ++ " `@bob` ping @spammer")
                            "#support" eq_refl eq_refl)
                     tagged eq_refl) _).
    left. discriminate.
  - exact (proj1 (proj2 (proj2 (display_event_goes_to_mapped_channel
                                  (rt := PyLib.python)
                                  Sample.cfg Sample.the_bot "body"
                                  Sample.ping (JStr "message") JNull
                                  eq_refl eq_refl eq_refl)
                           eq_refl (IRC_LOGO ++ " `@bob` ping @spammer")
                           "#support" eq_refl eq_refl)
                    tagged eq_refl) eq_refl eq_refl).
  - exact (proj1 (display_event_goes_to_mapped_channel (rt := PyLib.python)
                    Sample.cfg Sample.the_bot "body" Sample.factoid_request
                    (JStr "message") (JStr "factoid_request")
                    eq_refl eq_refl eq_refl) eq_refl).
Defined.

(** The kick of the sample acts on a member, so it came through the
    gate. *)
Lemma sample_kick_came_through_the_gate :
  commands_allowed Sample.cfg = true
  /\ _data_has_op (Sample.command "kick" (JStr "o")) = ret true
  /\ exists command,
       attr2 (Sample.command "kick" (JStr "o")) "event" "command"
       = ret command
       /\ in_strs command user_commands = true.
Proof.
  refine (proj2 (moderation_only_behind_the_gate (rt := PyLib.python)
                   Sample.cfg Sample.the_bot
                   (Sample.command "kick" (JStr "o"))) _).
  vm_compute. discriminate.
Defined.

(** With a bot whose kick fails, the kick of the sample is announced and
    tried, and the failure is logged. *)
Lemma sample_failed_kick :
  _resolve_and_execute (rt := PyLib.python) Sample.cfg Sample.strict_bot
    (Sample.command "kick" (JStr "o"))
  = ([ChannelSend 100
        "Executing IRC **kick** command from `bob!bob@example.org` on target `spammer`";
      GuildKick 1 55;
      Log WARNING "Unable to send command: Missing Permissions"], Ok tt).
Proof.
  exact (moderation_runs_the_named_action (rt := PyLib.python)
           Sample.cfg Sample.strict_bot (Sample.command "kick" (JStr "o"))
           (JStr "kick") (JStr "bob!bob@example.org") (JStr "spammer")
           "#support" 100 1 55
           eq_refl eq_refl eq_refl eq_refl eq_refl eq_refl eq_refl eq_refl).
Defined.

(** With a bot that does not know the mapped channel, the kick of the
    sample is given up with a warning. *)
Lemma sample_kick_without_channel :
  _resolve_and_execute (rt := PyLib.python) Sample.cfg Sample.lost_bot
    (Sample.command "kick" (JStr "o"))
  = ([Log WARNING "Unable to find channel to send command alert"], Ok tt).
Proof.
  exact (proj1 (unresolved_moderation_is_aborted (rt := PyLib.python)
                  Sample.cfg Sample.lost_bot
                  (Sample.command "kick" (JStr "o"))
                  (JStr "kick") (JStr "bob!bob@example.org") (JStr "spammer")
                  "#support" eq_refl eq_refl eq_refl eq_refl) eq_refl).
Defined.

(** The whois answer of the sample is sent to the user 42, its missing real
    name shown as [Not found]. *)
Lemma sample_whois_answer :
  process_response (rt := PyLib.python) Sample.strict_bot Sample.whois_answer
  = ([CreateDm 42;
      DmSendEmbed 42 "WHOIS Response for bob"
        [("User", "bob"); ("Host", "example.org");
         ("Realname", "Not found"); ("Server", "irc.example.org")]], Ok tt).
Proof.
  exact (whois_answer_is_sent_to_requester (rt := PyLib.python)
           Sample.strict_bot Sample.whois_answer
           (JObj [("type", JStr "whois");
                  ("request", JObj [("author", JInt 42)]);
                  ("payload",
                   JObj [("nick", JStr "bob"); ("user", JStr "bob");
                         ("host", JStr "example.org"); ("realname", JNull);
                         ("server", JStr "irc.example.org")])])
           (JInt 42) (JStr "bob") (JStr "bob") (JStr "example.org") JNull
           (JStr "irc.example.org")
           eq_refl eq_refl eq_refl eq_refl eq_refl eq_refl eq_refl eq_refl
           eq_refl).
Defined.

End RouterOnSample.
